(** * FinvizScraper: a shallow embedding of [web_scapper.py]

    The development follows the source file top to bottom:
    - [Num]: the numbers the scorer computes with;
    - [Py]: the Python values stored in a snapshot, exceptions, and the
      built-in operations the source applies to them;
    - [Itertools]: [itertools.cycle];
    - [Html]: the part of a parsed page that the selectors of the source see;
    - [Scraper]: the class [FinvizScraper], method by method.

    Modelling decisions.
    - A Python [float] is an extended rational: a finite value is an exact
      rational, and [inf], [-inf] and [nan] are values of their own.  Rounding
      to binary64 and the sign of zero are not modelled.  Python [int]s are
      embedded in the same type (Python compares and combines an [int] with
      a [float] by value).  No finite [float] reaches [Py.float_limit]; a
      finite number from there on stands for an [int], and Python raises
      [OverflowError] when it has to convert such an [int] to a [float].
      A decimal literal that large is read by [float] as an infinity.
    - A string is a sequence of characters below U+0100; [str.strip] and
      [float] each have their own white space among them.
    - Logging is not observable by any caller and is left out. *)

From Stdlib Require Import QArith Qabs Qpower ZArith Lia Lqa Ascii String.
From stdpp Require Import base option list strings gmap.

(** ** Numbers *)

Module Num.
Local Open Scope Q_scope.

Inductive num : Type :=
| Fin (q : Q)
| PInf
| NInf
| NaN.

Definition Qltb (a b : Q) : bool := negb (Qle_bool b a).

Definition zero : num := Fin 0.

(** [a < b] on floats: every comparison with [nan] is false. *)
Definition lt (a b : num) : bool :=
  match a, b with
  | NaN, _ | _, NaN => false
  | Fin x, Fin y => Qltb x y
  | NInf, (Fin _ | PInf) => true
  | Fin _, PInf => true
  | _, _ => false
  end.

(** [a <= b] on floats. *)
Definition le (a b : num) : bool :=
  match a, b with
  | NaN, _ | _, NaN => false
  | Fin x, Fin y => Qle_bool x y
  | NInf, _ => true
  | _, PInf => true
  | _, _ => false
  end.

Definition neg (a : num) : num :=
  match a with
  | Fin x => Fin (- x)
  | PInf => NInf
  | NInf => PInf
  | NaN => NaN
  end.

Definition add (a b : num) : num :=
  match a, b with
  | NaN, _ | _, NaN => NaN
  | Fin x, Fin y => Fin (x + y)
  | PInf, NInf | NInf, PInf => NaN
  | PInf, _ | _, PInf => PInf
  | NInf, _ | _, NInf => NInf
  end.

Definition sub (a b : num) : num := add a (neg b).

(** The product of an infinity with a finite [x]. *)
Definition scale_inf (positive : bool) (x : Q) : num :=
  if Qltb 0 x then (if positive then PInf else NInf)
  else if Qltb x 0 then (if positive then NInf else PInf)
  else NaN.

Definition mul (a b : num) : num :=
  match a, b with
  | NaN, _ | _, NaN => NaN
  | Fin x, Fin y => Fin (x * y)
  | PInf, Fin y => scale_inf true y
  | NInf, Fin y => scale_inf false y
  | Fin x, PInf => scale_inf true x
  | Fin x, NInf => scale_inf false x
  | PInf, PInf | NInf, NInf => PInf
  | PInf, NInf | NInf, PInf => NInf
  end.

Definition abs (a : num) : num :=
  match a with
  | Fin x => Fin (Qabs x)
  | PInf | NInf => PInf
  | NaN => NaN
  end.

(** Division by a positive count, as [np.mean] does after summing. *)
Definition div_count (a : num) (n : nat) : num :=
  match a with
  | Fin x => Fin (x / inject_Z (Z.of_nat n))
  | other => other
  end.

(** Equality of numbers up to the representation of a rational. *)
Definition eqv (a b : num) : Prop :=
  match a, b with
  | Fin x, Fin y => x == y
  | PInf, PInf | NInf, NInf | NaN, NaN => True
  | _, _ => False
  end.

(** [lo <= a <= hi] for a finite [a]; false for [inf] and [nan]. *)
Definition between (lo hi : Q) (a : num) : Prop :=
  match a with
  | Fin x => lo <= x /\ x <= hi
  | _ => False
  end.

End Num.

Abbreviation num := Num.num.
Abbreviation Fin := Num.Fin.
Abbreviation PInf := Num.PInf.
Abbreviation NInf := Num.NInf.
Abbreviation NaN := Num.NaN.

(** ** Python values, exceptions and built-ins *)

Module Py.
Local Open Scope Q_scope.

(** What a snapshot field or a local variable of the scorer can hold. *)
Inductive value : Type :=
| VNum (x : num)
| VStr (s : string)
| VNone.

Inductive exn : Type :=
| TypeError
| OverflowError
| ValueError (msg : string)
| HTTPError (status : Z)
| ConnectionError
| StopIteration.

Inductive result (A : Type) : Type :=
| Ok (a : A)
| Raise (e : exn).
Arguments Ok {A} a.
Arguments Raise {A} e.

Definition bind {A B} (r : result A) (k : A -> result B) : result B :=
  match r with
  | Ok a => k a
  | Raise e => Raise e
  end.

Definition int (z : Z) : value := VNum (Fin (inject_Z z)).

(** [a < b].  Two numbers compare by value, two strings lexicographically;
    any other pairing is a [TypeError]. *)
Definition lt (a b : value) : result bool :=
  match a, b with
  | VNum x, VNum y => Ok (Num.lt x y)
  | VStr s, VStr t => Ok (String.ltb s t)
  | _, _ => Raise TypeError
  end.

(** [a > b] is [b < a] for these types. *)
Definition gt (a b : value) : result bool := lt b a.

(** [a >= b]: for numbers [b <= a], which [nan] never satisfies. *)
Definition ge (a b : value) : result bool :=
  match a, b with
  | VNum x, VNum y => Ok (Num.le y x)
  | VStr s, VStr t => Ok (negb (String.ltb s t))
  | _, _ => Raise TypeError
  end.

(** [a - b]: numbers only. *)
Definition sub (a b : value) : result value :=
  match a, b with
  | VNum x, VNum y => Ok (VNum (Num.sub x y))
  | _, _ => Raise TypeError
  end.

(** Where the float range ends: a number is rounded to the nearest [float],
    and from [2^1024 - 2^970] on, half way between the largest [float] and
    [2^1024], there is none. *)
Definition float_limit : Q := inject_Z (2 ^ 1024 - 2 ^ 970).
Arguments float_limit : simpl never.

(** [x] is a [float], or an [int] that a [float] can hold. *)
Definition in_float_range (x : num) : bool :=
  match x with
  | Fin q => Num.Qltb (Qabs q) float_limit
  | _ => true
  end.

(** [a * c] for a [float] literal [c].  An [int] operand is converted to a
    [float] first, which is an [OverflowError] when it is out of the float
    range; a string or [None] times a [float] is a [TypeError]. *)
Definition mul_float (a : value) (c : Q) : result value :=
  match a with
  | VNum x =>
      if in_float_range x then Ok (VNum (Num.mul x (Fin c))) else Raise OverflowError
  | _ => Raise TypeError
  end.

Fixpoint repeat_string (n : nat) (s : string) : string :=
  match n with
  | O => EmptyString
  | S k => String.app s (repeat_string k s)
  end.

(** [a * n] for an [int] literal [n]: a string is repeated [n] times. *)
Definition mul_int (a : value) (n : Z) : result value :=
  match a with
  | VNum x => Ok (VNum (Num.mul x (Fin (inject_Z n))))
  | VStr s => Ok (VStr (repeat_string (Z.to_nat n) s))
  | VNone => Raise TypeError
  end.

(** [abs(a)]. *)
Definition abs (a : value) : result value :=
  match a with
  | VNum x => Ok (VNum (Num.abs x))
  | _ => Raise TypeError
  end.

(** [min(a, b)]: the first argument unless the second is smaller. *)
Definition min (a b : value) : result value :=
  bind (lt b a) (fun smaller => Ok (if smaller then b else a)).

(** [max(a, b)]: the first argument unless the second is greater. *)
Definition max (a b : value) : result value :=
  bind (gt b a) (fun greater => Ok (if greater then b else a)).

(** [np.mean(scores)] of a list: the sum of the entries from left to right,
    divided by their number; [nan] for the empty list; entries that are not
    numbers are rejected. *)
Fixpoint numbers (l : list value) : result (list num) :=
  match l with
  | [] => Ok []
  | VNum x :: r => bind (numbers r) (fun xs => Ok (x :: xs))
  | _ :: _ => Raise TypeError
  end.

Definition total (xs : list num) : num := fold_left Num.add xs Num.zero.

Definition np_mean (l : list value) : result value :=
  bind (numbers l) (fun xs =>
    match xs with
    | [] => Ok (VNum NaN)
    | _ => Ok (VNum (Num.div_count (total xs) (length xs)))
    end).

(** *** Strings *)

(** The characters for which [str.isspace] holds: tab to carriage return,
    the four separators, the space, next line and the no-break space. *)
Definition is_space (c : ascii) : bool :=
  let n := nat_of_ascii c in
  ((9 <=? n) && (n <=? 13) || (28 <=? n) && (n <=? 32)
   || (n =? 133) || (n =? 160))%nat.

Fixpoint lstrip (s : string) : string :=
  match s with
  | String c r => if is_space c then lstrip r else s
  | EmptyString => EmptyString
  end.

Definition rstrip (s : string) : string := String.rev (lstrip (String.rev s)).

(** [s.strip()]. *)
Definition strip (s : string) : string := rstrip (lstrip s).

(** [s.replace(c, '')] for a one-character [c]. *)
Fixpoint remove_char (c : ascii) (s : string) : string :=
  match s with
  | String d r => if Ascii.eqb c d then remove_char c r else String d (remove_char c r)
  | EmptyString => EmptyString
  end.

Definition lower (c : ascii) : ascii :=
  let n := nat_of_ascii c in
  if ((65 <=? n) && (n <=? 90))%nat then ascii_of_nat (n + 32) else c.

Fixpoint lowercase (s : string) : string :=
  match s with
  | String c r => String (lower c) (lowercase r)
  | EmptyString => EmptyString
  end.

(** *** [float(s)] *)

Definition digit (c : ascii) : option Z :=
  let n := nat_of_ascii c in
  if ((48 <=? n) && (n <=? 57))%nat then Some (Z.of_nat (n - 48)) else None.

(** A [digitpart]: digits, with single underscores allowed between two
    digits.  Returns the number read on top of [acc], how many digits were
    read on top of [count], and the rest of the string. *)
Fixpoint digits (acc : Z) (count : nat) (s : string) : Z * nat * string :=
  match s with
  | String c r =>
      match digit c with
      | Some d => digits (10 * acc + d) (S count) r
      | None =>
          if Ascii.eqb c "_" && (0 <? count)%nat then
            match r with
            | String c' r' =>
                match digit c' with
                | Some d => digits (10 * acc + d) (S count) r'
                | None => (acc, count, s)
                end
            | EmptyString => (acc, count, s)
            end
          else (acc, count, s)
      end
  | EmptyString => (acc, count, s)
  end.

(** An optional sign: whether it is a minus, and the rest. *)
Definition sign_of (s : string) : bool * string :=
  match s with
  | String "-" r => (true, r)
  | String "+" r => (false, r)
  | _ => (false, s)
  end.

(** What follows the mantissa: nothing, or [e] or [E], an optional sign and
    a [digitpart], up to the end of the string. *)
Definition exponent (s : string) : option Z :=
  match s with
  | EmptyString => Some 0%Z
  | String c r =>
      if Ascii.eqb (lower c) "e" then
        let '(negative, r1) := sign_of r in
        match digits 0 0 r1 with
        | (e, S _, EmptyString) => Some (if negative then - e else e)%Z
        | _ => None
        end
      else None
  end.

(** An unsigned decimal literal: [digitpart], [digitpart.], [.digitpart] or
    [digitpart.digitpart], then the exponent. *)
Definition decimal (s : string) : option Q :=
  let '(m1, n1, r1) := digits 0 0 s in
  let '(m2, n2, r2) :=
    match r1 with
    | String "." r => digits m1 0 r
    | _ => (m1, O, r1)
    end in
  if (n1 + n2 =? 0)%nat then None
  else
    match exponent r2 with
    | Some e => Some (inject_Z m2 * Qpower 10 (e - Z.of_nat n2))
    | None => None
    end.

(** The white space that [float] skips around the literal: that of
    [str.isspace] without the four separators. *)
Definition is_float_space (c : ascii) : bool :=
  let n := nat_of_ascii c in
  ((9 <=? n) && (n <=? 13) || (n =? 32) || (n =? 133) || (n =? 160))%nat.

Fixpoint float_lstrip (s : string) : string :=
  match s with
  | String c r => if is_float_space c then float_lstrip r else s
  | EmptyString => EmptyString
  end.

Definition float_strip (s : string) : string :=
  String.rev (float_lstrip (String.rev (float_lstrip s))).

(** The [float] that a literal of value [q] is read as: within the float
    range the number itself, beyond it the infinity of its sign. *)
Definition nearest_float (q : Q) : num :=
  if in_float_range (Fin q) then Fin q
  else if Num.Qltb 0 q then PInf else NInf.

(** [float(s)]: surrounding whitespace is ignored; a sign, then [inf],
    [infinity] or [nan] in any case, or a decimal literal; anything else is a
    [ValueError]. *)
Definition float_of_string (s : string) : result num :=
  let '(negative, r) := sign_of (float_strip s) in
  let l := lowercase r in
  if String.eqb l "inf" || String.eqb l "infinity" then
    Ok (if negative then NInf else PInf)
  else if String.eqb l "nan" then Ok NaN
  else
    match decimal r with
    | Some q => Ok (nearest_float (if negative then - q else q))
    | None => Raise (ValueError "could not convert string to float")
    end.

End Py.

Abbreviation value := Py.value.
Abbreviation VNum := Py.VNum.
Abbreviation VStr := Py.VStr.
Abbreviation VNone := Py.VNone.
Abbreviation result := Py.result.
Abbreviation Ok := Py.Ok.
Abbreviation Raise := Py.Raise.
Abbreviation TypeError := Py.TypeError.
Abbreviation OverflowError := Py.OverflowError.
Abbreviation ValueError := Py.ValueError.
Abbreviation HTTPError := Py.HTTPError.
Abbreviation ConnectionError := Py.ConnectionError.
Abbreviation StopIteration := Py.StopIteration.

(** ** [itertools.cycle] *)

Module Itertools.

Section Cycle.
Context {A : Type}.

(** The iterator first draws from its argument, saving what it yields; when
    the argument is exhausted it replays the saved elements, again and
    again. *)
Inductive cycle : Type :=
| Filling (rest saved : list A)
| Replaying (rest saved : list A).

(** [cycle(iterable)]. *)
Definition make (iterable : list A) : cycle := Filling iterable [].

(** [next(it)]: the element and the iterator afterwards; [None] stands for
    [StopIteration], which only an empty iterable gives. *)
Definition next (it : cycle) : option (A * cycle) :=
  match it with
  | Filling (x :: rest) saved => Some (x, Filling rest (saved ++ [x]))
  | Filling [] saved | Replaying [] saved =>
      match saved with
      | x :: rest => Some (x, Replaying rest saved)
      | [] => None
      end
  | Replaying (x :: rest) saved => Some (x, Replaying rest saved)
  end.

(** The first [n] elements drawn from [it]. *)
Fixpoint draw (n : nat) (it : cycle) : list A :=
  match n with
  | O => []
  | S k =>
      match next it with
      | Some (x, it') => x :: draw k it'
      | None => []
      end
  end.

(** [at_cursor pool i it]: [it] is what [make pool] has become after [i]
    calls of [next]. *)
Definition at_cursor (pool : list A) (i : nat) (it : cycle) : Prop :=
  (i <= length pool /\ it = Filling (drop i pool) (take i pool))
  \/ (exists j, 0 < j <= length pool /\ j mod length pool = i mod length pool
              /\ it = Replaying (drop j pool) pool).

End Cycle.
Arguments cycle A : clear implicits.

End Itertools.


(** ** The parsed page *)

Module Html.

(** A [tr] element: its class tokens and the text of its [td] cells. *)
Record tr : Type := { tr_class : list string; td : list string }.

(** A [table] element: its class tokens, its [id] and its [tr] elements. *)
Record table : Type :=
  { table_class : list string; table_id : option string; trs : list tr }.

(** [BeautifulSoup(response.text, 'html.parser')], as far as the source looks
    at it: the [table] elements in document order. *)
Abbreviation soup := (list table).

Definition has_class (name : string) (classes : list string) : bool :=
  existsb (String.eqb name) classes.

Definition has_id (name : string) (id : option string) : bool :=
  match id with
  | Some i => String.eqb name i
  | None => false
  end.

(** [soup.find_all('table', class_=name)]. *)
Definition find_all_class (name : string) (page : soup) : list table :=
  filter (fun t => has_class name (table_class t) = true) page.

(** [soup.find('table', class_=name)]: the first match, or [None]. *)
Definition find_class (name : string) (page : soup) : option table :=
  head (find_all_class name page).

(** [soup.find('table', {'id': name})]. *)
Definition find_id (name : string) (page : soup) : option table :=
  head (filter (fun t => has_id name (table_id t) = true) page).

(** [table.find('tr', class_=name)]. *)
Definition find_tr_class (name : string) (t : table) : option tr :=
  head (filter (fun r => has_class name (tr_class r) = true) (trs t)).

(** [a or b] on the results of [find]: a tag is always truthy. *)
Definition or_else {A} (a b : option A) : option A :=
  match a with
  | Some _ => a
  | None => b
  end.

End Html.

#[global] Instance result_ret : MRet result := @Py.Ok.
#[global] Instance result_bind : MBind result := fun A B k r => Py.bind r k.
#[global] Instance result_throw : MThrow Py.exn result := @Py.Raise.

(** ** The class [FinvizScraper] *)

Module Scraper.

Import Py.

(** *** The instance and its surroundings *)

Record FinvizScraper : Type :=
  { base_url : string;
    user_agents : list string;
    user_agent_cycle : Itertools.cycle string;
    proxies : option (Itertools.cycle string);
    last_request_time : Q;
    min_request_interval : Q }.

(** What [requests.get] was called with, and the clock at that moment. *)
Record request : Type :=
  { req_url : string;
    req_user_agent : string;
    req_proxy : option string;
    req_start : Q }.

(** [requests.Response]: the status, and the body as the parser presents
    it. *)
Record response : Type := { status_code : Z; text : Html.soup }.

(** The instance, the clock read by [time.time()], and the requests put on
    the wire so far, oldest first. *)
Record machine : Type :=
  { self : FinvizScraper; clock : Q; wire : list request }.

(** What the surroundings decide during one call of [_make_request]: the
    sample of [random.uniform(0.5, 1.5)], how long [requests.get] takes, and
    whether it returns a response or raises. *)
Record env : Type := { jitter : Q; latency : Q; reply : result response }.

(** Computations that read and change the machine and may raise; what was
    changed before an exception stays changed. *)
Definition M (A : Type) : Type := machine -> result A * machine.

#[global] Instance M_ret : MRet M := fun A a m => (Ok a, m).
#[global] Instance M_bind : MBind M := fun A B k c m =>
  match c m with
  | (Ok a, m') => k a m'
  | (Raise e, m') => (Raise e, m')
  end.
#[global] Instance M_throw : MThrow exn M := fun A e m => (Raise e, m).

Definition gets {A} (field : FinvizScraper -> A) : M A :=
  fun m => (Ok (field (self m)), m).

Definition set_self (s : FinvizScraper) : M unit :=
  fun m => (Ok tt, {| self := s; clock := clock m; wire := wire m |}).

Definition set_last_request_time (t : Q) : M unit :=
  s ← gets id;
  set_self {| base_url := base_url s; user_agents := user_agents s;
              user_agent_cycle := user_agent_cycle s; proxies := proxies s;
              last_request_time := t;
              min_request_interval := min_request_interval s |}.

Definition set_user_agent_cycle (it : Itertools.cycle string) : M unit :=
  s ← gets id;
  set_self {| base_url := base_url s; user_agents := user_agents s;
              user_agent_cycle := it; proxies := proxies s;
              last_request_time := last_request_time s;
              min_request_interval := min_request_interval s |}.

Definition set_proxies (it : Itertools.cycle string) : M unit :=
  s ← gets id;
  set_self {| base_url := base_url s; user_agents := user_agents s;
              user_agent_cycle := user_agent_cycle s; proxies := Some it;
              last_request_time := last_request_time s;
              min_request_interval := min_request_interval s |}.

(** [time.time()]. *)
Definition time_time : M Q := fun m => (Ok (clock m), m).

Definition advance (d : Q) (m : machine) : machine :=
  {| self := self m; clock := (clock m + d)%Q; wire := wire m |}.

(** [time.sleep(d)]: a negative length is a [ValueError]; otherwise the
    clock has moved on by [d] when the call returns (the least that
    [time.sleep] promises). *)
Definition time_sleep (d : Q) : M unit :=
  fun m =>
    if Num.Qltb d 0 then (Raise (ValueError "sleep length must be non-negative"), m)
    else (Ok tt, advance d m).

(** [next(it)] for an [itertools.cycle]. *)
Definition next_of (it : Itertools.cycle string) : M (string * Itertools.cycle string) :=
  match Itertools.next it with
  | Some r => mret r
  | None => mthrow StopIteration
  end.

(** [requests.get(url, headers=..., proxies=...)]: the request goes on the
    wire, the call takes [latency e], and ends as [reply e] says. *)
Definition requests_get (e : env) (url user_agent : string) (proxy : option string)
  : M response :=
  fun m =>
    let sent := {| req_url := url; req_user_agent := user_agent;
                   req_proxy := proxy; req_start := clock m |} in
    (reply e, {| self := self m; clock := (clock m + latency e)%Q;
                 wire := wire m ++ [sent] |}).

(** [response.raise_for_status()]. *)
Definition raise_for_status (r : response) : result unit :=
  if ((400 <=? status_code r) && (status_code r <? 600))%Z
  then Raise (HTTPError (status_code r))
  else Ok tt.

(** A pure, fallible step inside [M]. *)
Definition lift {A} (r : result A) : M A := fun m => (r, m).

(** *** [__init__] *)

Definition __init__ (proxy_list : option (list string)) : FinvizScraper :=
  let agents :=
    ["Mozilla/5.0 (Windows NT 10.0; Win64; x64) AppleWebKit/537.36 (KHTML, like Gecko) Chrome/91.0.4472.124 Safari/537.36";
     "Mozilla/5.0 (Macintosh; Intel Mac OS X 10_15_7) AppleWebKit/537.36 (KHTML, like Gecko) Chrome/91.0.4472.124 Safari/537.36";
     "Mozilla/5.0 (Windows NT 10.0; Win64; x64; rv:89.0) Gecko/20100101 Firefox/89.0";
     "Mozilla/5.0 (Macintosh; Intel Mac OS X 10_15_7) AppleWebKit/605.1.15 (KHTML, like Gecko) Version/14.1.1 Safari/605.1.15";
     "Mozilla/5.0 (X11; Linux x86_64) AppleWebKit/537.36 (KHTML, like Gecko) Chrome/91.0.4472.124 Safari/537.36"] in
  {| base_url := "https://finviz.com";
     user_agents := agents;
     user_agent_cycle := Itertools.make agents;
     proxies :=
       match proxy_list with
       | Some (p :: ps) => Some (Itertools.make (p :: ps))
       | _ => None
       end;
     last_request_time := 0;
     min_request_interval := 2 |}.

(** *** [_make_request] *)

(** Lines 56-75: the rate limit, the next user agent, the next proxy, the
    random pause.  Returns the user agent and the proxy to use. *)
Definition acquire (e : env) : M (string * option string) :=
  now ← time_time;
  last ← gets last_request_time;
  interval ← gets min_request_interval;
  let time_since_last_request := (now - last)%Q in
  (if Num.Qltb time_since_last_request interval
   then time_sleep (interval - time_since_last_request)%Q
   else mret tt);;
  agents ← gets user_agent_cycle;
  '(user_agent, agents') ← next_of agents;
  set_user_agent_cycle agents';;
  pool ← gets proxies;
  proxy ← match pool with
          | Some it =>
              '(proxy, it') ← next_of it;
              set_proxies it';;
              mret (Some proxy)
          | None => mret None
          end;
  time_sleep (jitter e);;
  mret (user_agent, proxy).

(** Lines 77-80 after [acquire]: the request, then the time stamp. *)
Definition _make_request (e : env) (url : string) : M response :=
  '(user_agent, proxy) ← acquire e;
  response ← requests_get e url user_agent proxy;
  now ← time_time;
  set_last_request_time now;;
  mret response.

(** *** [_convert_value] *)

(** Commas and percent signs are removed; the result is the number [float]
    reads, or, when [float] raises [ValueError], the string without its
    commas and percent signs. *)
Definition _convert_value (value : string) : Py.value :=
  let value := remove_char "%" (remove_char "," value) in
  match float_of_string value with
  | Ok x => VNum x
  | Raise _ => VStr value
  end.

(** *** [get_company_data] *)

(** Lines 107-111: the cells of one row, taken two by two; a last cell
    without a partner is skipped. *)
Fixpoint read_columns (columns : list string) (data : gmap string value)
  : gmap string value :=
  match columns with
  | key :: value :: rest =>
      read_columns rest (<[strip key := _convert_value (strip value)]> data)
  | _ => data
  end.

Definition read_rows (rows : list Html.tr) (data : gmap string value)
  : gmap string value :=
  fold_left (fun data row => read_columns (Html.td row) data) rows data.

Definition read_tables (tables : list Html.table) (data : gmap string value)
  : gmap string value :=
  fold_left (fun data table => read_rows (Html.trs table) data) tables data.

(** The [except] clause logs and raises the exception again, so the outcome
    is that of the body. *)
Definition get_company_data (e : env) (url : string) : M (gmap string value) :=
  response ← _make_request e url;
  lift (raise_for_status response);;
  let soup := text response in
  let tables := Html.find_all_class "snapshot-table2" soup in
  mret (read_tables tables ∅).

(** *** [get_sector_data] *)

Section Sector.

(** The two pandas steps: [pd.DataFrame(data, columns=headers)] and the
    conversion of the percentage columns (lines 160-165). *)
Variable DataFrame : Type.
Variable pd_DataFrame : list (list string) -> list string -> result DataFrame.
Variable percent_columns : DataFrame -> result DataFrame.

(** Lines 138-140: three selectors, the first that matches wins. *)
Definition find_sector_table (soup : Html.soup) : option Html.table :=
  Html.or_else (Html.find_class "table-light" soup)
    (Html.or_else (Html.find_class "groups-table-overview" soup)
       (Html.find_id "groups-table-overview" soup)).

Definition sector_url (s : FinvizScraper) : string :=
  String.app (base_url s) "/quote.ashx?t=&ty=c&p=d&b=1".

Definition get_sector_data (e : env) : M DataFrame :=
  url ← gets sector_url;
  response ← _make_request e url;
  lift (raise_for_status response);;
  let soup := text response in
  match find_sector_table soup with
  | None => mthrow (ValueError "Sector table not found")
  | Some table =>
      let headers :=
        match Html.find_tr_class "table-header" table with
        | Some header_row => map strip (Html.td header_row)
        | None => []
        end in
      let rows := drop 1 (Html.trs table) in
      let data := map (fun row => map strip (Html.td row)) rows in
      df ← lift (pd_DataFrame data headers);
      lift (percent_columns df)
  end.

End Sector.

(** *** The scores *)

(** [max(0, min(100, x))]. *)
Definition clamp (x : value) : result value :=
  low ← Py.min (int 100) x;
  Py.max (int 0) low.

(** [np.mean(scores) if scores else 0]. *)
Definition mean_or_zero (scores : list value) : result value :=
  match scores with
  | [] => mret (int 0)
  | _ => np_mean scores
  end.

Definition pe_score (pe : value) : result value :=
  d ← Py.sub (int 30) pe; x ← Py.mul_float d 3.33; clamp x.

Definition peg_score (peg : value) : result value :=
  d ← Py.sub (int 1) peg; a ← Py.abs d; b ← Py.sub (int 2) a;
  x ← Py.mul_int b 50; clamp x.

Definition pb_score (pb : value) : result value :=
  d ← Py.sub (int 5) pb; x ← Py.mul_int d 20; clamp x.

(** [if guard: scores.append(score)]. *)
Definition append_if (guard : result bool) (score : result value)
  (scores : list value) : result (list value) :=
  included ← guard;
  if included : bool then (s ← score; mret (scores ++ [s])) else mret scores.

Definition valuation_components (pe peg pb : value) : result (list value) :=
  scores ← append_if (Py.gt pe (int 0)) (pe_score pe) [];
  scores ← append_if (Py.gt peg (int 0)) (peg_score peg) scores;
  append_if (Py.gt pb (int 0)) (pb_score pb) scores.

Definition _calculate_valuation_score (pe peg pb : value) : result value :=
  scores ← valuation_components pe peg pb;
  mean_or_zero scores.

(** [x is not None]. *)
Definition is_not_None (x : value) : result bool :=
  mret (match x with VNone => false | _ => true end).

Definition growth_score (growth : value) : result value :=
  x ← Py.mul_int growth 5; clamp x.

Definition _calculate_growth_score (earnings_growth sales_growth : value)
  : result value :=
  scores ← append_if (is_not_None earnings_growth) (growth_score earnings_growth) [];
  scores ← append_if (is_not_None sales_growth) (growth_score sales_growth) scores;
  mean_or_zero scores.

Definition current_ratio_score (current_ratio : value) : result value :=
  x ← Py.mul_int current_ratio 50; clamp x.

Definition debt_equity_score (debt_equity : value) : result value :=
  d ← Py.sub (int 2) debt_equity; x ← Py.mul_int d 50; clamp x.

Definition health_components (current_ratio debt_equity : value)
  : result (list value) :=
  scores ← append_if (Py.gt current_ratio (int 0)) (current_ratio_score current_ratio) [];
  append_if (Py.ge debt_equity (int 0)) (debt_equity_score debt_equity) scores.

Definition _calculate_financial_health_score (current_ratio debt_equity : value)
  : result value :=
  scores ← health_components current_ratio debt_equity;
  mean_or_zero scores.

(** [company_data.get(key, 0)]. *)
Definition get_or_zero (company_data : gmap string value) (key : string) : value :=
  default (int 0) (company_data !! key).

Definition get_stock_rating_data (company_data : gmap string value)
  : result (gmap string value) :=
  let ratings : gmap string value := ∅ in
  let pe_ratio := get_or_zero company_data "P/E" in
  let peg_ratio := get_or_zero company_data "PEG" in
  let pb_ratio := get_or_zero company_data "P/B" in
  valuation ← _calculate_valuation_score pe_ratio peg_ratio pb_ratio;
  let ratings := <["valuation_score" := valuation]> ratings in
  let earnings_growth := get_or_zero company_data "EPS growth next 5 years" in
  let sales_growth := get_or_zero company_data "Sales growth past 5 years" in
  growth ← _calculate_growth_score earnings_growth sales_growth;
  let ratings := <["growth_score" := growth]> ratings in
  let current_ratio := get_or_zero company_data "Current Ratio" in
  let debt_equity := get_or_zero company_data "Debt/Equity" in
  health ← _calculate_financial_health_score current_ratio debt_equity;
  let ratings := <["financial_health_score" := health]> ratings in
  overall ← np_mean [valuation; growth; health];
  mret (<["overall_score" := overall]> ratings).

(** *** The script *)

Section Main.

Variable DataFrame : Type.
Variable pd_DataFrame : list (list string) -> list string -> result DataFrame.
Variable percent_columns : DataFrame -> result DataFrame.

(** What the script prints: the three results, or the line that reports the
    exception caught by its [except] clause. *)
Inductive printed : Type :=
| Report (company_data : gmap string value) (sector_data : DataFrame)
    (ratings : gmap string value)
| ErrorLine (e : exn).

Definition company_url : string := "https://finviz.com/quote.ashx?t=AAPL&ty=c&p=d&b=1".

(** The body of the [try]: lines 298-304. *)
Definition main_body (e1 e2 : env)
  : M (gmap string value * DataFrame * gmap string value) :=
  company_data ← get_company_data e1 company_url;
  sector_data ← get_sector_data DataFrame pd_DataFrame percent_columns e2;
  ratings ← lift (get_stock_rating_data company_data);
  mret (company_data, sector_data, ratings).

(** Lines 290-317, started at clock [t]: a fresh instance without proxies,
    the body, and the [except] clause.  [e1] and [e2] are what the
    surroundings do during the first and the second request. *)
Definition main (e1 e2 : env) (t : Q) : printed * machine :=
  let scraper := __init__ None in
  match main_body e1 e2 {| self := scraper; clock := t; wire := [] |} with
  | (Ok (company_data, sector_data, ratings), m) =>
      (Report company_data sector_data ratings, m)
  | (Raise e, m) => (ErrorLine e, m)
  end.

End Main.

End Scraper.

(** * Properties *)

Import Scraper.

(** Evaluates the binds of [result] in the goal, going by cases on the
    outcome of each [append_if] that is not determined. *)
Ltac run_result :=
  unfold mbind, result_bind, mret, result_ret; cbn [Py.bind];
  repeat match goal with
    | |- context [Py.bind (append_if ?g ?s ?l) _] =>
        destruct (append_if g s l); cbn [Py.bind]
    end;
  try reflexivity.

(** Goes by cases on the outcome of the [append_if] guarded by [x]. *)
Ltac case_append_if x :=
  unfold mbind, result_bind, mret, result_ret; cbn [Py.bind];
  match goal with
  | |- context [Py.bind (append_if (Py.gt (VNum x) ?z) ?s ?l) _] =>
      destruct (append_if (Py.gt (VNum x) z) s l); cbn [Py.bind];
      [|reflexivity]
  end.

(** ** Numbers and [clamp] *)

Section NumFacts.
Local Open Scope Q_scope.

Lemma Qltb_lt (a b : Q) : Num.Qltb a b = true <-> a < b.
Proof.
  unfold Num.Qltb. rewrite negb_true_iff, <- not_true_iff_false, Qle_bool_iff.
  split; [apply Qnot_le_lt | apply Qlt_not_le].
Qed.

Lemma Qltb_ge (a b : Q) : Num.Qltb a b = false <-> b <= a.
Proof.
  unfold Num.Qltb. rewrite negb_false_iff. apply Qle_bool_iff.
Qed.

(** What [clamp] computes on a number. *)
Definition clamp_num (x : num) : num :=
  let low := if Num.lt x (Fin 100) then x else Fin 100 in
  if Num.lt (Fin 0) low then low else Fin 0.

Lemma clamp_VNum (x : num) : clamp (VNum x) = Ok (VNum (clamp_num x)).
Proof.
  unfold clamp, clamp_num, Py.min, Py.max, Py.gt, Py.int.
  change (inject_Z 100) with 100. change (inject_Z 0) with 0.
  cbn [mbind result_bind Py.bind Py.lt].
  destruct (Num.lt x (Fin 100)); cbn [Py.bind Py.lt];
    [destruct (Num.lt (Fin 0) x) | ]; reflexivity.
Qed.

Lemma clamp_num_between (x : num) : Num.between 0 100 (clamp_num x).
Proof.
  unfold clamp_num.
  destruct x as [q| | |]; cbn; try (split; lra).
  destruct (Num.Qltb q 100) eqn:Hhi; cbn.
  - destruct (Num.Qltb 0 q) eqn:Hlo; cbn; [| split; lra].
    apply Qltb_lt in Hhi, Hlo. split; lra.
  - split; lra.
Qed.

(** The sum taken by [np.mean] stays finite and within bounds. *)
Lemma fold_add_between (xs : list num) (a : Q) :
  Forall (Num.between 0 100) xs ->
  exists s, fold_left Num.add xs (Fin a) = Fin s
            /\ a <= s /\ s <= a + 100 * inject_Z (Z.of_nat (length xs)).
Proof.
  intros H. revert a. induction H as [|x xs Hx _ IH]; intros a.
  - exists a. cbn [fold_left length]. change (inject_Z (Z.of_nat 0)) with 0.
    repeat split; lra.
  - destruct x as [q| | |]; cbn in Hx; try contradiction.
    destruct (IH (a + q)) as (s & Hs & Hlo & Hhi).
    exists s. split; [exact Hs|].
    rewrite length_cons, Nat2Z.inj_succ, <- Z.add_1_r, inject_Z_plus in *.
    change (inject_Z 1) with 1. split; lra.
Qed.

Lemma numbers_VNum (xs : list num) : Py.numbers (map VNum xs) = Ok xs.
Proof.
  induction xs as [|x xs IH]; [reflexivity|]. cbn. rewrite IH. reflexivity.
Qed.

(** The mean of scores in [[0, 100]] is a score in [[0, 100]]. *)
Lemma np_mean_between (xs : list num) :
  xs <> [] -> Forall (Num.between 0 100) xs ->
  exists y, Py.np_mean (map VNum xs) = Ok (VNum y) /\ Num.between 0 100 y.
Proof.
  intros Hne H. unfold Py.np_mean. rewrite numbers_VNum. cbn.
  destruct (fold_add_between xs 0 H) as (s & Hs & Hlo & Hhi).
  destruct xs as [|x xs']; [contradiction|].
  unfold Py.total, Num.zero. rewrite Hs. cbn.
  eexists; split; [reflexivity|].
  cbn [Num.between Num.div_count length] in *.
  assert (Hn : 0 < inject_Z (Z.of_nat (S (length xs')))).
  { change 0 with (inject_Z 0). rewrite <- Zlt_Qlt. lia. }
  split.
  - apply Qle_shift_div_l; [exact Hn | lra].
  - apply Qle_shift_div_r; [exact Hn | lra].
Qed.

Lemma mean_or_zero_between (xs : list num) :
  Forall (Num.between 0 100) xs ->
  exists y, mean_or_zero (map VNum xs) = Ok (VNum y) /\ Num.between 0 100 y.
Proof.
  intros H. destruct xs as [|x xs'].
  - exists (Fin 0). split; [reflexivity|]. cbn. split; lra.
  - apply (np_mean_between (x :: xs')); [discriminate | exact H].
Qed.

End NumFacts.

(** ** The valuation score *)

Section Valuation.
Local Open Scope Q_scope.

(** [x > 0], the guard of every valuation component. *)
Definition positive (x : num) : Prop := Num.lt (Fin 0) x = true.

(** The three components, as computed on a number. *)
Definition pe_component (pe : num) : num :=
  clamp_num (Num.mul (Num.sub (Fin 30) pe) (Fin 3.33)).

Definition peg_component (peg : num) : num :=
  clamp_num (Num.mul (Num.sub (Fin 2) (Num.abs (Num.sub (Fin 1) peg))) (Fin 50)).

Definition pb_component (pb : num) : num :=
  clamp_num (Num.mul (Num.sub (Fin 5) pb) (Fin 20)).

(** The scorer behind [valuation_components], for any list of inputs with
    their score functions: each input is tested against [0] and, when
    greater, its score is appended. *)
Fixpoint collect (entries : list (value * (value -> result value)))
  (scores : list value) : result (list value) :=
  match entries with
  | [] => mret scores
  | (x, score) :: rest =>
      scores' ← append_if (Py.gt x (Py.int 0)) (score x) scores;
      collect rest scores'
  end.

Definition valuation_of (entries : list (value * (value -> result value)))
  : result value :=
  scores ← collect entries []; mean_or_zero scores.

(** The float range holds the numbers the scorer subtracts from. *)
Lemma float_limit_large : 30 < Py.float_limit.
Proof. vm_compute. reflexivity. Qed.

Lemma in_float_range_fin (q : Q) :
  Py.in_float_range (Fin q) = true <-> Qabs q < Py.float_limit.
Proof. apply Qltb_lt. Qed.

(** For a positive P/E within the float range, [30 - pe] is within it. *)
Lemma in_float_range_pe (pe : num) :
  positive pe -> Py.in_float_range pe = true ->
  Py.in_float_range (Num.sub (Fin 30) pe) = true.
Proof.
  unfold positive. destruct pe as [q| | |]; cbn [Num.lt Num.sub Num.neg Num.add];
    try reflexivity.
  intros Hq%Qltb_lt. rewrite !in_float_range_fin.
  intros Hr%Qabs_Qlt_condition. apply Qabs_Qlt_condition.
  pose proof float_limit_large. split; lra.
Qed.

(** Beyond the float range a positive P/E is an [int], and scoring it
    raises [OverflowError]. *)
Lemma pe_score_overflow (q : Q) :
  Py.float_limit + 30 <= q -> pe_score (VNum (Fin q)) = Raise OverflowError.
Proof.
  intros Hq. unfold pe_score, Py.sub, Py.int, Py.mul_float.
  cbn [mbind result_bind Py.bind Num.sub Num.neg Num.add].
  change (inject_Z 30) with 30.
  destruct (Py.in_float_range (Fin (30 + - q))) eqn:E; [|reflexivity].
  apply in_float_range_fin, Qabs_Qlt_condition in E. lra.
Qed.

Lemma pe_score_VNum (pe : num) :
  positive pe -> Py.in_float_range pe = true ->
  pe_score (VNum pe) = Ok (VNum (pe_component pe)).
Proof.
  intros Hp Hr. unfold pe_score, Py.sub, Py.int, Py.mul_float.
  cbn [mbind result_bind Py.bind]. change (inject_Z 30) with 30.
  rewrite (in_float_range_pe pe Hp Hr). cbn [Py.bind]. apply clamp_VNum.
Qed.

Lemma peg_score_VNum (peg : num) : peg_score (VNum peg) = Ok (VNum (peg_component peg)).
Proof. unfold peg_score. cbn. apply clamp_VNum. Qed.

Lemma pb_score_VNum (pb : num) : pb_score (VNum pb) = Ok (VNum (pb_component pb)).
Proof. unfold pb_score. cbn. apply clamp_VNum. Qed.

Lemma append_if_gt (x c : num) (scores : list value) :
  append_if (Py.gt (VNum x) (Py.int 0)) (Ok (VNum c)) scores
  = Ok (if Num.lt (Fin 0) x then scores ++ [VNum c] else scores).
Proof.
  unfold append_if, Py.gt, Py.int. change (inject_Z 0) with 0.
  cbn [mbind result_bind Py.bind Py.lt]. destruct (Num.lt (Fin 0) x); reflexivity.
Qed.

(** An input that fails the guard leaves the scores as they are, whatever
    its score function would do. *)
Lemma append_if_excluded (x : num) (score : result value) (scores : list value) :
  ~ positive x -> append_if (Py.gt (VNum x) (Py.int 0)) score scores = Ok scores.
Proof.
  unfold positive, append_if, Py.gt, Py.int. change (inject_Z 0) with 0.
  cbn [mbind result_bind Py.bind Py.lt]. intros H.
  destruct (Num.lt (Fin 0) x); [contradiction H; reflexivity | reflexivity].
Qed.

(** The P/E entry of the scores: tested against [0] and, when greater,
    scored, which needs a P/E within the float range. *)
Lemma append_if_pe (pe : num) (scores : list value) :
  Py.in_float_range pe = true ->
  append_if (Py.gt (VNum pe) (Py.int 0)) (pe_score (VNum pe)) scores
  = Ok (if Num.lt (Fin 0) pe then scores ++ [VNum (pe_component pe)] else scores).
Proof.
  intros Hr. destruct (Num.lt (Fin 0) pe) eqn:Hp.
  - rewrite (pe_score_VNum pe Hp Hr), append_if_gt, Hp. reflexivity.
  - apply append_if_excluded. unfold positive. rewrite Hp. discriminate.
Qed.

Definition part (x c : num) : list num := if Num.lt (Fin 0) x then [c] else [].

Lemma valuation_components_VNum (pe peg pb : num) :
  Py.in_float_range pe = true ->
  valuation_components (VNum pe) (VNum peg) (VNum pb)
  = Ok (map VNum (part pe (pe_component pe) ++ part peg (peg_component peg)
                    ++ part pb (pb_component pb))).
Proof.
  intros Hr. unfold valuation_components, part.
  rewrite peg_score_VNum, pb_score_VNum, (append_if_pe pe [] Hr).
  cbn [mbind result_bind Py.bind]. rewrite append_if_gt.
  cbn [mbind result_bind Py.bind]. rewrite append_if_gt.
  destruct (Num.lt (Fin 0) pe), (Num.lt (Fin 0) peg), (Num.lt (Fin 0) pb); reflexivity.
Qed.

Lemma part_between (x c : num) :
  Num.between 0 100 c -> Forall (Num.between 0 100) (part x c).
Proof. intros H. unfold part. destruct (Num.lt (Fin 0) x); repeat constructor; exact H. Qed.

Lemma valuation_score_between (pe peg pb : num) :
  Py.in_float_range pe = true ->
  exists y, _calculate_valuation_score (VNum pe) (VNum peg) (VNum pb) = Ok (VNum y)
            /\ Num.between 0 100 y.
Proof.
  intros Hr. unfold _calculate_valuation_score.
  rewrite (valuation_components_VNum pe peg pb Hr).
  cbn [mbind result_bind Py.bind]. apply mean_or_zero_between.
  repeat apply Forall_app_2; apply part_between, clamp_num_between.
Qed.

(** C3.  For all numeric inputs, the P/E being a [float] or an [int]
    within the float range, the valuation score is a number in [[0, 100]];
    the P/E component at 30 is 0; an input that is not strictly positive is
    left out of the average, so the score is that of the other inputs alone;
    and when no input is strictly positive the score is 0. *)
Theorem valuation_score_bounds (pe peg pb : num) :
  (Py.in_float_range pe = true ->
   exists y, _calculate_valuation_score (VNum pe) (VNum peg) (VNum pb) = Ok (VNum y)
             /\ Num.between 0 100 y)
  /\ (exists c, pe_score (Py.int 30) = Ok (VNum c) /\ Num.eqv c (Fin 0))
  /\ (~ positive pe ->
      _calculate_valuation_score (VNum pe) (VNum peg) (VNum pb)
      = valuation_of [(VNum peg, peg_score); (VNum pb, pb_score)])
  /\ (~ positive peg ->
      _calculate_valuation_score (VNum pe) (VNum peg) (VNum pb)
      = valuation_of [(VNum pe, pe_score); (VNum pb, pb_score)])
  /\ (~ positive pb ->
      _calculate_valuation_score (VNum pe) (VNum peg) (VNum pb)
      = valuation_of [(VNum pe, pe_score); (VNum peg, peg_score)])
  /\ (~ positive pe -> ~ positive peg -> ~ positive pb ->
      _calculate_valuation_score (VNum pe) (VNum peg) (VNum pb) = Ok (Py.int 0)).
Proof.
  split; [apply valuation_score_between|].
  split; [exists (Fin 0); split; [vm_compute; reflexivity | reflexivity]|].
  unfold _calculate_valuation_score, valuation_of, valuation_components.
  cbn [collect]. repeat split.
  - intros H. rewrite (append_if_excluded pe _ _ H). run_result.
  - intros H. case_append_if pe. rewrite (append_if_excluded peg _ _ H). run_result.
  - intros H. case_append_if pe. case_append_if peg.
    rewrite (append_if_excluded pb _ _ H). run_result.
  - intros H1 H2 H3. rewrite (append_if_excluded pe _ _ H1).
    unfold mbind, result_bind; cbn [Py.bind].
    rewrite (append_if_excluded peg _ _ H2). cbn [Py.bind].
    rewrite (append_if_excluded pb _ _ H3). reflexivity.
Qed.

(** A P/E of 12.5 is within the float range.  At P/E 0, PEG 1 and P/B -1
    only the PEG component counts. *)
Lemma valuation_score_bounds_witness :
  (exists y, _calculate_valuation_score (VNum (Fin 12.5)) (VNum (Fin 1)) (VNum (Fin (-1)))
             = Ok (VNum y)
             /\ Num.between 0 100 y)
  /\ _calculate_valuation_score (VNum (Fin 0)) (VNum (Fin 1)) (VNum (Fin (-1)))
     = valuation_of [(VNum (Fin 1), peg_score); (VNum (Fin (-1)), pb_score)]
  /\ _calculate_valuation_score (VNum (Fin 0)) (VNum (Fin 0)) (VNum (Fin (-1)))
     = Ok (Py.int 0).
Proof.
  split; [|split].
  - apply (valuation_score_bounds (Fin 12.5) (Fin 1) (Fin (-1))). vm_compute. reflexivity.
  - apply (valuation_score_bounds (Fin 0) (Fin 1) (Fin (-1))). unfold positive. discriminate.
  - apply (valuation_score_bounds (Fin 0) (Fin 0) (Fin (-1))); unfold positive; discriminate.
Defined.

End Valuation.

(** ** Reading scores off results *)

Section Readings.
Local Open Scope Q_scope.

(** [v] is the finite number [q]. *)
Definition is_number (v : value) (q : Q) : Prop :=
  match v with
  | VNum (Fin x) => x == q
  | _ => False
  end.

(** [r] is a list of exactly the finite numbers [qs]. *)
Definition are_numbers (r : result (list value)) (qs : list Q) : Prop :=
  match r with
  | Ok vs => Forall2 is_number vs qs
  | Raise _ => False
  end.

(** [r] is a rating set whose entry [key] is a finite number with [P]. *)
Definition score_is (r : result (gmap string value)) (key : string)
  (P : Q -> Prop) : Prop :=
  match r with
  | Ok ratings =>
      match ratings !! key with
      | Some (VNum (Fin x)) => P x
      | _ => False
      end
  | Raise _ => False
  end.

(** [x] and [y] agree when rounded to two decimals, give or take one unit
    of the last digit. *)
Definition approx (y x : Q) : Prop := Qabs (x - y) <= 0.01.

End Readings.

(** ** The scenario [{P/E: 15, PEG: 1, P/B: 2}] *)

Section Scenario.
Local Open Scope Q_scope.

Definition scenario : gmap string value :=
  {[ "P/E" := Py.int 15; "PEG" := Py.int 1; "P/B" := Py.int 2 ]}.

Definition scenario_components : result (list value) :=
  valuation_components (get_or_zero scenario "P/E") (get_or_zero scenario "PEG")
    (get_or_zero scenario "P/B").

(** C2, as the claim has it: the components are 50.05, 100 and 60 and the
    score is about 70.02.  Neither holds: [(30 - 15) * 3.33] is 49.95. *)
Lemma scenario_components_not_50_05 :
  ~ are_numbers scenario_components [50.05; 100; 60]
  /\ ~ score_is (get_stock_rating_data scenario) "valuation_score" (approx 70.02).
Proof.
  split.
  - intros H. vm_compute in H. inversion H as [|v q vs qs Hq _]; subst.
    discriminate Hq.
  - intros H. vm_compute in H. apply H. reflexivity.
Qed.

(** C2, amended.  The components are 49.95, 100 and 60; the valuation score
    is their arithmetic mean, 209.95 / 3, which is about 69.98. *)
Theorem scenario_components_49_95 :
  are_numbers scenario_components [49.95; 100; 60]
  /\ score_is (get_stock_rating_data scenario) "valuation_score"
       (fun y => y == (49.95 + 100 + 60) / 3 /\ approx 69.98 y).
Proof.
  split.
  - vm_compute. repeat constructor.
  - vm_compute. repeat split; discriminate.
Qed.

End Scenario.

(** ** The empty snapshot *)

Section EmptySnapshot.
Local Open Scope Q_scope.

(** C1, as the claim has it: all four scores of the empty snapshot are 0.
    The financial health score and the overall score are not: a missing
    [Debt/Equity] counts as 0, which passes the guard [debt_equity >= 0] and
    scores 100. *)
Lemma empty_snapshot_not_all_zero :
  ~ score_is (get_stock_rating_data ∅) "financial_health_score" (fun y => y == 0)
  /\ ~ score_is (get_stock_rating_data ∅) "overall_score" (fun y => y == 0).
Proof.
  split; intros H; vm_compute in H; discriminate H.
Qed.

(** C1, amended.  For the empty snapshot the valuation score and the growth
    score are 0, the financial health score is 100, and the overall score is
    their mean, 100 / 3. *)
Theorem empty_snapshot_scores :
  score_is (get_stock_rating_data ∅) "valuation_score" (fun y => y == 0)
  /\ score_is (get_stock_rating_data ∅) "growth_score" (fun y => y == 0)
  /\ score_is (get_stock_rating_data ∅) "financial_health_score" (fun y => y == 100)
  /\ score_is (get_stock_rating_data ∅) "overall_score" (fun y => y == 100 / 3).
Proof.
  repeat split; vm_compute; reflexivity.
Qed.

End EmptySnapshot.

(** ** The financial health score *)

Section FinancialHealth.
Local Open Scope Q_scope.

(** The description of the score in words, written out: [clamp(x, lo, hi)]
    brings [x] into [[lo, hi]], and the average of no component is the 0 the
    source returns. *)
Definition spec_clamp (x lo hi : num) : num :=
  if Num.lt x lo then lo else if Num.lt hi x then hi else x.

Definition spec_average (components : list num) : num :=
  match components with
  | [] => Fin 0
  | _ => Num.div_count (fold_right Num.add (Fin 0) components) (length components)
  end.

Definition spec_current_ratio_component (ratio : num) : list num :=
  if Num.lt (Fin 0) ratio
  then [spec_clamp (Num.mul ratio (Fin 50)) (Fin 0) (Fin 100)]
  else [].

Definition spec_debt_equity_component (debtEquity : num) : list num :=
  if Num.le (Fin 0) debtEquity
  then [spec_clamp (Num.mul (Num.sub (Fin 2) debtEquity) (Fin 50)) (Fin 0) (Fin 100)]
  else [].

Definition spec_financial_health (ratio debtEquity : num) : num :=
  spec_average (spec_current_ratio_component ratio
                  ++ spec_debt_equity_component debtEquity).

(** On anything but [nan] the nested [max]/[min] of the source is the
    clamp. *)
Lemma clamp_num_spec (x : num) :
  x <> NaN -> Num.eqv (clamp_num x) (spec_clamp x (Fin 0) (Fin 100)).
Proof.
  intros Hx. unfold clamp_num, spec_clamp.
  destruct x as [q| | |];
    [cbn | cbn; reflexivity | cbn; reflexivity | contradiction].
  destruct (Num.Qltb q 100) eqn:Hhi, (Num.Qltb q 0) eqn:Hneg,
    (Num.Qltb 0 q) eqn:Hpos, (Num.Qltb 100 q) eqn:Hbig;
    change (Num.Qltb 0 100) with true; cbn;
    rewrite ?Qltb_lt, ?Qltb_ge in *; lra.
Qed.

Lemma positive_mul_not_nan (x : num) (c : Q) :
  0 < c -> Num.lt (Fin 0) x = true -> Num.mul x (Fin c) <> NaN.
Proof.
  intros Hc Hx. destruct x as [q| | |]; cbn in *; try discriminate.
  unfold Num.scale_inf. apply Qltb_lt in Hc. rewrite Hc. discriminate.
Qed.

Lemma debt_not_nan (d : num) :
  Num.le (Fin 0) d = true -> Num.mul (Num.sub (Fin 2) d) (Fin 50) <> NaN.
Proof.
  intros Hd. destruct d as [q| | |]; cbn in *; discriminate.
Qed.

Lemma eqv_fin_between (a b : num) :
  Num.between 0 100 a -> Num.eqv a b -> exists x y, a = Fin x /\ b = Fin y /\ x == y.
Proof.
  destruct a as [x| | |], b as [y| | |]; cbn; try contradiction.
  intros _ H. exists x, y. auto.
Qed.

Lemma health_components_VNum (ratio debt : num) :
  health_components (VNum ratio) (VNum debt)
  = Ok (map VNum
          ((if Num.lt (Fin 0) ratio
            then [clamp_num (Num.mul ratio (Fin 50))] else [])
           ++ (if Num.le (Fin 0) debt
               then [clamp_num (Num.mul (Num.sub (Fin 2) debt) (Fin 50))] else []))).
Proof.
  unfold health_components, current_ratio_score, debt_equity_score.
  unfold append_if, Py.gt, Py.ge, Py.int, Py.mul_int, Py.sub.
  change (inject_Z 0) with 0. change (inject_Z 50) with 50. change (inject_Z 2) with 2.
  unfold mbind, result_bind, mret, result_ret; cbn [Py.bind Py.lt].
  rewrite !clamp_VNum.
  destruct (Num.lt (Fin 0) ratio), (Num.le (Fin 0) debt); reflexivity.
Qed.

(** C4.  For all numeric inputs the financial health score is the average
    of the components that qualify: [clamp(ratio * 50, 0, 100)] when the
    ratio is strictly positive, and [clamp((2 - debtEquity) * 50, 0, 100)]
    when [debtEquity >= 0]; at [debtEquity = 0] the second one is included,
    with the value 100. *)
Theorem financial_health_score_spec (ratio debtEquity : num) :
  (exists y, _calculate_financial_health_score (VNum ratio) (VNum debtEquity)
             = Ok (VNum y)
             /\ Num.eqv y (spec_financial_health ratio debtEquity))
  /\ spec_debt_equity_component (Fin 0) = [Fin 100]
  /\ are_numbers (health_components (VNum ratio) (Py.int 0))
       (match spec_current_ratio_component ratio with
        | [Fin c] => [c; 100]
        | _ => [100]
        end).
Proof.
  split; [|split; [reflexivity|]].
  - unfold _calculate_financial_health_score, spec_financial_health.
    rewrite health_components_VNum. unfold mbind, result_bind; cbn [Py.bind].
    unfold spec_current_ratio_component, spec_debt_equity_component.
    destruct (Num.lt (Fin 0) ratio) eqn:Hr, (Num.le (Fin 0) debtEquity) eqn:Hd;
      cbn [app map mean_or_zero Py.np_mean Py.numbers Py.bind spec_average
             fold_right length Py.total fold_left];
      unfold mret, result_ret; eexists; (split; [reflexivity|]).
    + destruct (eqv_fin_between _ _ (clamp_num_between _)
                  (clamp_num_spec _ (positive_mul_not_nan ratio 50 eq_refl Hr)))
        as (a & a' & -> & -> & Ha).
      destruct (eqv_fin_between _ _ (clamp_num_between _)
                  (clamp_num_spec _ (debt_not_nan debtEquity Hd)))
        as (b & b' & -> & -> & Hb).
      cbn. rewrite Ha, Hb. field.
    + destruct (eqv_fin_between _ _ (clamp_num_between _)
                  (clamp_num_spec _ (positive_mul_not_nan ratio 50 eq_refl Hr)))
        as (a & a' & -> & -> & Ha).
      cbn. rewrite Ha. field.
    + destruct (eqv_fin_between _ _ (clamp_num_between _)
                  (clamp_num_spec _ (debt_not_nan debtEquity Hd)))
        as (b & b' & -> & -> & Hb).
      cbn. rewrite Hb. field.
    + reflexivity.
  - change (Py.int 0) with (VNum (Fin 0)). rewrite health_components_VNum.
    change (Num.le (Fin 0) (Fin 0)) with true.
    unfold spec_current_ratio_component.
    destruct (Num.lt (Fin 0) ratio) eqn:Hr; cbn [app map are_numbers].
    + destruct (eqv_fin_between _ _ (clamp_num_between _)
                  (clamp_num_spec _ (positive_mul_not_nan ratio 50 eq_refl Hr)))
        as (a & a' & Ea & Ea' & Ha).
      rewrite Ea, Ea'.
      constructor; [exact Ha | constructor; [vm_compute; reflexivity | constructor]].
    + constructor; [vm_compute; reflexivity | constructor].
Qed.

End FinancialHealth.

(** ** [_convert_value] *)

Section ConvertValue.
Local Open Scope Q_scope.

(** What is parsed, and what comes back when the parse fails, is the string
    without its commas and percent signs. *)
Definition stripped (s : string) : string :=
  Py.remove_char "%" (Py.remove_char "," s).

Lemma convert_value_number (s : string) (x : num) :
  Py.float_of_string (stripped s) = Ok x -> _convert_value s = VNum x.
Proof. unfold _convert_value, stripped. intros ->. reflexivity. Qed.

Lemma convert_value_fallback (s : string) (e : Py.exn) :
  Py.float_of_string (stripped s) = Raise e -> _convert_value s = VStr (stripped s).
Proof. unfold _convert_value, stripped. intros ->. reflexivity. Qed.

(** C10.  ["1,234.5%"] becomes the number 1234.5 and ["N/A"] comes back as
    it is.  A string that fails to parse and holds a comma or a percent sign
    does not come back as it is: the volatility field ["1.50% 1.62%"] comes
    back as ["1.50 1.62"]. *)
Theorem convert_value_examples :
  is_number (_convert_value "1,234.5%") 1234.5
  /\ _convert_value "N/A" = VStr "N/A"
  /\ _convert_value "1.50% 1.62%" = VStr "1.50 1.62"
  /\ _convert_value "1.50% 1.62%" <> VStr "1.50% 1.62%".
Proof.
  repeat split; try (vm_compute; reflexivity).
  vm_compute. discriminate.
Qed.

End ConvertValue.

(** ** Strings among the scored fields *)

Section TextField.

(** A string fails the first guard of the valuation score. *)
Lemma valuation_score_text (s : string) (peg pb : value) :
  _calculate_valuation_score (VStr s) peg pb = Raise TypeError.
Proof. reflexivity. Qed.

Lemma rating_data_text_pe (company_data : gmap string value) (s : string) :
  company_data !! "P/E" = Some (VStr s) ->
  get_stock_rating_data company_data = Raise TypeError.
Proof.
  intros H. unfold get_stock_rating_data, get_or_zero. rewrite H. reflexivity.
Qed.

End TextField.

(** ** [itertools.cycle] visits the pool in order *)

Section CycleFacts.
Context {A : Type}.
Implicit Types (pool : list A) (it : Itertools.cycle A).

Lemma at_cursor_make pool : Itertools.at_cursor pool 0 (Itertools.make pool).
Proof. left. split; [lia|]. unfold Itertools.make. rewrite drop_0, take_0. reflexivity. Qed.

Lemma mod_succ_congr (i j k : nat) : j mod k = i mod k -> S j mod k = S i mod k.
Proof.
  intros H. rewrite <- (Nat.add_1_r j), <- (Nat.add_1_r i).
  rewrite <- (Nat.Div0.add_mod_idemp_l j), <- (Nat.Div0.add_mod_idemp_l i), H.
  reflexivity.
Qed.

(** One call of [next] at cursor [i] yields [pool[i mod K]] and moves the
    cursor to [i + 1]. *)
Lemma next_at_cursor pool (i : nat) it :
  pool <> [] -> Itertools.at_cursor pool i it ->
  exists x it', Itertools.next it = Some (x, it')
                /\ pool !! (i mod length pool) = Some x
                /\ Itertools.at_cursor pool (S i) it'.
Proof.
  intros Hne [[Hi ->] | (j & [Hj0 Hj] & Hmod & ->)].
  - destruct (decide (i < length pool)) as [Hlt | Hge].
    + destruct (lookup_lt_is_Some_2 pool i Hlt) as [x Hx].
      exists x, (Itertools.Filling (drop (S i) pool) (take (S i) pool)).
      rewrite (drop_S _ _ _ Hx), (take_S_r _ _ _ Hx), Nat.mod_small by exact Hlt.
      split; [reflexivity|]. split; [exact Hx|].
      left. split; [lia|]. rewrite (take_S_r _ _ _ Hx). reflexivity.
    + assert (i = length pool) as -> by lia.
      rewrite drop_all, firstn_all, Nat.Div0.mod_same.
      destruct pool as [|x rest]; [contradiction|].
      exists x, (Itertools.Replaying rest (x :: rest)).
      split; [reflexivity|]. split; [reflexivity|].
      right. exists 1. cbn [length] in *. repeat split; try lia.
      apply (mod_succ_congr (S (length rest)) 0).
      rewrite Nat.Div0.mod_same, Nat.Div0.mod_0_l. reflexivity.
  - destruct (decide (j < length pool)) as [Hlt | Hge].
    + destruct (lookup_lt_is_Some_2 pool j Hlt) as [x Hx].
      exists x, (Itertools.Replaying (drop (S j) pool) pool).
      rewrite (drop_S _ _ _ Hx), <- Hmod, Nat.mod_small by exact Hlt.
      split; [reflexivity|]. split; [exact Hx|].
      right. exists (S j). repeat split; try lia.
      apply mod_succ_congr, Hmod.
    + assert (j = length pool) as -> by lia.
      rewrite drop_all, <- Hmod, Nat.Div0.mod_same.
      destruct pool as [|x rest]; [contradiction|].
      exists x, (Itertools.Replaying rest (x :: rest)).
      split; [reflexivity|]. split; [reflexivity|].
      right. exists 1. cbn [length] in *. repeat split; try lia.
      apply (mod_succ_congr i 0).
      rewrite <- Hmod, Nat.Div0.mod_same, Nat.Div0.mod_0_l. reflexivity.
Qed.

(** The stream drawn from [cycle(pool)] is [pool[0], pool[1], ...], wrapping
    around at the end of the pool. *)
Lemma draw_at_cursor pool (n i : nat) it :
  pool <> [] -> Itertools.at_cursor pool i it ->
  forall k, k < n -> Itertools.draw n it !! k = pool !! ((i + k) mod length pool).
Proof.
  intros Hne. revert i it. induction n as [|n IH]; intros i it Hit k Hk; [lia|].
  destruct (next_at_cursor pool i it Hne Hit) as (x & it' & Hnext & Hx & Hit').
  cbn [Itertools.draw]. rewrite Hnext.
  destruct k as [|k].
  - rewrite Nat.add_0_r. cbn. symmetry. exact Hx.
  - change ((x :: Itertools.draw n it') !! S k) with (Itertools.draw n it' !! k).
    rewrite (IH (S i) it' Hit' k) by lia. f_equal. f_equal. lia.
Qed.

End CycleFacts.

Example draw7 :
  Itertools.draw 7 (Itertools.make [1; 2; 3]) = [1; 2; 3; 1; 2; 3; 1].
Proof. reflexivity. Qed.

(** ** The request loop *)

(** Runs a computation of [M] as far as its state is known. *)
Ltac run_M :=
  cbv beta iota zeta delta
    [mbind M_bind mret M_ret mthrow M_throw time_time gets set_user_agent_cycle
     set_proxies set_last_request_time set_self next_of time_sleep advance
     requests_get lift id self clock wire base_url user_agents
     user_agent_cycle proxies last_request_time min_request_interval].

Section Requests.
Local Open Scope Q_scope.

(** What [random.uniform(0.5, 1.5)] can return, and a fetch that takes no
    negative time. *)
Definition env_ok (e : env) : Prop :=
  0.5 <= jitter e /\ jitter e <= 1.5 /\ 0 <= latency e.

Definition proxies_ready (o : option (Itertools.cycle string)) : Prop :=
  match o with
  | None => True
  | Some it => exists pool j, pool <> [] /\ Itertools.at_cursor pool j it
  end.

(** The instance after [i] calls of [_make_request]. *)
Definition ready (i : nat) (m : machine) : Prop :=
  user_agents (self m) <> []
  /\ Itertools.at_cursor (user_agents (self m)) i (user_agent_cycle (self m))
  /\ proxies_ready (proxies (self m)).

(** A fresh instance at clock [t]. *)
Definition boot (proxy_list : option (list string)) (t : Q) : machine :=
  {| self := __init__ proxy_list; clock := t; wire := [] |}.

Lemma ready_boot (proxy_list : option (list string)) (t : Q) :
  ready 0 (boot proxy_list t).
Proof.
  split; [discriminate|]. split; [apply at_cursor_make|].
  destruct proxy_list as [[|p ps]|]; cbn; try exact I.
  exists (p :: ps), O. split; [discriminate | apply at_cursor_make].
Qed.

Lemma time_sleep_ok (d : Q) (m : machine) :
  0 <= d -> time_sleep d m = (Ok tt, advance d m).
Proof.
  intros H. unfold time_sleep. apply Qltb_ge in H. rewrite H. reflexivity.
Qed.

Lemma next_of_ready (pool : list string) (i : nat) (it : Itertools.cycle string)
  (m : machine) :
  pool <> [] -> Itertools.at_cursor pool i it ->
  exists x it', next_of it m = (Ok (x, it'), m)
                /\ pool !! (i mod length pool)%nat = Some x
                /\ Itertools.at_cursor pool (S i) it'.
Proof.
  intros Hne Hit.
  destruct (next_at_cursor pool i it Hne Hit) as (x & it' & Hnext & Hx & Hit').
  exists x, it'. unfold next_of. rewrite Hnext. auto.
Qed.

Lemma acquire_spec (e : env) (i : nat) (m : machine) :
  ready i m -> 0 <= jitter e ->
  exists user_agent proxy m',
    acquire e m = (Ok (user_agent, proxy), m')
    /\ ready (S i) m'
    /\ user_agents (self m) !! (i mod length (user_agents (self m)))%nat
       = Some user_agent
    /\ wire m' = wire m
    /\ user_agents (self m') = user_agents (self m)
    /\ base_url (self m') = base_url (self m)
    /\ last_request_time (self m') = last_request_time (self m)
    /\ min_request_interval (self m') = min_request_interval (self m)
    /\ last_request_time (self m) + min_request_interval (self m) + jitter e
       <= clock m'.
Proof.
  intros (Hne & Hit & Hpx) Hj.
  destruct m as [[url agents it px last interval] t w]. cbn in Hne, Hit, Hpx.
  destruct (next_at_cursor agents i it Hne Hit) as (x & it' & Hnext & Hx & Hit').
  assert (Hpause : Num.Qltb (jitter e) 0 = false) by (apply Qltb_ge, Hj).
  unfold acquire. run_M.
  destruct (Num.Qltb (t - last) interval) eqn:Hsince.
  - apply Qltb_lt in Hsince.
    assert (Hsleep : Num.Qltb (interval - (t - last)) 0 = false)
      by (apply Qltb_ge; lra).
    rewrite Hsleep. run_M. rewrite Hnext. run_M.
    destruct px as [pit|].
    + destruct Hpx as (pool & j & Hpne & Hpit).
      destruct (next_at_cursor pool j pit Hpne Hpit) as (p & pit' & Hp & _ & Hpit').
      rewrite Hp. run_M. rewrite Hpause. run_M.
      eexists _, _, _. split; [reflexivity|]. cbn.
      repeat split; try assumption; try reflexivity; try lra.
      exists pool, (S j). auto.
    + run_M. rewrite Hpause. run_M.
      eexists _, _, _. split; [reflexivity|]. cbn.
      repeat split; try assumption; try reflexivity; try lra.
  - apply Qltb_ge in Hsince. run_M. rewrite Hnext. run_M.
    destruct px as [pit|].
    + destruct Hpx as (pool & j & Hpne & Hpit).
      destruct (next_at_cursor pool j pit Hpne Hpit) as (p & pit' & Hp & _ & Hpit').
      rewrite Hp. run_M. rewrite Hpause. run_M.
      eexists _, _, _. split; [reflexivity|]. cbn.
      repeat split; try assumption; try reflexivity; try lra.
      exists pool, (S j). auto.
    + run_M. rewrite Hpause. run_M.
      eexists _, _, _. split; [reflexivity|]. cbn.
      repeat split; try assumption; try reflexivity; try lra.
Qed.

(** The machine once [requests.get] has ended, given the machine [m1] that
    [acquire] left: the request is on the wire, the clock has moved on by the
    latency, and the time stamp is set if a response came back. *)
Definition after_get (e : env) (url user_agent : string) (proxy : option string)
  (m1 : machine) : machine :=
  let sent := {| req_url := url; req_user_agent := user_agent;
                 req_proxy := proxy; req_start := clock m1 |} in
  let finished := clock m1 + latency e in
  {| self :=
       match reply e with
       | Ok _ =>
           {| base_url := base_url (self m1);
              user_agents := user_agents (self m1);
              user_agent_cycle := user_agent_cycle (self m1);
              proxies := proxies (self m1);
              last_request_time := finished;
              min_request_interval := min_request_interval (self m1) |}
       | Raise _ => self m1
       end;
     clock := finished;
     wire := wire m1 ++ [sent] |}.

Lemma make_request_after_acquire (e : env) (url user_agent : string)
  (proxy : option string) (m m1 : machine) :
  acquire e m = (Ok (user_agent, proxy), m1) ->
  _make_request e url m = (reply e, after_get e url user_agent proxy m1).
Proof.
  intros H. unfold _make_request, after_get.
  unfold mbind at 1, M_bind at 1. rewrite H. run_M.
  destruct (reply e); reflexivity.
Qed.

Lemma ready_after_get (e : env) (url user_agent : string) (proxy : option string)
  (i : nat) (m1 : machine) :
  ready i m1 -> ready i (after_get e url user_agent proxy m1).
Proof.
  unfold ready, after_get. cbn. destruct (reply e); cbn; auto.
Qed.

Lemma ready_advance (d : Q) (i : nat) (m : machine) : ready i m -> ready i (advance d m).
Proof. unfold ready, advance. cbn. auto. Qed.

(** A call of [_make_request] ends as the reply of the server says. *)
Lemma make_request_outcome (e : env) (url : string) (i : nat) (m : machine) :
  ready i m -> 0 <= jitter e ->
  exists m', _make_request e url m = (reply e, m') /\ ready (S i) m'.
Proof.
  intros Hm Hj.
  destruct (acquire_spec e i m Hm Hj) as (ua & px & m1 & Hacq & Hready & _).
  exists (after_get e url ua px m1). split.
  - apply make_request_after_acquire, Hacq.
  - apply ready_after_get, Hready.
Qed.

End Requests.

(** ** Pages without the expected tables *)

Section MissingTables.
Local Open Scope Q_scope.

Lemma filter_none {A} (P : A -> Prop) `{forall x, Decision (P x)} (l : list A) :
  Forall (fun x => ~ P x) l -> filter P l = [].
Proof.
  induction 1 as [|x l Hx _ IH]; [reflexivity|].
  rewrite filter_cons_False by exact Hx. exact IH.
Qed.

(** No table of the page carries the class [snapshot-table2]. *)
Definition no_snapshot_table (page : Html.soup) : Prop :=
  Forall (fun t => Html.has_class "snapshot-table2" (Html.table_class t) = false) page.

(** C6.  When the page holds no table of class [snapshot-table2], and the
    request came back with a status that is not an error,
    [get_company_data] returns the empty mapping; it does not raise. *)
Theorem company_data_without_tables (e : env) (url : string) (i : nat)
  (m : machine) (r : response) :
  ready i m -> env_ok e ->
  reply e = Ok r -> raise_for_status r = Ok tt ->
  no_snapshot_table (text r) ->
  (get_company_data e url m).1 = Ok ∅.
Proof.
  intros Hm (Hj & _) Hr Hstatus Hnone.
  destruct (make_request_outcome e url i m Hm) as (m' & Hreq & _); [lra|].
  unfold get_company_data. unfold mbind at 1, M_bind at 1.
  rewrite Hreq, Hr. run_M. rewrite Hstatus.
  unfold Html.find_all_class. rewrite filter_none; [reflexivity|].
  eapply Forall_impl; [exact Hnone|]. cbn. intros t Ht. rewrite Ht. discriminate.
Qed.

(** A page whose only table has another class, fetched by a fresh
    instance. *)
Definition other_page : Html.soup :=
  [ {| Html.table_class := ["screener_table"]; Html.table_id := None;
       Html.trs := [ {| Html.tr_class := []; Html.td := ["P/E"; "15"] |} ] |} ].

Definition served (page : Html.soup) : env :=
  {| jitter := 1; latency := 0.25;
     reply := Ok {| status_code := 200; text := page |} |}.

Lemma company_data_without_tables_witness :
  (get_company_data (served other_page) "https://finviz.com/quote.ashx?t=AAPL"
     (boot None 1000)).1 = Ok ∅.
Proof.
  apply (company_data_without_tables (served other_page) _ 0 (boot None 1000)
           {| status_code := 200; text := other_page |}).
  - apply ready_boot.
  - unfold env_ok. cbn. repeat split; discriminate.
  - reflexivity.
  - reflexivity.
  - repeat constructor.
Defined.

(** No table of the page is matched by any of the three selectors. *)
Definition no_sector_table (page : Html.soup) : Prop :=
  Forall (fun t => Html.has_class "table-light" (Html.table_class t) = false
                   /\ Html.has_class "groups-table-overview" (Html.table_class t) = false
                   /\ Html.has_id "groups-table-overview" (Html.table_id t) = false)
    page.

Lemma find_sector_table_none (page : Html.soup) :
  no_sector_table page -> find_sector_table page = None.
Proof.
  intros H. unfold find_sector_table, Html.find_class, Html.find_all_class, Html.find_id.
  rewrite !filter_none; [reflexivity | | |];
    (eapply Forall_impl; [exact H|]); cbn; intros t (H1 & H2 & H3);
    congruence.
Qed.

(** The selectors are tried in the order of the source, and the first one
    that matches decides. *)
Lemma find_sector_table_priority (page : Html.soup) (t : Html.table) :
  (Html.find_class "table-light" page = Some t -> find_sector_table page = Some t)
  /\ (Html.find_class "table-light" page = None ->
      Html.find_class "groups-table-overview" page = Some t ->
      find_sector_table page = Some t)
  /\ (Html.find_class "table-light" page = None ->
      Html.find_class "groups-table-overview" page = None ->
      find_sector_table page = Html.find_id "groups-table-overview" page).
Proof.
  unfold find_sector_table. repeat split.
  - intros ->. reflexivity.
  - intros -> ->. reflexivity.
  - intros -> ->. reflexivity.
Qed.

(** C7.  When no table of the page is matched by any of the three
    selectors, [get_sector_data] raises [ValueError("Sector table not
    found")]: the outcome is the exception and no data frame, whatever pandas
    would have built. *)
Theorem sector_table_not_found (DataFrame : Type)
  (pd_DataFrame : list (list string) -> list string -> result DataFrame)
  (percent_columns : DataFrame -> result DataFrame)
  (e : env) (i : nat) (m : machine) (r : response) :
  ready i m -> env_ok e ->
  reply e = Ok r -> raise_for_status r = Ok tt ->
  no_sector_table (text r) ->
  (get_sector_data DataFrame pd_DataFrame percent_columns e m).1
  = Raise (ValueError "Sector table not found").
Proof.
  intros Hm (Hj & _) Hr Hstatus Hnone.
  destruct (make_request_outcome e (sector_url (self m)) i m Hm)
    as (m' & Hreq & _); [lra|].
  unfold get_sector_data. unfold mbind at 1, M_bind at 1. unfold gets at 1.
  unfold mbind at 1, M_bind at 1. rewrite Hreq, Hr. run_M. rewrite Hstatus.
  rewrite (find_sector_table_none _ Hnone). reflexivity.
Qed.

(** The page without the sector table, with pandas left as a data frame of
    rows of strings that accepts everything. *)
Lemma sector_table_not_found_witness :
  (get_sector_data (list (list string)) (fun data _ => Ok data) Ok
     (served other_page) (boot None 1000)).1
  = Raise (ValueError "Sector table not found").
Proof.
  apply (sector_table_not_found _ _ _ (served other_page) 0 (boot None 1000)
           {| status_code := 200; text := other_page |}).
  - apply ready_boot.
  - unfold env_ok. cbn. repeat split; discriminate.
  - reflexivity.
  - reflexivity.
  - repeat constructor.
Defined.

End MissingTables.

(** ** A snapshot with a text field *)

Section TextSnapshot.

(** A snapshot table whose P/E cell reads N/A, as the site shows it for a
    company without earnings. *)
Definition na_page : Html.soup :=
  [ {| Html.table_class := ["snapshot-table2"]; Html.table_id := None;
       Html.trs := [ {| Html.tr_class := ["table-dark-row"];
                        Html.td := ["P/E"; " N/A "; "EPS (ttm)"; "-1.25"; "Index"] |} ] |} ].

Definition na_snapshot : gmap string value :=
  {[ "P/E" := VStr "N/A"; "EPS (ttm)" := VNum (Fin (-1.25)) ]}.

(** C5.  [get_company_data] can return a snapshot in which [P/E] is the
    string ["N/A"], and on that snapshot [get_stock_rating_data] raises
    [TypeError] instead of returning ratings: the default 0 is only used for
    a missing key. *)
Theorem rating_data_raises_on_text :
  exists (e : env) (url : string) (m : machine) (company_data : gmap string value),
    env_ok e /\ ready 0 m
    /\ (get_company_data e url m).1 = Ok company_data
    /\ company_data !! "P/E" = Some (VStr "N/A")
    /\ get_stock_rating_data company_data = Raise TypeError.
Proof.
  exists (served na_page), "https://finviz.com/quote.ashx?t=XYZ", (boot None 1000),
    na_snapshot.
  split; [unfold env_ok; cbn; repeat split; discriminate|].
  split; [apply ready_boot|].
  split; [vm_compute; reflexivity|].
  split; [vm_compute; reflexivity|].
  apply (rating_data_text_pe _ "N/A"). vm_compute; reflexivity.
Qed.

End TextSnapshot.

(** ** Sequences of requests *)

Section Sessions.
Local Open Scope Q_scope.

(** One call of [_make_request] by the program: the time the program spent
    since the previous call returned, what the surroundings do during the
    call, and the URL. *)
Record call : Type := { idle : Q; during : env; target : string }.

(** The machine after the call, whether it returned or raised. *)
Definition request_once (c : call) (m : machine) : machine :=
  (_make_request (during c) (target c) (advance (idle c) m)).2.

(** The machine after the calls, in order, on one instance. *)
Definition session (calls : list call) (m : machine) : machine :=
  fold_left (fun m c => request_once c m) calls m.

Definition calls_ok (calls : list call) : Prop :=
  Forall (fun c => env_ok (during c)) calls.

(** One call puts one request on the wire, with the user agent at the
    cursor, and not before the rate limit and the pause have passed. *)
Lemma request_once_spec (c : call) (i : nat) (m : machine) :
  ready i m -> env_ok (during c) ->
  exists sent,
    wire (request_once c m) = wire m ++ [sent]
    /\ ready (S i) (request_once c m)
    /\ user_agents (self (request_once c m)) = user_agents (self m)
    /\ user_agents (self m) !! (i mod length (user_agents (self m)))%nat
       = Some (req_user_agent sent)
    /\ last_request_time (self m) + min_request_interval (self m)
       + jitter (during c) <= req_start sent.
Proof.
  intros Hm (Hj & _). unfold request_once.
  destruct (acquire_spec (during c) i (advance (idle c) m))
    as (ua & px & m1 & Hacq & Hready & Hua & Hwire & Hagents & _ & _ & _ & Hgap);
    [apply ready_advance, Hm | lra |].
  rewrite (make_request_after_acquire _ (target c) _ _ _ _ Hacq).
  eexists. cbn [snd after_get wire]. split; [rewrite Hwire; reflexivity|].
  split; [apply ready_after_get, Hready|].
  split; [cbn; destruct (reply (during c)); cbn; exact Hagents|].
  split; [exact Hua | exact Hgap].
Qed.

(** The requests of a session, one per call, carry the user agents of the
    pool in order, starting at the cursor. *)
Lemma session_user_agents (calls : list call) (i : nat) (m : machine) :
  ready i m -> calls_ok calls ->
  exists sent,
    wire (session calls m) = wire m ++ sent
    /\ length sent = length calls
    /\ forall k, (k < length calls)%nat ->
         req_user_agent <$> sent !! k
         = user_agents (self m) !! ((i + k) mod length (user_agents (self m)))%nat.
Proof.
  revert i m. induction calls as [|c calls IH]; intros i m Hm Hok.
  - exists []. cbn. rewrite app_nil_r. repeat split. intros k Hk. lia.
  - apply Forall_cons in Hok as [Hc Hok].
    destruct (request_once_spec c i m Hm Hc) as (first & Hwire & Hready & Hagents & Hua & _).
    destruct (IH (S i) (request_once c m) Hready Hok) as (sent & Hsent & Hlen & Hnth).
    exists (first :: sent). cbn [session fold_left].
    split; [fold (session calls (request_once c m)); rewrite Hsent, Hwire, <- app_assoc;
            reflexivity|].
    split; [cbn; rewrite Hlen; reflexivity|].
    intros [|k] Hk.
    + rewrite Nat.add_0_r. cbn. rewrite Hua. reflexivity.
    + cbn [length] in Hk. change ((first :: sent) !! S k) with (sent !! k).
      rewrite Hnth by lia. rewrite Hagents. f_equal. f_equal. lia.
Qed.

(** C8.  On an instance whose cycle is fresh, with a pool of [K] user
    agents, the request of call [i] (counting from 0) carries
    [user_agents[i mod K]]: the pool is visited in order, and from its start
    again after its end.  The instance made by [__init__] is such an
    instance, with [K = 5]. *)
Theorem user_agent_of_request (m : machine) (calls : list call) (i : nat) :
  ready 0 m -> wire m = [] ->
  calls_ok calls -> (i < length calls)%nat ->
  req_user_agent <$> wire (session calls m) !! i
  = user_agents (self m) !! (i mod length (user_agents (self m)))%nat.
Proof.
  intros Hm Hempty Hok Hi.
  destruct (session_user_agents calls 0 m Hm Hok) as (sent & Hwire & _ & Hnth).
  rewrite Hwire, Hempty. cbn [app]. rewrite (Hnth i Hi). reflexivity.
Qed.

(** Seven calls on the instance made by [__init__]: the seventh carries the
    second user agent of the five. *)
Definition seven_calls : list call :=
  replicate 7 {| idle := 3; during := served other_page; target := "https://finviz.com/" |}.

Lemma user_agent_of_request_witness :
  req_user_agent <$> wire (session seven_calls (boot None 1000)) !! 6%nat
  = user_agents (__init__ None) !! (6 mod 5)%nat.
Proof.
  apply (user_agent_of_request (boot None 1000) seven_calls 6).
  - apply ready_boot.
  - reflexivity.
  - repeat constructor; discriminate.
  - cbn. lia.
Defined.

(** *** The rate limit *)

(** The pause before the request never fails: it only delays. *)
Lemma acquire_never_fails (e : env) (i : nat) (m : machine) :
  ready i m -> env_ok e ->
  exists user_agent proxy m', acquire e m = (Ok (user_agent, proxy), m').
Proof.
  intros Hm (Hj & _).
  destruct (acquire_spec e i m Hm) as (ua & px & m1 & Hacq & _); [lra|].
  exists ua, px, m1. exact Hacq.
Qed.

(** After a call in which [requests.get] returned, the time stamp is the
    clock at that moment. *)
Lemma stamp_after_response (c : call) (i : nat) (m : machine) (r : response) :
  ready i m -> env_ok (during c) -> reply (during c) = Ok r ->
  last_request_time (self (request_once c m)) = clock (request_once c m)
  /\ min_request_interval (self (request_once c m)) = min_request_interval (self m).
Proof.
  intros Hm (Hj & _) Hr. unfold request_once.
  destruct (acquire_spec (during c) i (advance (idle c) m))
    as (ua & px & m1 & Hacq & _ & _ & _ & _ & _ & _ & Hmin & _);
    [apply ready_advance, Hm | lra |].
  rewrite (make_request_after_acquire _ (target c) _ _ _ _ Hacq).
  unfold after_get. rewrite Hr. cbn. split; [reflexivity | exact Hmin].
Qed.

(** After a call in which [requests.get] raised, the time stamp is the one
    from before the call. *)
Lemma stamp_after_exception (c : call) (i : nat) (m : machine) (x : Py.exn) :
  ready i m -> env_ok (during c) -> reply (during c) = Raise x ->
  last_request_time (self (request_once c m)) = last_request_time (self m).
Proof.
  intros Hm (Hj & _) Hr. unfold request_once.
  destruct (acquire_spec (during c) i (advance (idle c) m))
    as (ua & px & m1 & Hacq & _ & _ & _ & _ & _ & Hlast & _);
    [apply ready_advance, Hm | lra |].
  rewrite (make_request_after_acquire _ (target c) _ _ _ _ Hacq).
  unfold after_get. rewrite Hr. cbn. exact Hlast.
Qed.

(** Between a fetch that returned a response and the start of the next
    request lie at least the minimum interval and the pause of the next
    call. *)
Lemma gap_after_response (c1 c2 : call) (i : nat) (m : machine) (r : response) :
  ready i m -> env_ok (during c1) -> env_ok (during c2) ->
  reply (during c1) = Ok r ->
  exists sent,
    wire (request_once c2 (request_once c1 m)) = wire (request_once c1 m) ++ [sent]
    /\ clock (request_once c1 m) + min_request_interval (self m) + jitter (during c2)
       <= req_start sent.
Proof.
  intros Hm H1 H2 Hr.
  destruct (request_once_spec c1 i m Hm H1) as (_ & _ & Hready & _).
  destruct (stamp_after_response c1 i m r Hm H1 Hr) as (Hstamp & Hmin).
  destruct (request_once_spec c2 (S i) _ Hready H2) as (sent & Hwire & _ & _ & _ & Hgap).
  exists sent. split; [exact Hwire|]. rewrite <- Hstamp, <- Hmin. exact Hgap.
Qed.

(** Two calls that are served, one right after the other: the second
    request starts 2.5 after the end of the first fetch. *)
Example gap_after_response_served :
  let first := {| idle := 0; during := served other_page; target := "https://finviz.com/" |} in
  let m1 := request_once first (boot None 1000) in
  exists sent,
    wire (request_once first m1) = wire m1 ++ [sent]
    /\ clock m1 + 2 + 1 <= req_start sent.
Proof.
  intros first m1.
  apply (gap_after_response first first 0 (boot None 1000)
           {| status_code := 200; text := other_page |}).
  - apply ready_boot.
  - unfold env_ok. cbn. repeat split; discriminate.
  - unfold env_ok. cbn. repeat split; discriminate.
  - reflexivity.
Qed.

(** A fetch that is refused after a tenth of a second, and the next call
    right after it. *)
Definition refused : call :=
  {| idle := 0;
     during := {| jitter := 0.5; latency := 0.1; reply := Raise ConnectionError |};
     target := "https://finviz.com/quote.ashx?t=AAPL" |}.

Definition retry : call :=
  {| idle := 0;
     during := {| jitter := 0.5; latency := 0.2;
                  reply := Ok {| status_code := 200; text := other_page |} |};
     target := "https://finviz.com/quote.ashx?t=AAPL" |}.

(** C9.  When [requests.get] raises, the time stamp is not renewed, and the
    next request starts after its pause alone: here 0.5 after the end of the
    refused fetch, and 0.6 after its start, where the rate limit asks for
    2 + 0.5 and for 2. *)
Theorem rate_limit_after_failed_fetch :
  let m1 := request_once refused (boot None 1000) in
  let m2 := request_once retry m1 in
  exists first second,
    wire m2 = [first; second]
    /\ req_start first == 1000.5
    /\ clock m1 == 1000.6
    /\ req_start second == 1001.1
    /\ req_start second - clock m1 < min_request_interval (self m1) + jitter (during retry)
    /\ req_start second - req_start first < min_request_interval (self m1).
Proof.
  eexists _, _. split; [vm_compute; reflexivity|].
  repeat split; vm_compute; reflexivity.
Qed.

End Sessions.

(** * Further properties *)

(** ** The growth score *)

Section Growth.
Local Open Scope Q_scope.

(** One growth component, as computed on a number. *)
Definition growth_component (growth : num) : num :=
  clamp_num (Num.mul growth (Fin 5)).

Lemma growth_score_VNum (growth : num) :
  growth_score (VNum growth) = Ok (VNum (growth_component growth)).
Proof. unfold growth_score. cbn. apply clamp_VNum. Qed.

Lemma growth_score_formula (earnings sales : num) :
  _calculate_growth_score (VNum earnings) (VNum sales)
  = Py.np_mean (map VNum [growth_component earnings; growth_component sales]).
Proof.
  unfold _calculate_growth_score, append_if, is_not_None.
  rewrite !growth_score_VNum. reflexivity.
Qed.

(** The growth component, described by cases. *)
Definition growth_points (growth : num) : Q :=
  match growth with
  | Fin g => if Qle_bool g 0 then 0 else if Qle_bool 20 g then 100 else g * 5
  | NInf => 0
  | PInf | NaN => 100
  end.

Lemma growth_component_points (growth : num) :
  Num.eqv (growth_component growth) (Fin (growth_points growth)).
Proof.
  unfold growth_component, clamp_num, growth_points.
  destruct growth as [g| | |]; try (cbn; reflexivity).
  cbn [Num.mul Num.lt Num.eqv].
  destruct (Qle_bool g 0) eqn:H0, (Qle_bool 20 g) eqn:H20,
    (Num.Qltb (g * 5) 100) eqn:Hhi; cbn [Num.lt Num.eqv];
    try (destruct (Num.Qltb 0 (g * 5)) eqn:Hlo; cbn [Num.eqv]);
    change (Num.Qltb 0 100) with true in *; cbn [Num.eqv];
    rewrite ?Qle_bool_iff, ?Qltb_lt, ?Qltb_ge in *;
    try apply not_true_iff_false in H0; try apply not_true_iff_false in H20;
    rewrite ?Qle_bool_iff in *; lra.
Qed.

Lemma growth_score_mean (earnings sales : num) :
  exists y,
    _calculate_growth_score (VNum earnings) (VNum sales) = Ok (VNum (Fin y))
    /\ y == (growth_points earnings + growth_points sales) / 2
    /\ 0 <= y <= 100.
Proof.
  rewrite growth_score_formula.
  pose proof (growth_component_points earnings) as He.
  pose proof (growth_component_points sales) as Hs.
  pose proof (clamp_num_between (Num.mul earnings (Fin 5))) as Be.
  pose proof (clamp_num_between (Num.mul sales (Fin 5))) as Bs.
  fold (growth_component earnings) in Be. fold (growth_component sales) in Bs.
  destruct (growth_component earnings) as [a| | |]; try contradiction.
  destruct (growth_component sales) as [b| | |]; try contradiction.
  cbn in He, Hs, Be, Bs. eexists. split; [reflexivity|].
  change (inject_Z (Z.of_nat (length [Fin a; Fin b]))) with 2.
  split.
  - rewrite <- He, <- Hs. field.
  - split.
    + apply Qle_shift_div_l; lra.
    + apply Qle_shift_div_r; lra.
Qed.

(** The growth score of two numbers is half the sum of their two
    components: a growth of zero or below is not left out, it counts with 0
    points; a growth of 20 or more counts with 100 points, and so does
    [nan]. *)
Theorem growth_score_is_mean_of_both (earnings sales : num) :
  exists y,
    _calculate_growth_score (VNum earnings) (VNum sales) = Ok (VNum (Fin y))
    /\ y == (growth_points earnings + growth_points sales) / 2
    /\ 0 <= y <= 100.
Proof. exact (growth_score_mean earnings sales). Qed.

(** A higher growth never gives fewer points. *)
Lemma growth_points_monotone (a b : Q) :
  a <= b -> growth_points (Fin a) <= growth_points (Fin b).
Proof.
  intros Hab. unfold growth_points.
  destruct (Qle_bool a 0) eqn:Ha0, (Qle_bool 20 a) eqn:Ha20,
    (Qle_bool b 0) eqn:Hb0, (Qle_bool 20 b) eqn:Hb20;
    rewrite ?Qle_bool_iff in *;
    try apply not_true_iff_false in Ha0; try apply not_true_iff_false in Ha20;
    try apply not_true_iff_false in Hb0; try apply not_true_iff_false in Hb20;
    rewrite ?Qle_bool_iff in *; lra.
Qed.

(** The growth score does not fall when a finite growth rises. *)
Theorem growth_score_monotone (earnings earnings' sales sales' : Q) :
  earnings <= earnings' -> sales <= sales' ->
  exists y y',
    _calculate_growth_score (VNum (Fin earnings)) (VNum (Fin sales)) = Ok (VNum (Fin y))
    /\ _calculate_growth_score (VNum (Fin earnings')) (VNum (Fin sales')) = Ok (VNum (Fin y'))
    /\ y <= y'.
Proof.
  intros He Hs.
  destruct (growth_score_mean (Fin earnings) (Fin sales)) as (y & Hy & Ey & _).
  destruct (growth_score_mean (Fin earnings') (Fin sales')) as (y' & Hy' & Ey' & _).
  exists y, y'. split; [exact Hy|]. split; [exact Hy'|].
  rewrite Ey, Ey'.
  pose proof (growth_points_monotone _ _ He). pose proof (growth_points_monotone _ _ Hs).
  apply Qle_shift_div_l; [lra|]. field_simplify. lra.
Qed.

Lemma growth_score_monotone_witness :
  exists y y',
    _calculate_growth_score (VNum (Fin 3)) (VNum (Fin (-2))) = Ok (VNum (Fin y))
    /\ _calculate_growth_score (VNum (Fin 12)) (VNum (Fin 4)) = Ok (VNum (Fin y'))
    /\ y <= y'.
Proof.
  apply (growth_score_monotone 3 12 (-2) 4); discriminate.
Defined.

End Growth.

(** ** The rating set *)

Section Ratings.
Local Open Scope Q_scope.

(** The seven fields that [get_stock_rating_data] reads. *)
Definition scored_fields : list string :=
  ["P/E"; "PEG"; "P/B"; "EPS growth next 5 years"; "Sales growth past 5 years";
   "Current Ratio"; "Debt/Equity"].

(** What the function returns: four entries. *)
Definition rating_set (valuation growth health overall : value) : gmap string value :=
  <["overall_score" := overall]>
    (<["financial_health_score" := health]>
       (<["growth_score" := growth]> (<["valuation_score" := valuation]> ∅))).

Definition is_text (v : value) : Prop := exists s, v = VStr s.
Definition is_num (v : value) : Prop := exists x, v = VNum x.

(** [v], when a number, is a [float], or an [int] that a [float] can
    hold. *)
Definition fits_float (v : value) : Prop :=
  match v with
  | VNum x => Py.in_float_range x = true
  | _ => True
  end.

Lemma health_score_between (ratio debt : num) :
  exists y, _calculate_financial_health_score (VNum ratio) (VNum debt) = Ok (VNum y)
            /\ Num.between 0 100 y.
Proof.
  unfold _calculate_financial_health_score. rewrite health_components_VNum.
  unfold mbind, result_bind; cbn [Py.bind]. apply mean_or_zero_between.
  apply Forall_app_2.
  - destruct (Num.lt (Fin 0) ratio); repeat constructor. apply clamp_num_between.
  - destruct (Num.le (Fin 0) debt); repeat constructor. apply clamp_num_between.
Qed.

Lemma between_fin (y : num) :
  Num.between 0 100 y -> exists q, y = Fin q /\ 0 <= q <= 100.
Proof. destruct y as [q| | |]; cbn; try contradiction. intros H. exists q. auto. Qed.

Lemma rating_data_of_numbers (data : gmap string value) (pe peg pb eg sg cr de : num) :
  Py.in_float_range pe = true ->
  get_or_zero data "P/E" = VNum pe -> get_or_zero data "PEG" = VNum peg ->
  get_or_zero data "P/B" = VNum pb ->
  get_or_zero data "EPS growth next 5 years" = VNum eg ->
  get_or_zero data "Sales growth past 5 years" = VNum sg ->
  get_or_zero data "Current Ratio" = VNum cr ->
  get_or_zero data "Debt/Equity" = VNum de ->
  exists v g h o : Q,
    get_stock_rating_data data
    = Ok (rating_set (VNum (Fin v)) (VNum (Fin g)) (VNum (Fin h)) (VNum (Fin o)))
    /\ _calculate_valuation_score (VNum pe) (VNum peg) (VNum pb) = Ok (VNum (Fin v))
    /\ _calculate_growth_score (VNum eg) (VNum sg) = Ok (VNum (Fin g))
    /\ _calculate_financial_health_score (VNum cr) (VNum de) = Ok (VNum (Fin h))
    /\ 0 <= v <= 100 /\ 0 <= g <= 100 /\ 0 <= h <= 100 /\ 0 <= o <= 100
    /\ o == (v + g + h) / 3.
Proof.
  intros Hr E1 E2 E3 E4 E5 E6 E7.
  destruct (valuation_score_between pe peg pb Hr) as (v' & Hv & Bv).
  destruct (between_fin _ Bv) as (v & -> & Bv').
  destruct (growth_score_mean eg sg) as (g & Hg & _ & Bg).
  destruct (health_score_between cr de) as (h' & Hh & Bh).
  destruct (between_fin _ Bh) as (h & -> & Bh').
  exists v, g, h, ((0 + v + g + h) / 3).
  unfold get_stock_rating_data. rewrite E1, E2, E3, E4, E5, E6, E7, Hv, Hg, Hh.
  do 4 (split; [reflexivity|]). do 3 (split; [assumption|]).
  split; [split|].
  - apply Qle_shift_div_l; lra.
  - apply Qle_shift_div_r; lra.
  - field.
Qed.

Definition numeric_or_missing (data : gmap string value) (key : string) : Prop :=
  match data !! key with
  | Some (VNum _) | None => True
  | _ => False
  end.

Lemma get_or_zero_numeric (data : gmap string value) (key : string) :
  numeric_or_missing data key -> exists x, get_or_zero data key = VNum x.
Proof.
  unfold numeric_or_missing, get_or_zero.
  destruct (data !! key) as [[x|s|]|]; cbn; try contradiction; eauto.
Qed.

Lemma rating_data_numeric (data : gmap string value) :
  Forall (numeric_or_missing data) scored_fields ->
  fits_float (get_or_zero data "P/E") ->
  exists v g h o : Q,
    get_stock_rating_data data
    = Ok (rating_set (VNum (Fin v)) (VNum (Fin g)) (VNum (Fin h)) (VNum (Fin o)))
    /\ 0 <= v <= 100 /\ 0 <= g <= 100 /\ 0 <= h <= 100 /\ 0 <= o <= 100
    /\ o == (v + g + h) / 3.
Proof.
  intros H Hfits. unfold scored_fields in H.
  repeat match type of H with
         | Forall _ (_ :: _) => apply Forall_cons in H as [?%get_or_zero_numeric H]
         end.
  repeat match goal with H : exists _, _ |- _ => destruct H end.
  match goal with
  | E : get_or_zero data "P/E" = VNum ?pe |- _ =>
      rewrite E in Hfits; cbn [fits_float] in Hfits;
      edestruct (rating_data_of_numbers data pe)
        as (v & g & h & o & Hr & _ & _ & _ & Hrest); try eassumption
  end.
  exists v, g, h, o. split; [exact Hr | exact Hrest].
Qed.

(** When each of the seven scored fields is a number or missing, the P/E
    being a [float] or an [int] within the float range, whatever else the
    snapshot holds, [get_stock_rating_data] returns a rating set of exactly
    four entries; each score is a finite number in [[0, 100]] and the
    overall score is the mean of the other three. *)
Theorem rating_data_in_range (data : gmap string value) :
  Forall (numeric_or_missing data) scored_fields ->
  fits_float (get_or_zero data "P/E") ->
  exists v g h o : Q,
    get_stock_rating_data data
    = Ok (rating_set (VNum (Fin v)) (VNum (Fin g)) (VNum (Fin h)) (VNum (Fin o)))
    /\ 0 <= v <= 100 /\ 0 <= g <= 100 /\ 0 <= h <= 100 /\ 0 <= o <= 100
    /\ o == (v + g + h) / 3.
Proof. exact (rating_data_numeric data). Qed.

Lemma rating_data_in_range_witness :
  exists v g h o : Q,
    get_stock_rating_data {[ "P/E" := Py.int 12; "Index" := VStr "S&P 500" ]}
    = Ok (rating_set (VNum (Fin v)) (VNum (Fin g)) (VNum (Fin h)) (VNum (Fin o)))
    /\ 0 <= v <= 100 /\ 0 <= g <= 100 /\ 0 <= h <= 100 /\ 0 <= o <= 100
    /\ o == (v + g + h) / 3.
Proof.
  apply (rating_data_in_range {[ "P/E" := Py.int 12; "Index" := VStr "S&P 500" ]}).
  - repeat constructor.
  - vm_compute. reflexivity.
Defined.

(** *** Text among the scored fields *)

(** A number or a string: what [get_company_data] stores. *)
Definition plain (v : value) : Prop := is_num v \/ is_text v.

Ltac run_scores :=
  repeat (rewrite ?append_if_pe, ?peg_score_VNum, ?pb_score_VNum, ?append_if_gt
            by assumption;
          unfold mbind, result_bind; cbn [Py.bind]);
  repeat match goal with
    | |- context [if Num.lt ?a ?b then _ else _] => destruct (Num.lt a b)
    | |- context [if Num.le ?a ?b then _ else _] => destruct (Num.le a b)
    end;
  try reflexivity.

Lemma valuation_score_some_text (pe peg pb : value) :
  plain pe -> plain peg -> plain pb -> fits_float pe ->
  is_text pe \/ is_text peg \/ is_text pb ->
  _calculate_valuation_score pe peg pb = Raise TypeError.
Proof.
  intros [[x ->]|[s ->]] [[y ->]|[t ->]] [[z ->]|[u ->]] Hfits H;
    cbn [fits_float] in Hfits;
    try (destruct H as [[? H]|[[? H]|[? H]]]; discriminate H);
    unfold _calculate_valuation_score, valuation_components; run_scores.
Qed.

Lemma growth_score_some_text (earnings sales : value) :
  plain earnings -> plain sales ->
  is_text earnings \/ is_text sales ->
  _calculate_growth_score earnings sales = Raise TypeError.
Proof.
  intros [[x ->]|[s ->]] [[y ->]|[t ->]] H;
    try (destruct H as [[? H]|[? H]]; discriminate H);
    unfold _calculate_growth_score, append_if, is_not_None;
    rewrite ?growth_score_VNum; reflexivity.
Qed.

Lemma health_score_some_text (ratio debt : value) :
  plain ratio -> plain debt ->
  is_text ratio \/ is_text debt ->
  _calculate_financial_health_score ratio debt = Raise TypeError.
Proof.
  intros [[x ->]|[s ->]] [[y ->]|[t ->]] H;
    try (destruct H as [[? H]|[? H]]; discriminate H);
    unfold _calculate_financial_health_score, health_components, current_ratio_score,
      append_if, Py.gt, Py.int, mbind, result_bind;
    cbn [Py.bind Py.lt Py.ge Py.mul_int]; try reflexivity;
    rewrite clamp_VNum; cbn [Py.bind];
    match goal with |- context [if ?b then _ else _] => destruct b end; reflexivity.
Qed.

Lemma plain_cases (v : value) : plain v -> is_text v \/ is_num v.
Proof. intros [H|H]; auto. Qed.

Lemma get_or_zero_text (data : gmap string value) (key : string) :
  is_text (get_or_zero data key) <-> exists s, data !! key = Some (VStr s).
Proof.
  unfold is_text, get_or_zero. destruct (data !! key) as [v|]; cbn.
  - split; intros [s H]; exists s; congruence.
  - split; intros [s H]; discriminate H.
Qed.

Lemma num_not_text (v : value) : is_num v -> ~ is_text v.
Proof. intros [x ->] [s H]. discriminate H. Qed.

Lemma valuation_cases (pe peg pb : value) :
  plain pe -> plain peg -> plain pb -> fits_float pe ->
  ((is_text pe \/ is_text peg \/ is_text pb)
   /\ _calculate_valuation_score pe peg pb = Raise TypeError)
  \/ ((~ is_text pe /\ ~ is_text peg /\ ~ is_text pb)
      /\ exists v, _calculate_valuation_score pe peg pb = Ok (VNum v)).
Proof.
  intros Hpe Hpeg Hpb Hfits.
  destruct (plain_cases _ Hpe) as [T1|N1]; [left; split; [|apply valuation_score_some_text]; auto|].
  destruct (plain_cases _ Hpeg) as [T2|N2]; [left; split; [|apply valuation_score_some_text]; auto|].
  destruct (plain_cases _ Hpb) as [T3|N3]; [left; split; [|apply valuation_score_some_text]; auto|].
  right. split; [auto using num_not_text|].
  destruct N1 as [x ->], N2 as [y ->], N3 as [z ->].
  destruct (valuation_score_between x y z Hfits) as (v & Hv & _). eauto.
Qed.

Lemma growth_cases (earnings sales : value) :
  plain earnings -> plain sales ->
  ((is_text earnings \/ is_text sales)
   /\ _calculate_growth_score earnings sales = Raise TypeError)
  \/ ((~ is_text earnings /\ ~ is_text sales)
      /\ exists g, _calculate_growth_score earnings sales = Ok (VNum g)).
Proof.
  intros He Hs.
  destruct (plain_cases _ He) as [T1|N1]; [left; split; [|apply growth_score_some_text]; auto|].
  destruct (plain_cases _ Hs) as [T2|N2]; [left; split; [|apply growth_score_some_text]; auto|].
  right. split; [auto using num_not_text|].
  destruct N1 as [x ->], N2 as [y ->].
  destruct (growth_score_mean x y) as (g & Hg & _). eauto.
Qed.

Lemma health_cases (ratio debt : value) :
  plain ratio -> plain debt ->
  ((is_text ratio \/ is_text debt)
   /\ _calculate_financial_health_score ratio debt = Raise TypeError)
  \/ ((~ is_text ratio /\ ~ is_text debt)
      /\ exists h, _calculate_financial_health_score ratio debt = Ok (VNum h)).
Proof.
  intros Hr Hd.
  destruct (plain_cases _ Hr) as [T1|N1]; [left; split; [|apply health_score_some_text]; auto|].
  destruct (plain_cases _ Hd) as [T2|N2]; [left; split; [|apply health_score_some_text]; auto|].
  right. split; [auto using num_not_text|].
  destruct N1 as [x ->], N2 as [y ->].
  destruct (health_score_between x y) as (h & Hh & _). eauto.
Qed.

Lemma rating_data_raises_iff_text (data : gmap string value) :
  Forall (fun key => plain (get_or_zero data key)) scored_fields ->
  fits_float (get_or_zero data "P/E") ->
  (get_stock_rating_data data = Raise TypeError
   <-> Exists (fun key => exists s, data !! key = Some (VStr s)) scored_fields)
  /\ (forall e, get_stock_rating_data data = Raise e -> e = TypeError).
Proof.
  intros H Hfits. unfold scored_fields in *.
  repeat match type of H with
         | Forall _ (_ :: _) => apply Forall_cons in H as [? H]
         end.
  clear H.
  rewrite !Exists_cons, Exists_nil, <- !get_or_zero_text.
  unfold get_stock_rating_data.
  destruct (valuation_cases (get_or_zero data "P/E") (get_or_zero data "PEG")
              (get_or_zero data "P/B")) as [[Tv ->]|[Nv [v ->]]]; try assumption.
  { split; [split; [tauto | reflexivity] | intros e [= <-]; reflexivity]. }
  unfold mbind at 1, result_bind at 1; cbn [Py.bind].
  destruct (growth_cases (get_or_zero data "EPS growth next 5 years")
              (get_or_zero data "Sales growth past 5 years")) as [[Tg ->]|[Ng [g ->]]];
    try assumption.
  { split; [split; [tauto | reflexivity] | intros e [= <-]; reflexivity]. }
  unfold mbind at 1, result_bind at 1; cbn [Py.bind].
  destruct (health_cases (get_or_zero data "Current Ratio")
              (get_or_zero data "Debt/Equity")) as [[Th ->]|[Nh [h ->]]];
    try assumption.
  { split; [split; [tauto | reflexivity] | intros e [= <-]; reflexivity]. }
  unfold mbind, result_bind, mret, result_ret; cbn [Py.bind Py.np_mean Py.numbers].
  split; [split; [discriminate | tauto] | discriminate].
Qed.

(** The bound on the P/E is needed: with an [int] beyond the float range
    there, [get_stock_rating_data] raises [OverflowError], whatever the
    other fields hold. *)
Lemma rating_data_overflow (data : gmap string value) (q : Q) :
  data !! "P/E" = Some (VNum (Fin q)) -> Py.float_limit + 30 <= q ->
  get_stock_rating_data data = Raise OverflowError.
Proof.
  intros Hd Hq. unfold get_stock_rating_data, get_or_zero. rewrite Hd. cbn [default id].
  unfold _calculate_valuation_score, valuation_components.
  rewrite (pe_score_overflow q Hq).
  unfold append_if at 1. unfold Py.gt, Py.int.
  cbn [mbind result_bind Py.bind Py.lt Num.lt]. change (inject_Z 0) with 0.
  assert (Hpos : Num.Qltb 0 q = true).
  { apply Qltb_lt. pose proof float_limit_large. lra. }
  rewrite Hpos. reflexivity.
Qed.

(** On a snapshot of numbers and strings, the P/E being no [int] beyond
    the float range, [get_stock_rating_data] raises [TypeError] exactly when
    one of the seven scored fields holds a string; it raises nothing else. *)
Theorem rating_data_type_error (data : gmap string value) :
  Forall (fun key => plain (get_or_zero data key)) scored_fields ->
  fits_float (get_or_zero data "P/E") ->
  (get_stock_rating_data data = Raise TypeError
   <-> Exists (fun key => exists s, data !! key = Some (VStr s)) scored_fields)
  /\ (forall e, get_stock_rating_data data = Raise e -> e = TypeError).
Proof. exact (rating_data_raises_iff_text data). Qed.

(** A snapshot with a number, a missing field and a string for a scored
    field. *)
Lemma rating_data_type_error_witness :
  get_stock_rating_data {[ "P/E" := Py.int 12; "Debt/Equity" := VStr "-" ]}
  = Raise TypeError.
Proof.
  apply (rating_data_type_error {[ "P/E" := Py.int 12; "Debt/Equity" := VStr "-" ]}).
  - repeat (apply Forall_cons; split;
            [vm_compute; first [left; eexists; reflexivity | right; eexists; reflexivity]|]).
    apply Forall_nil. exact I.
  - vm_compute. reflexivity.
  - do 6 apply Exists_cons_tl. apply Exists_cons_hd. eexists. reflexivity.
Defined.

End Ratings.

(** ** Full marks in the valuation score *)

Section FullMarks.
Local Open Scope Q_scope.

Lemma clamp_num_below (x : Q) (bound : Q) :
  x <= bound -> 0 <= bound -> bound <= 100 ->
  exists c, clamp_num (Fin x) = Fin c /\ 0 <= c <= bound.
Proof.
  intros Hx H0 H100. unfold clamp_num. cbn [Num.lt].
  destruct (Num.Qltb x 100) eqn:Hhi.
  - cbn [Num.lt]. destruct (Num.Qltb 0 x) eqn:Hlo.
    + apply Qltb_lt in Hlo. exists x. split; [reflexivity | lra].
    + exists 0. split; [reflexivity | lra].
  - apply Qltb_ge in Hhi. exists 100. change (Num.lt (Fin 0) (Fin 100)) with true.
    split; [reflexivity | lra].
Qed.

Lemma clamp_num_fin_100 (x : Q) :
  exists c, clamp_num (Fin x) = Fin c /\ 0 <= c <= 100 /\ (c == 100 <-> 100 <= x).
Proof.
  unfold clamp_num. cbn [Num.lt].
  destruct (Num.Qltb x 100) eqn:Hhi.
  - cbn [Num.lt]. apply Qltb_lt in Hhi. destruct (Num.Qltb 0 x) eqn:Hlo.
    + apply Qltb_lt in Hlo. exists x. split; [reflexivity|]. split; [lra|]. split; lra.
    + exists 0. split; [reflexivity|]. split; [lra|]. split; lra.
  - apply Qltb_ge in Hhi. exists 100. change (Num.lt (Fin 0) (Fin 100)) with true.
    split; [reflexivity|]. split; [lra|]. split; [lra | reflexivity].
Qed.

(** A reported P/E scores below 100: at most 99.9. *)
Lemma pe_component_below (pe : num) :
  positive pe -> exists c, pe_component pe = Fin c /\ 0 <= c <= 99.9.
Proof.
  unfold positive, pe_component. destruct pe as [q| | |]; cbn [Num.lt]; try discriminate.
  - intros Hq%Qltb_lt. cbn [Num.sub Num.neg Num.add Num.mul].
    apply clamp_num_below; lra.
  - intros _. exists 0. split; [reflexivity | lra].
Qed.

(** With a reported P/E, a [float] or an [int] within the float range, the
    valuation score stays below 100: the P/E component is at most 99.9, so
    the mean is below 99.97.  Without a reported P/E and P/B, a PEG of 1
    gives the full 100. *)
Theorem valuation_score_with_pe (pe peg pb : num) :
  (positive pe -> Py.in_float_range pe = true ->
   exists y, _calculate_valuation_score (VNum pe) (VNum peg) (VNum pb) = Ok (VNum (Fin y))
             /\ 0 <= y <= 99.97)
  /\ (~ positive pe -> ~ positive pb ->
      exists y, _calculate_valuation_score (VNum pe) (VNum (Fin 1)) (VNum pb)
                = Ok (VNum (Fin y))
                /\ y == 100).
Proof.
  split.
  - intros Hpe Hr. unfold _calculate_valuation_score.
    rewrite (valuation_components_VNum pe peg pb Hr).
    unfold mbind, result_bind; cbn [Py.bind]. unfold part. rewrite Hpe.
    destruct (pe_component_below pe Hpe) as (a & -> & Ha).
    pose proof (clamp_num_between
                  (Num.mul (Num.sub (Fin 2) (Num.abs (Num.sub (Fin 1) peg))) (Fin 50))) as Bb.
    pose proof (clamp_num_between (Num.mul (Num.sub (Fin 5) pb) (Fin 20))) as Bc.
    fold (peg_component peg) in Bb. fold (pb_component pb) in Bc.
    destruct (between_fin _ Bb) as (b & -> & Hb).
    destruct (between_fin _ Bc) as (c & -> & Hc).
    destruct (Num.lt (Fin 0) peg), (Num.lt (Fin 0) pb);
      cbn [app map mean_or_zero Py.np_mean Py.numbers Py.bind Py.total fold_left
             Num.add Num.zero Num.div_count length];
      unfold mret, result_ret;
      (eexists; split; [reflexivity|]);
      (split; [apply Qle_shift_div_l | apply Qle_shift_div_r]);
      try reflexivity;
      repeat match goal with
        | |- context [inject_Z (Z.of_nat ?n)] =>
            let k := eval vm_compute in (inject_Z (Z.of_nat n)) in
            change (inject_Z (Z.of_nat n)) with k
        end;
      lra.
  - intros Hpe Hpb. unfold _calculate_valuation_score, valuation_components.
    rewrite (append_if_excluded pe _ _ Hpe).
    unfold mbind, result_bind; cbn [Py.bind].
    rewrite peg_score_VNum, append_if_gt. cbn [Py.bind].
    rewrite (append_if_excluded pb _ _ Hpb).
    eexists. split; [vm_compute; reflexivity | reflexivity].
Qed.

Lemma valuation_score_with_pe_witness :
  (exists y, _calculate_valuation_score (VNum (Fin 0.5)) (VNum (Fin 1)) (VNum (Fin (-2)))
             = Ok (VNum (Fin y))
             /\ 0 <= y <= 99.97)
  /\ (exists y, _calculate_valuation_score (VNum (Fin (-3))) (VNum (Fin 1)) (VNum (Fin 0))
                = Ok (VNum (Fin y))
                /\ y == 100).
Proof.
  split.
  - apply (valuation_score_with_pe (Fin 0.5) (Fin 1) (Fin (-2)));
      vm_compute; reflexivity.
  - apply (valuation_score_with_pe (Fin (-3)) (Fin 1) (Fin 0)); unfold positive; discriminate.
Defined.

End FullMarks.

(** ** More on [_convert_value] *)

Section ConvertFacts.
Local Open Scope Q_scope.

(** [c in s]. *)
Fixpoint contains (c : ascii) (s : string) : bool :=
  match s with
  | String d r => Ascii.eqb c d || contains c r
  | EmptyString => false
  end.

Lemma remove_char_app (c : ascii) (s t : string) :
  Py.remove_char c (String.app s t)
  = String.app (Py.remove_char c s) (Py.remove_char c t).
Proof.
  induction s as [|d s IH]; [reflexivity|].
  change (String.app (String d s) t) with (String d (String.app s t)).
  cbn [Py.remove_char]. rewrite IH. destruct (Ascii.eqb c d); reflexivity.
Qed.

Lemma remove_char_clean (c : ascii) (s : string) :
  contains c (Py.remove_char c s) = false.
Proof.
  induction s as [|d s IH]; [reflexivity|]. cbn [Py.remove_char].
  destruct (Ascii.eqb c d) eqn:E; [exact IH|]. cbn [contains]. rewrite E, IH. reflexivity.
Qed.

Lemma contains_remove_char (c d : ascii) (s : string) :
  contains c s = false -> contains c (Py.remove_char d s) = false.
Proof.
  induction s as [|a s IH]; [reflexivity|]. cbn [contains Py.remove_char].
  intros [Ha Hs]%orb_false_elim. destruct (Ascii.eqb d a); [auto|].
  cbn [contains]. rewrite Ha. auto.
Qed.

Lemma remove_char_absent (c : ascii) (s : string) :
  contains c s = false -> Py.remove_char c s = s.
Proof.
  induction s as [|a s IH]; [reflexivity|]. cbn [contains Py.remove_char].
  intros [Ha Hs]%orb_false_elim. rewrite Ha, IH by exact Hs. reflexivity.
Qed.

Lemma stripped_clean (s : string) :
  contains "," (stripped s) = false /\ contains "%" (stripped s) = false.
Proof.
  unfold stripped. split.
  - apply contains_remove_char, remove_char_clean.
  - apply remove_char_clean.
Qed.

Lemma stripped_absent (s : string) :
  contains "," s = false -> contains "%" s = false -> stripped s = s.
Proof.
  intros Hc Hp. unfold stripped. rewrite (remove_char_absent "," s Hc).
  apply remove_char_absent, Hp.
Qed.

Lemma stripped_idempotent (s : string) : stripped (stripped s) = stripped s.
Proof. apply stripped_absent; apply stripped_clean. Qed.

Lemma convert_value_text (s t : string) :
  _convert_value s = VStr t ->
  t = stripped s
  /\ contains "," t = false /\ contains "%" t = false
  /\ _convert_value t = VStr t.
Proof.
  unfold _convert_value. fold (stripped s).
  destruct (Py.float_of_string (stripped s)) as [x|e] eqn:E; [discriminate|].
  intros [= <-]. split; [reflexivity|].
  destruct (stripped_clean s) as [Hc Hp]. split; [exact Hc|]. split; [exact Hp|].
  fold (stripped (stripped s)). rewrite stripped_idempotent, E. reflexivity.
Qed.

(** A string that [_convert_value] returns holds no comma and no percent
    sign, is the input without its commas and percent signs, and is a fixed
    point: converting it again returns it. *)
Theorem convert_value_text_is_clean (s t : string) :
  _convert_value s = VStr t ->
  t = stripped s
  /\ contains "," t = false /\ contains "%" t = false
  /\ _convert_value t = VStr t.
Proof. exact (convert_value_text s t). Qed.

Lemma convert_value_text_is_clean_witness :
  "1.50 1.62" = stripped "1.50% 1.62%"
  /\ contains "," "1.50 1.62" = false /\ contains "%" "1.50 1.62" = false
  /\ _convert_value "1.50 1.62" = VStr "1.50 1.62".
Proof.
  apply (convert_value_text_is_clean "1.50% 1.62%" "1.50 1.62"). reflexivity.
Defined.

(** What [float] returns is a [float]: a literal beyond the float range
    is read as an infinity. *)
Lemma nearest_float_fits (q : Q) : Py.in_float_range (Py.nearest_float q) = true.
Proof.
  unfold Py.nearest_float. destruct (Py.in_float_range (Fin q)) eqn:E; [exact E|].
  destruct (Num.Qltb 0 q); reflexivity.
Qed.

Lemma float_of_string_in_range (s : string) (x : num) :
  Py.float_of_string s = Ok x -> Py.in_float_range x = true.
Proof.
  unfold Py.float_of_string. destruct (Py.sign_of _) as [negative r].
  destruct (_ || _); [intros [= <-]; destruct negative; reflexivity|].
  destruct (String.eqb _ _); [intros [= <-]; reflexivity|].
  destruct (Py.decimal r); [intros [= <-]; apply nearest_float_fits | discriminate].
Qed.

Lemma convert_value_fits (s : string) : fits_float (_convert_value s).
Proof.
  unfold _convert_value.
  destruct (Py.float_of_string _) as [x|e] eqn:E; [|exact I].
  exact (float_of_string_in_range _ x E).
Qed.

(** A comma or a percent sign, wherever it stands in the cell, changes
    nothing: a percentage is read as its number of percent, not as a
    fraction. *)
Theorem convert_value_ignores_separators (s t : string) :
  _convert_value (String.app s (String "," t)) = _convert_value (String.app s t)
  /\ _convert_value (String.app s (String "%" t)) = _convert_value (String.app s t).
Proof.
  unfold _convert_value. rewrite !remove_char_app. split; reflexivity.
Qed.

End ConvertFacts.

(** ** Decimal cells *)

Section Decimals.
Local Open Scope Q_scope.

(** The writing of a list of decimal digits, and the number it denotes on
    top of [acc]. *)
Definition digit_char (d : nat) : ascii := ascii_of_nat (48 + d).

Fixpoint numeral (ds : list nat) : string :=
  match ds with
  | [] => EmptyString
  | d :: r => String (digit_char d) (numeral r)
  end.

Definition horner (acc : Z) (ds : list nat) : Z :=
  fold_left (fun a d => (10 * a + Z.of_nat d)%Z) ds acc.

Definition decimal_digits (ds : list nat) : Prop := Forall (fun d => (d < 10)%nat) ds.

Lemma digit_digit_char (d : nat) : (d < 10)%nat -> Py.digit (digit_char d) = Some (Z.of_nat d).
Proof.
  intros H. do 10 (destruct d as [|d]; [reflexivity|]). lia.
Qed.

Lemma digit_char_plain (d : nat) :
  (d < 10)%nat ->
  Py.is_space (digit_char d) = false /\ Py.lower (digit_char d) = digit_char d
  /\ Ascii.eqb (digit_char d) "-" = false /\ Ascii.eqb (digit_char d) "+" = false
  /\ Ascii.eqb (digit_char d) "i" = false /\ Ascii.eqb (digit_char d) "n" = false.
Proof.
  intros H. do 10 (destruct d as [|d]; [repeat split|]). lia.
Qed.

(** Reading a numeral consumes it whole. *)
Lemma digits_numeral (ds : list nat) (acc : Z) (count : nat) (rest : string) :
  decimal_digits ds ->
  Py.digits acc count (String.app (numeral ds) rest)
  = Py.digits (horner acc ds) (count + length ds) rest.
Proof.
  intros H. revert acc count. induction H as [|d ds Hd _ IH]; intros acc count.
  - cbn. rewrite Nat.add_0_r. reflexivity.
  - change (String.app (numeral (d :: ds)) rest)
      with (String (digit_char d) (String.app (numeral ds) rest)).
    cbn [Py.digits]. rewrite (digit_digit_char d Hd), IH. cbn [horner fold_left length].
    f_equal. lia.
Qed.

(** *** Reversal and [strip] *)

Lemma string_app_assoc (a b c : string) :
  String.app (String.app a b) c = String.app a (String.app b c).
Proof.
  induction a as [|x a IH]; [reflexivity|].
  change (String x (String.app (String.app a b) c) = String x (String.app a (String.app b c))).
  rewrite IH. reflexivity.
Qed.

Lemma rev_app_spec (s t : string) :
  String.rev_app s t = String.app (String.rev s) t.
Proof.
  unfold String.rev. revert t. induction s as [|x s IH]; intros t; [reflexivity|].
  cbn [String.rev_app]. rewrite (IH (String x t)), (IH (String x "")), string_app_assoc.
  reflexivity.
Qed.

Lemma rev_cons (x : ascii) (s : string) :
  String.rev (String x s) = String.app (String.rev s) (String x "").
Proof. unfold String.rev at 1. cbn [String.rev_app]. apply rev_app_spec. Qed.

Lemma rev_snoc (x : ascii) (s : string) :
  String.rev (String.app s (String x "")) = String x (String.rev s).
Proof.
  induction s as [|y s IH]; [reflexivity|].
  change (String.app (String y s) (String x "")) with (String y (String.app s (String x ""))).
  rewrite !rev_cons, IH. reflexivity.
Qed.

Lemma rev_involutive (s : string) : String.rev (String.rev s) = s.
Proof.
  induction s as [|x s IH]; [reflexivity|]. rewrite rev_cons, rev_snoc, IH. reflexivity.
Qed.

(** No character of [s] is white space. *)
Fixpoint spaceless (s : string) : bool :=
  match s with
  | String c r => negb (Py.is_space c) && spaceless r
  | EmptyString => true
  end.

Lemma spaceless_app (s t : string) :
  spaceless (String.app s t) = spaceless s && spaceless t.
Proof.
  induction s as [|x s IH]; [reflexivity|].
  change (String.app (String x s) t) with (String x (String.app s t)).
  cbn [spaceless]. rewrite IH, andb_assoc. reflexivity.
Qed.

Lemma spaceless_rev (s : string) : spaceless (String.rev s) = spaceless s.
Proof.
  induction s as [|x s IH]; [reflexivity|].
  rewrite rev_cons, spaceless_app, IH. cbn [spaceless].
  rewrite andb_true_r. apply andb_comm.
Qed.

Lemma lstrip_spaceless (s : string) : spaceless s = true -> Py.lstrip s = s.
Proof.
  destruct s as [|x s]; [reflexivity|]. cbn [spaceless Py.lstrip].
  intros [Hx _]%andb_true_iff. apply negb_true_iff in Hx. rewrite Hx. reflexivity.
Qed.

(** [strip] leaves a string without white space as it is. *)
Lemma strip_spaceless (s : string) : spaceless s = true -> Py.strip s = s.
Proof.
  intros H. unfold Py.strip, Py.rstrip. rewrite (lstrip_spaceless s H).
  rewrite lstrip_spaceless by (rewrite spaceless_rev; exact H).
  apply rev_involutive.
Qed.

(** What [float] skips is white space of [str.strip] too. *)
Lemma float_space_is_space (c : ascii) :
  Py.is_float_space c = true -> Py.is_space c = true.
Proof.
  unfold Py.is_float_space, Py.is_space. generalize (nat_of_ascii c). intros n.
  rewrite !orb_true_iff, !andb_true_iff, !Nat.leb_le, !Nat.eqb_eq. lia.
Qed.

Lemma float_lstrip_spaceless (s : string) : spaceless s = true -> Py.float_lstrip s = s.
Proof.
  destruct s as [|x s]; [reflexivity|]. cbn [spaceless Py.float_lstrip].
  intros [Hx _]%andb_true_iff. apply negb_true_iff in Hx.
  destruct (Py.is_float_space x) eqn:E; [|reflexivity].
  apply float_space_is_space in E. congruence.
Qed.

(** So does [float] leave a string without white space as it is. *)
Lemma float_strip_spaceless (s : string) : spaceless s = true -> Py.float_strip s = s.
Proof.
  intros H. unfold Py.float_strip. rewrite (float_lstrip_spaceless s H).
  rewrite float_lstrip_spaceless by (rewrite spaceless_rev; exact H).
  apply rev_involutive.
Qed.

Lemma spaceless_numeral (ds : list nat) : decimal_digits ds -> spaceless (numeral ds) = true.
Proof.
  induction 1 as [|d ds Hd _ IH]; [reflexivity|]. cbn [numeral spaceless].
  destruct (digit_char_plain d Hd) as (-> & _). exact IH.
Qed.

(** *** Signed decimals *)

(** A sign, digits, and perhaps a point and more digits. *)
Definition decimal_text (negative : bool) (ints : list nat)
  (fraction : option (list nat)) : string :=
  String.app (if negative then "-" else "")
    (String.app (numeral ints)
       (match fraction with
        | Some fracs => String "." (numeral fracs)
        | None => EmptyString
        end)).

(** The number the text denotes. *)
Definition decimal_value (negative : bool) (ints : list nat)
  (fraction : option (list nat)) : Q :=
  let fracs := default [] fraction in
  let magnitude :=
    inject_Z (horner 0 (ints ++ fracs)) / inject_Z (10 ^ Z.of_nat (length fracs)) in
  if negative then - magnitude else magnitude.

Lemma string_app_nil_r (s : string) : String.app s EmptyString = s.
Proof.
  induction s as [|x s IH]; [reflexivity|].
  change (String x (String.app s "") = String x s). rewrite IH. reflexivity.
Qed.

Lemma horner_app (acc : Z) (ds es : list nat) :
  horner acc (ds ++ es) = horner (horner acc ds) es.
Proof. apply fold_left_app. Qed.

Lemma power_of_ten (k : nat) :
  Qpower 10 (0 - Z.of_nat k) == / inject_Z (10 ^ Z.of_nat k).
Proof.
  rewrite Z.sub_0_l, Qpower_opp. apply Qinv_comp.
  symmetry. apply (Zpower_Qpower 10). lia.
Qed.

(** What [decimal] reads off the unsigned part. *)
Lemma decimal_unsigned (ints : list nat) (fraction : option (list nat)) :
  decimal_digits ints -> decimal_digits (default [] fraction) ->
  ints ++ default [] fraction <> [] ->
  exists q, Py.decimal (decimal_text false ints fraction) = Some q
            /\ q == decimal_value false ints fraction.
Proof.
  intros Hi Hf Hne. unfold decimal_text, decimal_value, Py.decimal.
  change (String.app "" ?s) with s.
  rewrite (digits_numeral ints 0 0 _ Hi). cbn [Nat.add].
  destruct fraction as [fracs|]; cbn [default] in *.
  - cbn [Py.digits]. change (Py.digit ".") with (@None Z).
    change (Ascii.eqb "." "_") with false. cbn [andb].
    rewrite <- (string_app_nil_r (numeral fracs)).
    rewrite (digits_numeral fracs _ 0 _ Hf). cbn [Nat.add Py.digits].
    destruct (length ints + length fracs =? 0)%nat eqn:E.
    { apply Nat.eqb_eq in E. destruct ints, fracs; cbn in E; try lia. contradiction. }
    cbn [Py.exponent]. eexists. split; [reflexivity|].
    rewrite horner_app, power_of_ten. reflexivity.
  - cbn [Py.digits]. rewrite app_nil_r in *.
    destruct (length ints + 0 =? 0)%nat eqn:E.
    { apply Nat.eqb_eq in E. destruct ints; cbn in E; try lia. contradiction. }
    cbn [Py.exponent]. eexists. split; [reflexivity|].
    cbn [length]. rewrite (power_of_ten 0). reflexivity.
Qed.

(** *** The float range *)

(** A numeral of [n] digits denotes a number below [10 ^ n]. *)
Lemma horner_bound (ds : list nat) (acc : Z) :
  decimal_digits ds -> (0 <= acc)%Z ->
  (0 <= horner acc ds < (acc + 1) * 10 ^ Z.of_nat (length ds))%Z.
Proof.
  intros H. revert acc. induction H as [|d ds Hd _ IH]; intros acc Hacc.
  - cbn [horner fold_left length]. lia.
  - cbn [horner fold_left]. fold (horner (10 * acc + Z.of_nat d) ds).
    destruct (IH (10 * acc + Z.of_nat d)%Z) as [Hlo Hhi]; [lia|].
    split; [exact Hlo|].
    rewrite length_cons, Nat2Z.inj_succ, Z.pow_succ_r by lia.
    assert (0 < 10 ^ Z.of_nat (length ds))%Z by (apply Z.pow_pos_nonneg; lia).
    nia.
Qed.

(** With an integer part of at most 300 digits the number is within the
    float range. *)
Lemma decimal_value_in_range (negative : bool) (ints : list nat)
  (fraction : option (list nat)) :
  decimal_digits ints -> decimal_digits (default [] fraction) ->
  (length ints <= 300)%nat ->
  Qabs (decimal_value negative ints fraction) < Py.float_limit.
Proof.
  intros Hi Hf Hlen. unfold decimal_value.
  set (fracs := default [] fraction) in *.
  set (magnitude := inject_Z (horner 0 (ints ++ fracs))
                    / inject_Z (10 ^ Z.of_nat (length fracs))).
  assert (Hpow : (0 < 10 ^ Z.of_nat (length fracs))%Z) by (apply Z.pow_pos_nonneg; lia).
  assert (Hden : 0 < inject_Z (10 ^ Z.of_nat (length fracs))).
  { change 0 with (inject_Z 0). rewrite <- Zlt_Qlt. exact Hpow. }
  destruct (horner_bound (ints ++ fracs) 0) as [Hlo Hhi];
    [apply Forall_app_2; assumption | lia |].
  assert (H0 : 0 <= magnitude).
  { apply Qle_shift_div_l; [exact Hden|]. rewrite Qmult_0_l.
    change 0 with (inject_Z 0). rewrite <- Zle_Qle. exact Hlo. }
  assert (H1 : magnitude < inject_Z (10 ^ 300)).
  { apply Qlt_shift_div_r; [exact Hden|].
    rewrite <- inject_Z_mult, <- Zlt_Qlt.
    rewrite length_app, Nat2Z.inj_add, Z.pow_add_r in Hhi by lia.
    assert (10 ^ Z.of_nat (length ints) <= 10 ^ 300)%Z
      by (apply Z.pow_le_mono_r; lia).
    nia. }
  assert (H2 : inject_Z (10 ^ 300) < Py.float_limit) by (vm_compute; reflexivity).
  assert (Hm : Qabs magnitude < Py.float_limit).
  { rewrite (Qabs_pos _ H0). eapply Qlt_trans; eassumption. }
  destruct negative; [rewrite Qabs_opp|]; exact Hm.
Qed.

Lemma nearest_float_in_range (q : Q) :
  Qabs q < Py.float_limit -> Py.nearest_float q = Fin q.
Proof.
  intros H. unfold Py.nearest_float.
  rewrite (proj2 (in_float_range_fin q) H). reflexivity.
Qed.

(** The first character of an unsigned decimal is a digit or the point. *)
Definition decimal_head (c : ascii) : Prop :=
  c = "."%char \/ exists d, (d < 10)%nat /\ c = digit_char d.

Lemma decimal_text_head (ints : list nat) (fraction : option (list nat)) :
  decimal_digits ints -> ints ++ default [] fraction <> [] ->
  exists c r, decimal_text false ints fraction = String c r /\ decimal_head c.
Proof.
  intros Hi Hne. unfold decimal_text. change (String.app "" ?s) with s.
  destruct Hi as [|d ints Hd _].
  - destruct fraction as [fracs|]; [|contradiction].
    exists "."%char, (numeral fracs). split; [reflexivity | left; reflexivity].
  - eexists _, _. split; [reflexivity|]. right. exists d. auto.
Qed.

Lemma spaceless_decimal_text (negative : bool) (ints : list nat)
  (fraction : option (list nat)) :
  decimal_digits ints -> decimal_digits (default [] fraction) ->
  spaceless (decimal_text negative ints fraction) = true.
Proof.
  intros Hi Hf. unfold decimal_text. rewrite !spaceless_app, (spaceless_numeral ints Hi).
  destruct fraction as [fracs|]; cbn [default] in Hf; cbn [spaceless].
  - rewrite (spaceless_numeral fracs Hf). destruct negative; reflexivity.
  - destruct negative; reflexivity.
Qed.

Lemma head_is_no_word (c : ascii) (r : string) :
  decimal_head c ->
  Py.sign_of (String c r) = (false, String c r)
  /\ String.eqb (Py.lowercase (String c r)) "inf" = false
  /\ String.eqb (Py.lowercase (String c r)) "infinity" = false
  /\ String.eqb (Py.lowercase (String c r)) "nan" = false.
Proof.
  intros [-> | (d & Hd & ->)].
  - repeat split.
  - do 10 (destruct d as [|d]; [repeat split|]). lia.
Qed.

(** What [float] reads off a signed decimal. *)
Lemma float_of_decimal_text (negative : bool) (ints : list nat)
  (fraction : option (list nat)) :
  decimal_digits ints -> decimal_digits (default [] fraction) ->
  ints ++ default [] fraction <> [] -> (length ints <= 300)%nat ->
  exists q, Py.float_of_string (decimal_text negative ints fraction) = Ok (Fin q)
            /\ q == decimal_value negative ints fraction.
Proof.
  intros Hi Hf Hne Hlen.
  destruct (decimal_unsigned ints fraction Hi Hf Hne) as (q & Hq & Eq).
  destruct (decimal_text_head ints fraction Hi Hne) as (c & r & Hu & Hc).
  destruct (head_is_no_word c r Hc) as (Hsign & Hinf & Hinfinity & Hnan).
  pose proof (decimal_value_in_range negative ints fraction Hi Hf Hlen) as Hrange.
  unfold Py.float_of_string.
  rewrite (float_strip_spaceless _ (spaceless_decimal_text negative ints fraction Hi Hf)).
  destruct negative.
  - change (decimal_text true ints fraction)
      with (String "-" (decimal_text false ints fraction)).
    cbn [Py.sign_of]. rewrite Hu, Hinf, Hinfinity, Hnan, <- Hu, Hq. cbn [orb].
    assert (Eq' : - q == decimal_value true ints fraction)
      by (unfold decimal_value in *; rewrite Eq; reflexivity).
    rewrite nearest_float_in_range by (rewrite Eq'; exact Hrange).
    eexists. split; [reflexivity | exact Eq'].
  - rewrite Hu, Hsign, Hinf, Hinfinity, Hnan, <- Hu, Hq. cbn [orb].
    rewrite nearest_float_in_range by (rewrite Eq; exact Hrange).
    eexists. split; [reflexivity | exact Eq].
Qed.

(** A cell that, commas and percent signs apart, is a signed decimal (digits,
    perhaps with a point and more digits, at least one digit in all) becomes
    the number it denotes.  The integer part is kept to 300 digits, below
    the range where a [float] overflows to [inf]. *)
Theorem convert_value_decimal (s : string) (negative : bool) (ints : list nat)
  (fraction : option (list nat)) :
  decimal_digits ints -> decimal_digits (default [] fraction) ->
  ints ++ default [] fraction <> [] -> (length ints <= 300)%nat ->
  stripped s = decimal_text negative ints fraction ->
  is_number (_convert_value s) (decimal_value negative ints fraction).
Proof.
  intros Hi Hf Hne Hlen Hs.
  destruct (float_of_decimal_text negative ints fraction Hi Hf Hne Hlen) as (q & Hq & Eq).
  rewrite (convert_value_number s (Fin q)) by (rewrite Hs; exact Hq).
  exact Eq.
Qed.

Lemma convert_value_decimal_witness :
  is_number (_convert_value "-1,234.50%") (decimal_value true [1; 2; 3; 4]%nat (Some [5; 0]%nat)).
Proof.
  apply (convert_value_decimal "-1,234.50%" true [1; 2; 3; 4]%nat (Some [5; 0]%nat)).
  - repeat constructor.
  - repeat constructor.
  - discriminate.
  - cbn. lia.
  - reflexivity.
Defined.

End Decimals.

(** ** The snapshot that [get_company_data] builds *)

Section Snapshot.

(** The cells of a row, two by two, as lines 107-110 pair them. *)
Fixpoint column_pairs (columns : list string) : list (string * string) :=
  match columns with
  | key :: value :: rest => (key, value) :: column_pairs rest
  | _ => []
  end.

(** The entries of the snapshot tables in document order: for each pair of
    cells the trimmed label and the converted trimmed value. *)
Definition table_entries (t : Html.table) : list (string * value) :=
  row ← Html.trs t;
  '(key, value) ← column_pairs (Html.td row);
  [(Py.strip key, _convert_value (Py.strip value))].

Definition snapshot_entries (page : Html.soup) : list (string * value) :=
  Html.find_all_class "snapshot-table2" page ≫= table_entries.

(** [data[key] = value] for each entry in turn. *)
Definition store_all (entries : list (string * value)) (data : gmap string value)
  : gmap string value :=
  fold_left (fun data entry => <[entry.1 := entry.2]> data) entries data.

Lemma store_all_app (es fs : list (string * value)) (data : gmap string value) :
  store_all (es ++ fs) data = store_all fs (store_all es data).
Proof. apply fold_left_app. Qed.

Lemma read_columns_store (columns : list string) (data : gmap string value) :
  read_columns columns data
  = store_all ('(key, value) ← column_pairs columns;
               [(Py.strip key, _convert_value (Py.strip value))]) data.
Proof.
  revert data.
  induction columns as [columns IH] using (induction_ltof1 _ (@length string)).
  intros data. destruct columns as [|key [|value rest]]; try reflexivity.
  cbn [read_columns column_pairs]. rewrite IH by (unfold ltof; cbn; lia).
  reflexivity.
Qed.

Lemma read_rows_store (rows : list Html.tr) (data : gmap string value) :
  read_rows rows data
  = store_all (row ← rows; '(key, value) ← column_pairs (Html.td row);
               [(Py.strip key, _convert_value (Py.strip value))]) data.
Proof.
  unfold read_rows. revert data. induction rows as [|row rows IH]; intros data.
  - reflexivity.
  - cbn [fold_left]. rewrite IH, read_columns_store. cbn [mbind list_bind].
    rewrite store_all_app. reflexivity.
Qed.

Lemma read_tables_store (tables : list Html.table) (data : gmap string value) :
  read_tables tables data = store_all (tables ≫= table_entries) data.
Proof.
  unfold read_tables. revert data. induction tables as [|t tables IH]; intros data.
  - reflexivity.
  - cbn [fold_left]. rewrite IH, read_rows_store. cbn [mbind list_bind].
    rewrite store_all_app. reflexivity.
Qed.

Lemma store_all_snoc_lookup (es : list (string * value)) (e : string * value)
  (data : gmap string value) (k : string) :
  store_all (es ++ [e]) data !! k
  = if decide (e.1 = k) then Some e.2 else store_all es data !! k.
Proof.
  rewrite store_all_app. cbn [store_all fold_left]. apply lookup_insert.
Qed.

(** The last entry for a key decides. *)
Lemma store_all_last (es fs : list (string * value)) (k : string) (v : value)
  (data : gmap string value) :
  Forall (fun e => e.1 <> k) fs ->
  store_all (es ++ (k, v) :: fs) data !! k = Some v.
Proof.
  induction fs as [|f fs IH] using rev_ind; intros H.
  - rewrite store_all_snoc_lookup. cbn. rewrite decide_True by reflexivity. reflexivity.
  - apply Forall_app in H as [Hfs Hf]. apply Forall_cons in Hf as [Hf _].
    replace (es ++ (k, v) :: fs ++ [f]) with ((es ++ (k, v) :: fs) ++ [f])
      by (rewrite <- app_assoc; reflexivity).
    rewrite store_all_snoc_lookup, decide_False by exact Hf. apply IH, Hfs.
Qed.

(** A key that no entry has keeps what it had. *)
Lemma store_all_none (es : list (string * value)) (k : string)
  (data : gmap string value) :
  Forall (fun e => e.1 <> k) es -> store_all es data !! k = data !! k.
Proof.
  induction es as [|e es IH] using rev_ind; intros H; [reflexivity|].
  apply Forall_app in H as [Hes He]. apply Forall_cons in He as [He _].
  rewrite store_all_snoc_lookup, decide_False by exact He. apply IH, Hes.
Qed.

(** What is found under a key was stored by some entry. *)
Lemma store_all_elem (es : list (string * value)) (k : string) (v : value) :
  store_all es ∅ !! k = Some v -> (k, v) ∈ es.
Proof.
  induction es as [|e es IH] using rev_ind.
  - cbn. rewrite lookup_empty. discriminate.
  - rewrite store_all_snoc_lookup. destruct (decide (e.1 = k)) as [<-|Hne].
    + intros [= <-]. apply elem_of_app. right. destruct e. cbn. apply list_elem_of_singleton.
      reflexivity.
    + intros H. apply elem_of_app. left. apply IH, H.
Qed.

End Snapshot.

(** ** [strip] twice is [strip] *)

Section Trimmed.

Lemma lstrip_idempotent (s : string) : Py.lstrip (Py.lstrip s) = Py.lstrip s.
Proof.
  induction s as [|c s IH]; [reflexivity|]. cbn [Py.lstrip].
  destruct (Py.is_space c) eqn:E; [exact IH|]. cbn [Py.lstrip]. rewrite E. reflexivity.
Qed.

Lemma rstrip_idempotent (s : string) : Py.rstrip (Py.rstrip s) = Py.rstrip s.
Proof.
  unfold Py.rstrip. rewrite rev_involutive, lstrip_idempotent. reflexivity.
Qed.

(** White space in front of a character that is none is all that [lstrip]
    takes away. *)
Lemma lstrip_before (u w : string) (c : ascii) :
  Py.is_space c = false ->
  Py.lstrip (String.app u (String c w)) = String.app (Py.lstrip u) (String c w).
Proof.
  intros Hc. induction u as [|x u IH].
  - cbn [Py.lstrip]. change (String.app "" (String c w)) with (String c w).
    cbn [Py.lstrip]. rewrite Hc. reflexivity.
  - change (String.app (String x u) (String c w)) with (String x (String.app u (String c w))).
    cbn [Py.lstrip]. destruct (Py.is_space x); [exact IH | reflexivity].
Qed.

(** [rstrip] does not uncover white space at the front. *)
Lemma lstrip_rstrip (t : string) :
  Py.lstrip t = t -> Py.lstrip (Py.rstrip t) = Py.rstrip t.
Proof.
  destruct t as [|c t]; [reflexivity|]. cbn [Py.lstrip].
  destruct (Py.is_space c) eqn:Hc.
  - intros H. exfalso.
    assert (String.length (Py.lstrip t) <= String.length t)%nat as Hlen.
    { clear. induction t as [|x t IH]; [reflexivity|]. cbn [Py.lstrip].
      destruct (Py.is_space x); cbn [String.length]; lia. }
    rewrite H in Hlen. cbn [String.length] in Hlen. lia.
  - intros _. unfold Py.rstrip. rewrite rev_cons, (lstrip_before _ "" c Hc), rev_snoc.
    cbn [Py.lstrip]. rewrite Hc. reflexivity.
Qed.

Lemma strip_idempotent (s : string) : Py.strip (Py.strip s) = Py.strip s.
Proof.
  unfold Py.strip.
  rewrite (lstrip_rstrip (Py.lstrip s) (lstrip_idempotent s)).
  apply rstrip_idempotent.
Qed.

End Trimmed.

(** ** Entries of the snapshot *)

Section SnapshotFacts.
Local Open Scope Q_scope.

(** With a response that is no error, the snapshot is what storing the
    entries of the page in document order gives. *)
Lemma company_data_store (e : env) (url : string) (i : nat) (m : machine)
  (r : response) :
  ready i m -> env_ok e -> reply e = Ok r -> raise_for_status r = Ok tt ->
  (get_company_data e url m).1 = Ok (store_all (snapshot_entries (text r)) ∅).
Proof.
  intros Hm (Hj & _) Hr Hstatus.
  destruct (make_request_outcome e url i m Hm) as (m' & Hreq & _); [lra|].
  unfold get_company_data. unfold mbind at 1, M_bind at 1.
  rewrite Hreq, Hr. run_M. rewrite Hstatus, read_tables_store. reflexivity.
Qed.

(** When a label occurs more than once on the page, the snapshot holds the
    value of its last occurrence in document order; a label that does not
    occur is not in the snapshot. *)
Theorem company_data_last_label_wins (e : env) (url : string) (i : nat)
  (m : machine) (r : response) (k : string) :
  ready i m -> env_ok e -> reply e = Ok r -> raise_for_status r = Ok tt ->
  exists data,
    (get_company_data e url m).1 = Ok data
    /\ (forall es v fs,
          snapshot_entries (text r) = es ++ (k, v) :: fs ->
          Forall (fun entry => entry.1 <> k) fs ->
          data !! k = Some v)
    /\ (Forall (fun entry => entry.1 <> k) (snapshot_entries (text r)) ->
        data !! k = None).
Proof.
  intros Hm He Hr Hstatus. eexists. split.
  - apply (company_data_store e url i m r); assumption.
  - split.
    + intros es v fs -> Hfs. apply store_all_last, Hfs.
    + intros Hnone. rewrite store_all_none by exact Hnone. apply lookup_empty.
Qed.

(** A page on which P/E stands twice, in two snapshot tables. *)
Definition twice_page : Html.soup :=
  [ {| Html.table_class := ["snapshot-table2"]; Html.table_id := None;
       Html.trs := [ {| Html.tr_class := []; Html.td := ["P/E"; "15.2"; "PEG"; "1.1"] |} ] |};
    {| Html.table_class := ["snapshot-table2"]; Html.table_id := None;
       Html.trs := [ {| Html.tr_class := []; Html.td := [" P/E "; "N/A"; "Beta"] |} ] |} ].

Lemma company_data_last_label_wins_witness :
  exists data,
    (get_company_data (served twice_page) "https://finviz.com/quote.ashx?t=AAPL"
       (boot None 1000)).1 = Ok data
    /\ data !! "P/E" = Some (VStr "N/A")
    /\ data !! "Beta" = None.
Proof.
  destruct (company_data_last_label_wins (served twice_page)
              "https://finviz.com/quote.ashx?t=AAPL" 0 (boot None 1000)
              {| status_code := 200; text := twice_page |} "P/E")
    as (data & Hdata & Hlast & _).
  { apply ready_boot. }
  { unfold env_ok. cbn. repeat split; discriminate. }
  { reflexivity. }
  { reflexivity. }
  exists data. split; [exact Hdata|]. split.
  - apply (Hlast [("P/E", _convert_value "15.2"); ("PEG", _convert_value "1.1")]
             (VStr "N/A") []); [vm_compute; reflexivity | constructor].
  - destruct (company_data_last_label_wins (served twice_page)
                "https://finviz.com/quote.ashx?t=AAPL" 0 (boot None 1000)
                {| status_code := 200; text := twice_page |} "Beta")
      as (data' & Hdata' & _ & Hnone).
    { apply ready_boot. }
    { unfold env_ok. cbn. repeat split; discriminate. }
    { reflexivity. }
    { reflexivity. }
    rewrite Hdata in Hdata'. injection Hdata' as <-.
    apply Hnone. vm_compute. repeat constructor; discriminate.
Defined.

(** What the snapshot holds: trimmed labels, with the value of a cell as
    [_convert_value] returns it. *)
Lemma company_data_converted (e : env) (url : string) (i : nat)
  (m : machine) (r : response) :
  ready i m -> env_ok e -> reply e = Ok r -> raise_for_status r = Ok tt ->
  exists data,
    (get_company_data e url m).1 = Ok data
    /\ forall k v, data !! k = Some v ->
         Py.strip k = k /\ exists cell, v = _convert_value cell.
Proof.
  intros Hm He Hr Hstatus. eexists. split.
  - apply (company_data_store e url i m r); assumption.
  - intros k v Hk. apply store_all_elem in Hk.
    unfold snapshot_entries, table_entries in Hk.
    apply list_elem_of_bind in Hk as (table & Hk & _).
    apply list_elem_of_bind in Hk as (row & Hk & _).
    apply list_elem_of_bind in Hk as ([key cell] & Hk & _).
    apply list_elem_of_singleton in Hk. injection Hk as -> ->.
    split; [apply strip_idempotent | eauto].
Qed.

Lemma convert_value_plain (s : string) : plain (_convert_value s).
Proof.
  unfold plain, is_num, is_text, _convert_value.
  destruct (Py.float_of_string _); eauto.
Qed.

Lemma company_data_plain (e : env) (url : string) (i : nat)
  (m : machine) (r : response) :
  ready i m -> env_ok e -> reply e = Ok r -> raise_for_status r = Ok tt ->
  exists data,
    (get_company_data e url m).1 = Ok data
    /\ forall k v, data !! k = Some v ->
         Py.strip k = k
         /\ plain v
         /\ forall t, v = VStr t -> contains "," t = false /\ contains "%" t = false.
Proof.
  intros Hm He Hr Hstatus.
  destruct (company_data_converted e url i m r Hm He Hr Hstatus)
    as (data & Hdata & Hconv).
  exists data. split; [exact Hdata|].
  intros k v Hk. destruct (Hconv k v Hk) as (Hstrip & cell & ->).
  split; [exact Hstrip|]. split; [apply convert_value_plain|].
  intros t Ht. apply convert_value_text in Ht. tauto.
Qed.

(** Every key of the snapshot is a trimmed label and every value is a
    number or a string; a string holds no comma and no percent sign. *)
Theorem company_data_entries_are_plain (e : env) (url : string) (i : nat)
  (m : machine) (r : response) :
  ready i m -> env_ok e -> reply e = Ok r -> raise_for_status r = Ok tt ->
  exists data,
    (get_company_data e url m).1 = Ok data
    /\ forall k v, data !! k = Some v ->
         Py.strip k = k
         /\ plain v
         /\ forall t, v = VStr t -> contains "," t = false /\ contains "%" t = false.
Proof. exact (company_data_plain e url i m r). Qed.

Lemma company_data_entries_are_plain_witness :
  exists data,
    (get_company_data (served twice_page) "https://finviz.com/quote.ashx?t=AAPL"
       (boot None 1000)).1 = Ok data
    /\ forall k v, data !! k = Some v ->
         Py.strip k = k
         /\ plain v
         /\ forall t, v = VStr t -> contains "," t = false /\ contains "%" t = false.
Proof.
  apply (company_data_entries_are_plain (served twice_page) _ 0 (boot None 1000)
           {| status_code := 200; text := twice_page |}).
  - apply ready_boot.
  - unfold env_ok. cbn. repeat split; discriminate.
  - reflexivity.
  - reflexivity.
Defined.

(** In a row with an odd number of cells the last cell is ignored. *)
Theorem read_columns_odd_cell (columns : list string) (cell : string)
  (data : gmap string value) :
  Nat.even (length columns) = true ->
  read_columns (columns ++ [cell]) data = read_columns columns data.
Proof.
  revert data.
  induction columns as [columns IH] using (induction_ltof1 _ (@length string)).
  intros data Heven. destruct columns as [|key [|value rest]].
  - reflexivity.
  - discriminate Heven.
  - cbn [app read_columns]. apply IH; [unfold ltof; cbn; lia | exact Heven].
Qed.

Lemma read_columns_odd_cell_witness :
  read_columns (["P/E"; "15.2"] ++ ["Beta"]) ∅ = read_columns ["P/E"; "15.2"] ∅.
Proof. apply (read_columns_odd_cell ["P/E"; "15.2"] "Beta" ∅). reflexivity. Defined.

End SnapshotFacts.

(** ** From the page to the ratings *)

Section ScrapeThenRate.
Local Open Scope Q_scope.

Definition text_field (data : gmap string value) (key : string) : Prop :=
  exists s, data !! key = Some (VStr s).

Lemma text_field_or_not (data : gmap string value) (keys : list string) :
  Exists (text_field data) keys \/ Forall (fun key => ~ text_field data key) keys.
Proof.
  induction keys as [|key keys [IH|IH]].
  - right. constructor.
  - left. apply Exists_cons_tl, IH.
  - destruct (data !! key) as [[x|s|]|] eqn:E.
    + right. constructor; [|exact IH]. intros [s H]. congruence.
    + left. apply Exists_cons_hd. exists s. exact E.
    + right. constructor; [|exact IH]. intros [s H]. congruence.
    + right. constructor; [|exact IH]. intros [s H]. congruence.
Qed.

(** The snapshot that [get_company_data] returns can always be rated, up to
    text in a scored field: [get_stock_rating_data] returns four scores in
    [[0, 100]], or raises [TypeError], and it raises exactly when one of the
    seven scored labels stands on the page with a value that is no number. *)
Theorem rating_of_scraped_snapshot (e : env) (url : string) (i : nat)
  (m : machine) (r : response) :
  ready i m -> env_ok e -> reply e = Ok r -> raise_for_status r = Ok tt ->
  exists data,
    (get_company_data e url m).1 = Ok data
    /\ ((~ Exists (text_field data) scored_fields
         /\ exists v g h o : Q,
              get_stock_rating_data data
              = Ok (rating_set (VNum (Fin v)) (VNum (Fin g)) (VNum (Fin h)) (VNum (Fin o)))
              /\ 0 <= v <= 100 /\ 0 <= g <= 100 /\ 0 <= h <= 100 /\ 0 <= o <= 100
              /\ o == (v + g + h) / 3)
        \/ (Exists (text_field data) scored_fields
            /\ get_stock_rating_data data = Raise TypeError)).
Proof.
  intros Hm He Hr Hstatus.
  destruct (company_data_converted e url i m r Hm He Hr Hstatus)
    as (data & Hdata & Hconv).
  exists data. split; [exact Hdata|].
  assert (Hall : Forall (fun key => plain (get_or_zero data key)) scored_fields).
  { apply Forall_forall. intros key _. unfold get_or_zero.
    destruct (data !! key) as [v|] eqn:E; cbn.
    - destruct (Hconv key v E) as (_ & cell & ->). apply convert_value_plain.
    - left. eexists. reflexivity. }
  assert (Hfits : fits_float (get_or_zero data "P/E")).
  { unfold get_or_zero. destruct (data !! "P/E") as [v|] eqn:E; cbn [default].
    - destruct (Hconv "P/E" v E) as (_ & cell & ->). apply convert_value_fits.
    - vm_compute. reflexivity. }
  destruct (text_field_or_not data scored_fields) as [Htext|Hnone].
  - right. split; [exact Htext|].
    apply (rating_data_raises_iff_text data Hall Hfits). exact Htext.
  - left. split.
    + intros Hex. apply Exists_exists in Hex as (key & Hin & Hkey).
      rewrite Forall_forall in Hnone. exact (Hnone key Hin Hkey).
    + apply rating_data_numeric; [|exact Hfits]. rewrite Forall_forall in *.
      intros key Hin. specialize (Hall key Hin). specialize (Hnone key Hin).
      unfold numeric_or_missing, text_field, get_or_zero in *.
      destruct (data !! key) as [[x|s|]|]; cbn in *; try exact I.
      * apply Hnone. eauto.
      * destruct Hall as [[? H]|[? H]]; discriminate H.
Qed.

Lemma rating_of_scraped_snapshot_witness :
  exists data,
    (get_company_data (served twice_page) "https://finviz.com/quote.ashx?t=AAPL"
       (boot None 1000)).1 = Ok data
    /\ ((~ Exists (text_field data) scored_fields
         /\ exists v g h o : Q,
              get_stock_rating_data data
              = Ok (rating_set (VNum (Fin v)) (VNum (Fin g)) (VNum (Fin h)) (VNum (Fin o)))
              /\ 0 <= v <= 100 /\ 0 <= g <= 100 /\ 0 <= h <= 100 /\ 0 <= o <= 100
              /\ o == (v + g + h) / 3)
        \/ (Exists (text_field data) scored_fields
            /\ get_stock_rating_data data = Raise TypeError)).
Proof.
  apply (rating_of_scraped_snapshot (served twice_page) _ 0 (boot None 1000)
           {| status_code := 200; text := twice_page |}).
  - apply ready_boot.
  - unfold env_ok. cbn. repeat split; discriminate.
  - reflexivity.
  - reflexivity.
Defined.

End ScrapeThenRate.

(** ** One request, exactly *)

Section RequestFacts.
Local Open Scope Q_scope.

(** When the request starts: after the rate limit, if it applies, and the
    pause. *)
Definition start_time (m : machine) (e : env) : Q :=
  (if Num.Qltb (clock m - last_request_time (self m)) (min_request_interval (self m))
   then clock m + (min_request_interval (self m) - (clock m - last_request_time (self m)))
   else clock m) + jitter e.

(** How [acquire] moves the proxy cycle, and which proxy it hands out. *)
Definition proxy_step (before : option (Itertools.cycle string))
  (proxy : option string) (after : option (Itertools.cycle string)) : Prop :=
  match before with
  | Some it => exists p it', Itertools.next it = Some (p, it')
                             /\ proxy = Some p /\ after = Some it'
  | None => proxy = None /\ after = None
  end.

Lemma acquire_exact (e : env) (i : nat) (m : machine) :
  ready i m -> 0 <= jitter e ->
  exists user_agent proxy m',
    acquire e m = (Ok (user_agent, proxy), m')
    /\ clock m' = start_time m e
    /\ proxy_step (proxies (self m)) proxy (proxies (self m')).
Proof.
  intros (Hne & Hit & Hpx) Hj. unfold start_time.
  destruct m as [[url agents it px last interval] t w]. cbn in Hne, Hit, Hpx.
  destruct (next_at_cursor agents i it Hne Hit) as (x & it' & Hnext & Hx & Hit').
  assert (Hpause : Num.Qltb (jitter e) 0 = false) by (apply Qltb_ge, Hj).
  unfold acquire. run_M.
  destruct (Num.Qltb (t - last) interval) eqn:Hsince.
  - apply Qltb_lt in Hsince.
    assert (Hsleep : Num.Qltb (interval - (t - last)) 0 = false)
      by (apply Qltb_ge; lra).
    rewrite Hsleep. run_M. rewrite Hnext. run_M.
    destruct px as [pit|].
    + destruct Hpx as (pool & j & Hpne & Hpit).
      destruct (next_at_cursor pool j pit Hpne Hpit) as (p & pit' & Hp & _ & Hpit').
      rewrite Hp. run_M. rewrite Hpause. run_M.
      eexists _, _, _. split; [reflexivity|]. cbn. split; [reflexivity|]. eauto.
    + run_M. rewrite Hpause. run_M.
      eexists _, _, _. split; [reflexivity|]. cbn. auto.
  - run_M. rewrite Hnext. run_M.
    destruct px as [pit|].
    + destruct Hpx as (pool & j & Hpne & Hpit).
      destruct (next_at_cursor pool j pit Hpne Hpit) as (p & pit' & Hp & _ & Hpit').
      rewrite Hp. run_M. rewrite Hpause. run_M.
      eexists _, _, _. split; [reflexivity|]. cbn. split; [reflexivity|]. eauto.
    + run_M. rewrite Hpause. run_M.
      eexists _, _, _. split; [reflexivity|]. cbn. auto.
Qed.

(** All that one call of [_make_request] does. *)
Lemma make_request_exact (e : env) (url : string) (i : nat) (m : machine) :
  ready i m -> env_ok e ->
  exists user_agent proxy m1,
    _make_request e url m = (reply e, after_get e url user_agent proxy m1)
    /\ ready (S i) m1
    /\ user_agents (self m) !! (i mod length (user_agents (self m)))%nat
       = Some user_agent
    /\ proxy_step (proxies (self m)) proxy (proxies (self m1))
    /\ wire m1 = wire m
    /\ clock m1 = start_time m e
    /\ user_agents (self m1) = user_agents (self m)
    /\ base_url (self m1) = base_url (self m)
    /\ last_request_time (self m1) = last_request_time (self m)
    /\ min_request_interval (self m1) = min_request_interval (self m).
Proof.
  intros Hm (Hj & _). assert (0 <= jitter e) as Hj0 by lra.
  destruct (acquire_spec e i m Hm Hj0)
    as (ua & px & m1 & Hacq & Hready & Hua & Hwire & Hagents & Hbase & Hlast & Hmin & _).
  destruct (acquire_exact e i m Hm Hj0) as (ua' & px' & m1' & Hacq' & Hclock & Hstep).
  rewrite Hacq in Hacq'. injection Hacq' as <- <- <-.
  exists ua, px, m1. split; [apply make_request_after_acquire, Hacq|].
  repeat (split; [assumption|]). assumption.
Qed.

(** The request starts exactly when the rate limit and the pause are over,
    no later: [jitter] after the call if the last response is at least the
    minimum interval old, and otherwise the minimum interval plus [jitter]
    after the last response. *)
Theorem request_starts_on_time (e : env) (url : string) (i : nat) (m : machine) :
  ready i m -> env_ok e ->
  exists sent,
    wire (_make_request e url m).2 = wire m ++ [sent]
    /\ req_url sent = url
    /\ (last_request_time (self m) + min_request_interval (self m) <= clock m ->
        req_start sent == clock m + jitter e)
    /\ (clock m < last_request_time (self m) + min_request_interval (self m) ->
        req_start sent
        == last_request_time (self m) + min_request_interval (self m) + jitter e).
Proof.
  intros Hm He.
  destruct (make_request_exact e url i m Hm He)
    as (ua & px & m1 & -> & _ & _ & _ & Hwire & Hclock & _).
  eexists. cbn [snd after_get wire]. rewrite Hwire. split; [reflexivity|].
  cbn [req_url req_start]. split; [reflexivity|]. rewrite Hclock. unfold start_time.
  destruct (Num.Qltb (clock m - last_request_time (self m)) (min_request_interval (self m)))
    eqn:E; [apply Qltb_lt in E | apply Qltb_ge in E]; split; intros H; lra.
Qed.

Lemma request_starts_on_time_witness :
  exists sent,
    wire (_make_request (served other_page) "https://finviz.com/" (boot None 1000)).2
    = wire (boot None 1000) ++ [sent]
    /\ req_url sent = "https://finviz.com/"
    /\ req_start sent == 1000 + 1.
Proof.
  destruct (request_starts_on_time (served other_page) "https://finviz.com/" 0
              (boot None 1000)) as (sent & Hwire & Hurl & Hfree & _).
  { apply ready_boot. }
  { unfold env_ok. cbn. repeat split; discriminate. }
  exists sent. split; [exact Hwire|]. split; [exact Hurl|].
  apply Hfree. cbn. discriminate.
Defined.

End RequestFacts.

(** ** Proxies and URLs of a session *)

Section SessionFacts.
Local Open Scope Q_scope.

(** The proxy cycle of the instance is [cycle(pool)] after [j] draws, or
    there is none. *)
Definition proxies_at (pool : list string) (j : nat) (m : machine) : Prop :=
  match pool with
  | [] => proxies (self m) = None
  | _ => exists it, proxies (self m) = Some it /\ Itertools.at_cursor pool j it
  end.

(** The proxy that the request at cursor [j] gets. *)
Definition proxy_at (pool : list string) (j : nat) : option string :=
  match pool with
  | [] => None
  | _ => pool !! (j mod length pool)%nat
  end.

Lemma proxies_at_boot (proxy_list : option (list string)) (t : Q) :
  proxies_at (default [] proxy_list) 0 (boot proxy_list t).
Proof.
  destruct proxy_list as [[|p ps]|]; cbn; try reflexivity.
  eexists. split; [reflexivity | apply at_cursor_make].
Qed.

Lemma request_once_exact (c : call) (i j : nat) (pool : list string) (m : machine) :
  ready i m -> proxies_at pool j m -> env_ok (during c) ->
  exists sent,
    wire (request_once c m) = wire m ++ [sent]
    /\ ready (S i) (request_once c m)
    /\ proxies_at pool (S j) (request_once c m)
    /\ req_url sent = target c
    /\ req_proxy sent = proxy_at pool j.
Proof.
  intros Hm Hpx He. unfold request_once.
  destruct (make_request_exact (during c) (target c) i (advance (idle c) m))
    as (ua & px & m1 & -> & Hready & _ & Hstep & Hwire & _);
    [apply ready_advance, Hm | exact He |].
  eexists. cbn [snd after_get wire]. rewrite Hwire. split; [reflexivity|].
  split; [apply ready_after_get, Hready|].
  cbn [req_url req_proxy]. unfold proxies_at, proxy_at, proxy_step in *.
  cbn [advance self proxies] in Hstep.
  assert (Hafter : proxies (self (after_get (during c) (target c) ua px m1))
                   = proxies (self m1)).
  { unfold after_get. cbn. destruct (reply (during c)); reflexivity. }
  rewrite Hafter. destruct pool as [|p pool].
  - rewrite Hpx in Hstep. destruct Hstep as [-> ->]. auto.
  - destruct Hpx as (it & Hit & Hcur). rewrite Hit in Hstep.
    destruct Hstep as (q & it' & Hnext & -> & ->).
    destruct (next_at_cursor (p :: pool) j it) as (q' & it'' & Hnext' & Hq & Hcur');
      [discriminate | exact Hcur |].
    rewrite Hnext in Hnext'. injection Hnext' as <- <-.
    split; [eauto|]. split; [reflexivity|]. symmetry. exact Hq.
Qed.

Lemma session_requests (calls : list call) (i j : nat) (pool : list string)
  (m : machine) :
  ready i m -> proxies_at pool j m -> calls_ok calls ->
  exists sent,
    wire (session calls m) = wire m ++ sent
    /\ map req_url sent = map target calls
    /\ forall k, (k < length calls)%nat ->
         req_proxy <$> sent !! k = Some (proxy_at pool (j + k)).
Proof.
  revert i j m. induction calls as [|c calls IH]; intros i j m Hm Hpx Hok.
  - exists []. cbn. rewrite app_nil_r. repeat split. intros k Hk. lia.
  - apply Forall_cons in Hok as [Hc Hok].
    destruct (request_once_exact c i j pool m Hm Hpx Hc)
      as (first & Hwire & Hready & Hpx' & Hurl & Hproxy).
    destruct (IH (S i) (S j) (request_once c m) Hready Hpx' Hok)
      as (sent & Hsent & Hurls & Hnth).
    exists (first :: sent). cbn [session fold_left].
    split; [fold (session calls (request_once c m)); rewrite Hsent, Hwire, <- app_assoc;
            reflexivity|].
    split; [cbn [map]; rewrite Hurl, Hurls; reflexivity|].
    intros [|k] Hk.
    + rewrite Nat.add_0_r. cbn. rewrite Hproxy. reflexivity.
    + cbn [length] in Hk. change ((first :: sent) !! S k) with (sent !! k).
      rewrite Hnth by lia. do 2 f_equal. lia.
Qed.

(** Every call puts exactly one request on the wire, to the URL it was
    given, whether the fetch succeeds or not: nothing is retried and nothing
    is skipped. *)
Theorem one_request_per_call (proxy_list : option (list string)) (t : Q)
  (calls : list call) :
  calls_ok calls ->
  map req_url (wire (session calls (boot proxy_list t))) = map target calls.
Proof.
  intros Hok.
  destruct (session_requests calls 0 0 (default [] proxy_list) (boot proxy_list t)
              (ready_boot _ _) (proxies_at_boot _ _) Hok) as (sent & -> & Hurls & _).
  exact Hurls.
Qed.

Lemma one_request_per_call_witness :
  map req_url (wire (session [refused; retry] (boot None 1000)))
  = map target [refused; retry].
Proof.
  apply (one_request_per_call None 1000 [refused; retry]).
  repeat constructor; discriminate.
Defined.

(** With a list of proxies the request of call [i] goes through
    [proxies[i mod P]], for both schemes; without a list, or with an empty
    one, no request names a proxy. *)
Theorem proxy_of_request (proxy_list : option (list string)) (t : Q)
  (calls : list call) (i : nat) :
  calls_ok calls -> (i < length calls)%nat ->
  req_proxy <$> wire (session calls (boot proxy_list t)) !! i
  = Some (match default [] proxy_list with
          | [] => None
          | pool => pool !! (i mod length pool)%nat
          end).
Proof.
  intros Hok Hi.
  destruct (session_requests calls 0 0 (default [] proxy_list) (boot proxy_list t)
              (ready_boot _ _) (proxies_at_boot _ _) Hok) as (sent & -> & _ & Hnth).
  cbn [boot wire app]. rewrite (Hnth i Hi). unfold proxy_at. cbn [Nat.add].
  destruct (default [] proxy_list); reflexivity.
Qed.

Lemma proxy_of_request_witness :
  req_proxy <$> wire (session seven_calls
                        (boot (Some ["10.0.0.1:8080"; "10.0.0.2:8080"; "10.0.0.3:8080"]) 1000))
                  !! 4%nat
  = Some (Some "10.0.0.2:8080").
Proof.
  apply (proxy_of_request (Some ["10.0.0.1:8080"; "10.0.0.2:8080"; "10.0.0.3:8080"])
           1000 seven_calls 4).
  - repeat constructor; discriminate.
  - cbn. lia.
Defined.

End SessionFacts.

(** ** How the two fetching methods end *)

Section Outcomes.
Local Open Scope Q_scope.

Definition error_status (r : response) : Prop :=
  (400 <= status_code r < 600)%Z.

Lemma raise_for_status_error (r : response) :
  error_status r -> raise_for_status r = Raise (HTTPError (status_code r)).
Proof.
  unfold error_status, raise_for_status. intros [H1 H2].
  apply Z.leb_le in H1. apply Z.ltb_lt in H2. rewrite H1, H2. reflexivity.
Qed.

Lemma raise_for_status_fine (r : response) :
  ~ error_status r -> raise_for_status r = Ok tt.
Proof.
  unfold error_status, raise_for_status. intros H.
  destruct (400 <=? status_code r)%Z eqn:H1, (status_code r <? 600)%Z eqn:H2;
    try reflexivity.
  exfalso. apply H. split; [apply Z.leb_le, H1 | apply Z.ltb_lt, H2].
Qed.

(** Neither method touches the instance or the clock beyond what
    [_make_request] does. *)
Lemma company_data_machine (e : env) (url : string) (m : machine) :
  (get_company_data e url m).2 = (_make_request e url m).2.
Proof.
  unfold get_company_data. unfold mbind at 1, M_bind at 1.
  destruct (_make_request e url m) as [[r|x] m']; [|reflexivity].
  run_M. destruct (raise_for_status r); reflexivity.
Qed.

Lemma sector_data_machine (DataFrame : Type)
  (pd_DataFrame : list (list string) -> list string -> result DataFrame)
  (percent_columns : DataFrame -> result DataFrame) (e : env) (m : machine) :
  (get_sector_data DataFrame pd_DataFrame percent_columns e m).2
  = (_make_request e (sector_url (self m)) m).2.
Proof.
  unfold get_sector_data. unfold mbind at 1, M_bind at 1. unfold gets at 1.
  unfold mbind at 1, M_bind at 1.
  destruct (_make_request e (sector_url (self m)) m) as [[r|x] m']; [|reflexivity].
  run_M. destruct (raise_for_status r); [|reflexivity].
  destruct (find_sector_table (text r)); [|reflexivity].
  run_M. destruct (pd_DataFrame _ _); [|reflexivity].
  destruct (percent_columns _); reflexivity.
Qed.

Lemma company_data_ends (e : env) (url : string) (i : nat) (m : machine) :
  ready i m -> env_ok e ->
  (get_company_data e url m).1
  = match reply e with
    | Raise x => Raise x
    | Ok r =>
        if decide (error_status r) then Raise (HTTPError (status_code r))
        else Ok (store_all (snapshot_entries (text r)) ∅)
    end.
Proof.
  intros Hm He. destruct (reply e) as [r|x] eqn:Hr.
  - destruct (decide (error_status r)) as [Herr|Hfine].
    + destruct He as (Hj & _).
      destruct (make_request_outcome e url i m Hm) as (m' & Hreq & _); [lra|].
      unfold get_company_data. unfold mbind at 1, M_bind at 1.
      rewrite Hreq, Hr. run_M. rewrite (raise_for_status_error r Herr). reflexivity.
    + apply (company_data_store e url i m r Hm He Hr), raise_for_status_fine, Hfine.
  - destruct He as (Hj & _).
    destruct (make_request_outcome e url i m Hm) as (m' & Hreq & _); [lra|].
    unfold get_company_data. unfold mbind at 1, M_bind at 1.
    rewrite Hreq, Hr. reflexivity.
Qed.

(** [get_company_data] ends in one of three ways: with the exception of
    [requests.get], unchanged; with [HTTPError] for a status from 400 to 599,
    whatever the page holds; or with the snapshot of the page.  Reading the
    page never raises. *)
Theorem company_data_outcome (e : env) (url : string) (i : nat) (m : machine) :
  ready i m -> env_ok e ->
  (get_company_data e url m).1
  = match reply e with
    | Raise x => Raise x
    | Ok r =>
        if decide (error_status r) then Raise (HTTPError (status_code r))
        else Ok (store_all (snapshot_entries (text r)) ∅)
    end.
Proof. exact (company_data_ends e url i m). Qed.

(** A page that is served with status 503. *)
Definition unavailable (page : Html.soup) : env :=
  {| jitter := 1; latency := 0.25;
     reply := Ok {| status_code := 503; text := page |} |}.

Lemma company_data_outcome_witness :
  (get_company_data (unavailable twice_page) company_url (boot None 1000)).1
  = Raise (HTTPError 503).
Proof.
  rewrite (company_data_outcome (unavailable twice_page) company_url 0 (boot None 1000)).
  - reflexivity.
  - apply ready_boot.
  - unfold env_ok. cbn. repeat split; discriminate.
Defined.

(** The rows and the header that [get_sector_data] hands to pandas. *)
Definition sector_headers (t : Html.table) : list string :=
  match Html.find_tr_class "table-header" t with
  | Some header_row => map Py.strip (Html.td header_row)
  | None => []
  end.

Definition sector_rows (t : Html.table) : list (list string) :=
  map (fun row => map Py.strip (Html.td row)) (drop 1 (Html.trs t)).

Lemma sector_data_ends (DataFrame : Type)
  (pd_DataFrame : list (list string) -> list string -> result DataFrame)
  (percent_columns : DataFrame -> result DataFrame)
  (e : env) (i : nat) (m : machine) :
  ready i m -> env_ok e ->
  (get_sector_data DataFrame pd_DataFrame percent_columns e m).1
  = match reply e with
    | Raise x => Raise x
    | Ok r =>
        if decide (error_status r) then Raise (HTTPError (status_code r))
        else
          match find_sector_table (text r) with
          | None => Raise (ValueError "Sector table not found")
          | Some t =>
              df ← pd_DataFrame (sector_rows t) (sector_headers t);
              percent_columns df
          end
    end.
Proof.
  intros Hm (Hj & _).
  destruct (make_request_outcome e (sector_url (self m)) i m Hm) as (m' & Hreq & _); [lra|].
  unfold get_sector_data. unfold mbind at 1, M_bind at 1. unfold gets at 1.
  unfold mbind at 1, M_bind at 1. rewrite Hreq.
  destruct (reply e) as [r|x]; [|reflexivity]. run_M.
  destruct (decide (error_status r)) as [Herr|Hfine].
  - rewrite (raise_for_status_error r Herr). reflexivity.
  - rewrite (raise_for_status_fine r Hfine).
    destruct (find_sector_table (text r)) as [t|]; [|reflexivity].
    fold (sector_headers t). fold (sector_rows t).
    unfold mbind, result_bind. destruct (pd_DataFrame (sector_rows t) (sector_headers t));
      cbn [Py.bind]; [|reflexivity].
    destruct (percent_columns a); reflexivity.
Qed.

(** [get_sector_data] ends with the exception of [requests.get], unchanged;
    with [HTTPError] for a status from 400 to 599; with [ValueError] when no
    selector matches; and otherwise as pandas ends on the rows and the header
    of the selected table. *)
Theorem sector_data_outcome (DataFrame : Type)
  (pd_DataFrame : list (list string) -> list string -> result DataFrame)
  (percent_columns : DataFrame -> result DataFrame)
  (e : env) (i : nat) (m : machine) :
  ready i m -> env_ok e ->
  (get_sector_data DataFrame pd_DataFrame percent_columns e m).1
  = match reply e with
    | Raise x => Raise x
    | Ok r =>
        if decide (error_status r) then Raise (HTTPError (status_code r))
        else
          match find_sector_table (text r) with
          | None => Raise (ValueError "Sector table not found")
          | Some t =>
              df ← pd_DataFrame (sector_rows t) (sector_headers t);
              percent_columns df
          end
    end.
Proof. exact (sector_data_ends DataFrame pd_DataFrame percent_columns e i m). Qed.

Lemma sector_data_outcome_witness :
  (get_sector_data (list (list string)) (fun data _ => Ok data) Ok
     (unavailable other_page) (boot None 1000)).1
  = Raise (HTTPError 503).
Proof.
  rewrite (sector_data_outcome _ _ _ (unavailable other_page) 0 (boot None 1000)).
  - reflexivity.
  - apply ready_boot.
  - unfold env_ok. cbn. repeat split; discriminate.
Defined.

End Outcomes.

(** ** Which table [get_sector_data] reads *)

Section SectorChoice.

(** The first selector of lines 138-140 that matches the table: 0, 1 or 2,
    and 3 when none does. *)
Definition selector_rank (t : Html.table) : nat :=
  if Html.has_class "table-light" (Html.table_class t) then 0
  else if Html.has_class "groups-table-overview" (Html.table_class t) then 1
  else if Html.has_id "groups-table-overview" (Html.table_id t) then 2
  else 3.

Lemma head_filter_split {A} (P : A -> Prop) `{forall x, Decision (P x)} (l : list A) :
  match head (filter P l) with
  | Some x => exists before after,
                l = before ++ x :: after /\ P x /\ Forall (fun y => ~ P y) before
  | None => Forall (fun y => ~ P y) l
  end.
Proof.
  induction l as [|y l IH]; [constructor|].
  destruct (decide (P y)) as [Hy|Hy].
  - rewrite filter_cons_True by exact Hy. cbn [head].
    exists [], l. split; [reflexivity|]. split; [exact Hy | constructor].
  - rewrite filter_cons_False by exact Hy.
    destruct (head (filter P l)) as [x|].
    + destruct IH as (before & after & -> & Hx & Hb).
      exists (y :: before), after. split; [reflexivity|]. split; [exact Hx|].
      constructor; assumption.
    + constructor; assumption.
Qed.

(** The table that is read is the first table of the page, in document
    order, among those matched by the earliest selector that matches any
    table at all; no table is read only when no selector matches any. *)
Theorem sector_table_choice (page : Html.soup) :
  match find_sector_table page with
  | Some t =>
      exists before after,
        page = before ++ t :: after
        /\ selector_rank t < 3
        /\ Forall (fun t' => selector_rank t < selector_rank t') before
        /\ Forall (fun t' => selector_rank t <= selector_rank t') after
  | None => Forall (fun t => selector_rank t = 3) page
  end.
Proof.
  unfold find_sector_table, Html.find_class, Html.find_all_class, Html.find_id.
  pose proof (head_filter_split
    (fun t => Html.has_class "table-light" (Html.table_class t) = true) page) as H0.
  destruct (head (filter _ page)) as [t|]; cbn [Html.or_else].
  { destruct H0 as (before & after & Hpage & Ht & Hb).
    exists before, after. split; [exact Hpage|]. unfold selector_rank. rewrite Ht.
    split; [lia|]. split.
    - eapply Forall_impl; [exact Hb|]. cbn. intros t' Ht'.
      apply not_true_is_false in Ht'. rewrite Ht'.
      repeat match goal with |- context [if ?b then _ else _] => destruct b end; lia.
    - apply Forall_forall. intros; lia. }
  pose proof (head_filter_split
    (fun t => Html.has_class "groups-table-overview" (Html.table_class t) = true) page)
    as H1.
  destruct (head (filter _ page)) as [t|]; cbn [Html.or_else].
  { destruct H1 as (before & after & Hpage & Ht & Hb).
    exists before, after. split; [exact Hpage|]. subst page.
    apply Forall_app in H0 as [H0b H0a]. apply Forall_cons in H0a as [H0t H0a].
    unfold selector_rank. apply not_true_is_false in H0t. rewrite H0t, Ht.
    split; [lia|]. split.
    - apply Forall_forall. intros t' Hin.
      rewrite Forall_forall in Hb, H0b.
      pose proof (Hb t' Hin) as E1. pose proof (H0b t' Hin) as E0.
      apply not_true_is_false in E1, E0. rewrite E0, E1.
      destruct (Html.has_id "groups-table-overview" (Html.table_id t')); lia.
    - eapply Forall_impl; [exact H0a|]. cbn. intros t' E0.
      apply not_true_is_false in E0. rewrite E0.
      repeat match goal with |- context [if ?b then _ else _] => destruct b end; lia. }
  pose proof (head_filter_split
    (fun t => Html.has_id "groups-table-overview" (Html.table_id t) = true) page) as H2.
  destruct (head (filter _ page)) as [t|].
  { destruct H2 as (before & after & Hpage & Ht & Hb).
    exists before, after. split; [exact Hpage|]. subst page.
    apply Forall_app in H0 as [H0b H0a]. apply Forall_cons in H0a as [H0t H0a].
    apply Forall_app in H1 as [H1b H1a]. apply Forall_cons in H1a as [H1t H1a].
    unfold selector_rank. apply not_true_is_false in H0t, H1t. rewrite H0t, H1t, Ht.
    split; [lia|]. split.
    - apply Forall_forall. intros t' Hin.
      rewrite Forall_forall in Hb, H0b, H1b.
      pose proof (Hb t' Hin) as E2. pose proof (H0b t' Hin) as E0.
      pose proof (H1b t' Hin) as E1.
      apply not_true_is_false in E0, E1, E2. rewrite E0, E1, E2. lia.
    - apply Forall_forall. intros t' Hin.
      rewrite Forall_forall in H0a, H1a.
      pose proof (H0a t' Hin) as E0. pose proof (H1a t' Hin) as E1.
      apply not_true_is_false in E0, E1. rewrite E0, E1.
      destruct (Html.has_id "groups-table-overview" (Html.table_id t')); lia. }
  apply Forall_forall. intros t Hin. rewrite Forall_forall in H0, H1, H2.
  pose proof (H0 t Hin) as E0. pose proof (H1 t Hin) as E1. pose proof (H2 t Hin) as E2.
  apply not_true_is_false in E0, E1, E2. unfold selector_rank. rewrite E0, E1, E2.
  reflexivity.
Qed.

End SectorChoice.

(** ** The script *)

Section Script.
Local Open Scope Q_scope.

Context (DataFrame : Type)
  (pd_DataFrame : list (list string) -> list string -> result DataFrame)
  (percent_columns : DataFrame -> result DataFrame).

(** The first fetch does not deliver a page: [requests.get] raises, or the
    status is an error. *)
Definition company_fetch_fails (e1 : env) : Prop :=
  match reply e1 with
  | Raise _ => True
  | Ok r => error_status r
  end.

(** How [get_company_data] ends, by [company_data_ends]. *)
Definition company_outcome (e1 : env) : result (gmap string value) :=
  match reply e1 with
  | Raise x => Raise x
  | Ok r =>
      if decide (error_status r) then Raise (HTTPError (status_code r))
      else Ok (store_all (snapshot_entries (text r)) ∅)
  end.

(** How [get_sector_data] ends, by [sector_data_ends]. *)
Definition sector_outcome (e2 : env) : result DataFrame :=
  match reply e2 with
  | Raise x => Raise x
  | Ok r =>
      if decide (error_status r) then Raise (HTTPError (status_code r))
      else
        match find_sector_table (text r) with
        | None => Raise (ValueError "Sector table not found")
        | Some t =>
            df ← pd_DataFrame (sector_rows t) (sector_headers t);
            percent_columns df
        end
  end.

Lemma company_outcome_fails (e1 : env) :
  company_fetch_fails e1 <-> exists x, company_outcome e1 = Raise x.
Proof.
  unfold company_fetch_fails, company_outcome. destruct (reply e1) as [r|x].
  - destruct (decide (error_status r)) as [H|H].
    + split; [eauto | auto].
    + split; [contradiction | intros [x Hx]; discriminate Hx].
  - split; [eauto | auto].
Qed.

(** The two steps of the script that fetch, with the machine between
    them. *)
Lemma script_steps (e1 e2 : env) (t : Q) :
  env_ok e1 -> env_ok e2 ->
  exists ua1 px1 m01 ua2 px2 m12,
    let m1 := after_get e1 company_url ua1 px1 m01 in
    let m2 := after_get e2 (sector_url (self m1)) ua2 px2 m12 in
    get_company_data e1 company_url (boot None t) = (company_outcome e1, m1)
    /\ get_sector_data DataFrame pd_DataFrame percent_columns e2 m1
       = (sector_outcome e2, m2)
    /\ wire m01 = [] /\ wire m12 = wire m1
    /\ user_agents (__init__ None) !! 0%nat = Some ua1
    /\ user_agents (__init__ None) !! 1%nat = Some ua2
    /\ px1 = None /\ px2 = None
    /\ clock m12 = start_time m1 e2
    /\ sector_url (self m1) = "https://finviz.com/quote.ashx?t=&ty=c&p=d&b=1"
    /\ min_request_interval (self m01) = 2.
Proof.
  intros He1 He2.
  destruct (make_request_exact e1 company_url 0 (boot None t) (ready_boot _ _) He1)
    as (ua1 & px1 & m01 & Hreq1 & Hready1 & Hua1 & Hstep1 & Hwire1 & _ & Hagents1
        & Hbase1 & _ & Hmin1).
  set (m1 := after_get e1 company_url ua1 px1 m01).
  assert (Hm1 : ready 1 m1) by (apply ready_after_get, Hready1).
  destruct (make_request_exact e2 (sector_url (self m1)) 1 m1 Hm1 He2)
    as (ua2 & px2 & m12 & Hreq2 & _ & Hua2 & Hstep2 & Hwire2 & Hclock2 & _).
  assert (Hself : user_agents (self m1) = user_agents (__init__ None)
                  /\ base_url (self m1) = "https://finviz.com"
                  /\ proxies (self m1) = proxies (self m01)).
  { unfold m1, after_get. cbn. destruct (reply e1); cbn; auto. }
  destruct Hself as (Hagents & Hbase & Hpx).
  cbn [boot self proxies __init__] in Hstep1. destruct Hstep1 as [-> Hnone].
  rewrite Hpx, Hnone in Hstep2. destruct Hstep2 as [-> _].
  exists ua1, None, m01, ua2, None, m12. cbn zeta. fold m1.
  split.
  { rewrite (surjective_pairing (get_company_data e1 company_url (boot None t))).
    rewrite (company_data_ends e1 company_url 0 _ (ready_boot _ _) He1).
    rewrite company_data_machine, Hreq1. reflexivity. }
  split.
  { rewrite (surjective_pairing (get_sector_data _ _ _ e2 m1)).
    rewrite (sector_data_ends _ _ _ e2 1 m1 Hm1 He2).
    rewrite sector_data_machine, Hreq2. reflexivity. }
  split; [exact Hwire1|]. split; [exact Hwire2|].
  split; [exact Hua1|]. split; [rewrite Hagents in Hua2; exact Hua2|].
  split; [reflexivity|]. split; [reflexivity|]. split; [exact Hclock2|].
  split; [unfold sector_url; rewrite Hbase; reflexivity | exact Hmin1].
Qed.

(** What the script prints, from the outcomes of its three steps. *)
Definition script_output (e1 e2 : env) : printed DataFrame :=
  match company_outcome e1 with
  | Raise x => ErrorLine DataFrame x
  | Ok company_data =>
      match sector_outcome e2 with
      | Raise x => ErrorLine DataFrame x
      | Ok sector_data =>
          match get_stock_rating_data company_data with
          | Raise x => ErrorLine DataFrame x
          | Ok ratings => Report DataFrame company_data sector_data ratings
          end
      end
  end.

Lemma main_steps (e1 e2 : env) (t : Q) (m1 m2 : machine) :
  get_company_data e1 company_url (boot None t) = (company_outcome e1, m1) ->
  get_sector_data DataFrame pd_DataFrame percent_columns e2 m1 = (sector_outcome e2, m2) ->
  main DataFrame pd_DataFrame percent_columns e1 e2 t
  = (script_output e1 e2,
     match company_outcome e1 with Raise _ => m1 | Ok _ => m2 end).
Proof.
  intros H1 H2. unfold main, main_body, script_output.
  change {| self := __init__ None; clock := t; wire := [] |} with (boot None t).
  unfold mbind at 1, M_bind at 1. rewrite H1.
  destruct (company_outcome e1) as [company_data|x]; [|reflexivity].
  unfold mbind at 1, M_bind at 1. rewrite H2.
  destruct (sector_outcome e2) as [sector_data|x]; [|reflexivity].
  run_M. destruct (get_stock_rating_data company_data); reflexivity.
Qed.

(** The script makes one request when the first fetch fails and two
    otherwise, never more: the first to the company page with the first user
    agent, the second to the sector page with the second user agent, both
    without proxy; and the second starts no sooner than the minimum interval
    plus its pause after the first response. *)
Theorem script_requests (e1 e2 : env) (t : Q) :
  env_ok e1 -> env_ok e2 ->
  exists first,
    req_url first = company_url
    /\ user_agents (__init__ None) !! 0%nat = Some (req_user_agent first)
    /\ req_proxy first = None
    /\ ((company_fetch_fails e1
         /\ wire (main DataFrame pd_DataFrame percent_columns e1 e2 t).2 = [first]
         /\ exists x, (main DataFrame pd_DataFrame percent_columns e1 e2 t).1
                      = ErrorLine DataFrame x)
        \/ (~ company_fetch_fails e1
            /\ exists second,
                 wire (main DataFrame pd_DataFrame percent_columns e1 e2 t).2
                 = [first; second]
                 /\ req_url second = "https://finviz.com/quote.ashx?t=&ty=c&p=d&b=1"
                 /\ user_agents (__init__ None) !! 1%nat = Some (req_user_agent second)
                 /\ req_proxy second = None
                 /\ req_start first + latency e1 + 2 + jitter e2
                    <= req_start second)).
Proof.
  intros He1 He2.
  destruct (script_steps e1 e2 t He1 He2)
    as (ua1 & px1 & m01 & ua2 & px2 & m12 & H1 & H2 & Hw1 & Hw2 & Hua1 & Hua2
        & -> & -> & Hclock & Hurl & Hmin).
  cbn zeta in *. rewrite (main_steps e1 e2 t _ _ H1 H2). cbn [fst snd].
  set (first := {| req_url := company_url; req_user_agent := ua1;
                   req_proxy := None; req_start := clock m01 |}).
  exists first. split; [reflexivity|]. split; [exact Hua1|]. split; [reflexivity|].
  unfold script_output.
  destruct (company_outcome e1) as [company_data|x] eqn:Hout.
  - right. split.
    { intros Hf. apply company_outcome_fails in Hf as [x Hx]. congruence. }
    set (second := {| req_url := sector_url (self (after_get e1 company_url ua1 None m01));
                      req_user_agent := ua2; req_proxy := None; req_start := clock m12 |}).
    exists second.
    split. { cbn [after_get wire]. rewrite Hw2. cbn [after_get wire]. rewrite Hw1. reflexivity. }
    split; [exact Hurl|]. split; [exact Hua2|]. split; [reflexivity|].
    cbn [second req_start first]. rewrite Hclock. unfold start_time.
    assert (Hreply : exists r, reply e1 = Ok r).
    { unfold company_outcome in Hout. destruct (reply e1) as [r|]; [eauto | discriminate]. }
    destruct Hreply as [r Hr].
    unfold after_get. rewrite Hr. cbn [self clock last_request_time min_request_interval].
    rewrite Hmin.
    replace (Num.Qltb (clock m01 + latency e1 - (clock m01 + latency e1)) 2) with true
      by (symmetry; apply Qltb_lt; lra).
    lra.
  - left. split; [apply company_outcome_fails; eauto|].
    split; [cbn [after_get wire]; rewrite Hw1; reflexivity | eauto].
Qed.

(** The script prints the report only when all three steps succeed, and
    otherwise the exception of the first step that fails, in the order
    company page, sector page, ratings: the ratings are computed last, so a
    text in a scored field is reported only after both pages were fetched
    and the sector table was built. *)
Theorem script_prints (e1 e2 : env) (t : Q) :
  env_ok e1 -> env_ok e2 ->
  (main DataFrame pd_DataFrame percent_columns e1 e2 t).1 = script_output e1 e2.
Proof.
  intros He1 He2.
  destruct (script_steps e1 e2 t He1 He2)
    as (ua1 & px1 & m01 & ua2 & px2 & m12 & H1 & H2 & _).
  cbn zeta in *. rewrite (main_steps e1 e2 t _ _ H1 H2). reflexivity.
Qed.

End Script.

(** A sector page with a header row and one sector, and pandas left as the
    rows it is given. *)
Definition sector_page : Html.soup :=
  [ {| Html.table_class := ["groups-table-overview"]; Html.table_id := None;
       Html.trs := [ {| Html.tr_class := ["table-header"]; Html.td := ["Name"; "Change"] |};
                     {| Html.tr_class := []; Html.td := ["Energy"; "1.2%"] |} ] |} ].

Lemma script_requests_witness :
  exists first,
    req_url first = company_url
    /\ user_agents (__init__ None) !! 0%nat = Some (req_user_agent first)
    /\ req_proxy first = None.
Proof.
  destruct (script_requests (list (list string)) (fun data _ => Ok data) Ok
              (served na_page) (served sector_page) 1000)
    as (first & Hurl & Hua & Hpx & _).
  - unfold env_ok. cbn. repeat split; discriminate.
  - unfold env_ok. cbn. repeat split; discriminate.
  - exists first. auto.
Defined.

Lemma script_prints_witness :
  (main (list (list string)) (fun data _ => Ok data) Ok
     (served na_page) (served sector_page) 1000).1
  = ErrorLine (list (list string)) TypeError.
Proof.
  rewrite (script_prints (list (list string)) (fun data _ => Ok data) Ok
             (served na_page) (served sector_page) 1000).
  - vm_compute. reflexivity.
  - unfold env_ok. cbn. repeat split; discriminate.
  - unfold env_ok. cbn. repeat split; discriminate.
Defined.

(** ** The rate limit after a response *)

Section RateLimitAfterResponse.
Local Open Scope Q_scope.

(** After a call in which [requests.get] returned a response, whatever its
    status, the next request starts no sooner than the minimum interval plus
    its own pause after that response. *)
Theorem rate_limit_after_response (c1 c2 : call) (i : nat) (m : machine)
  (r : response) :
  ready i m -> env_ok (during c1) -> env_ok (during c2) ->
  reply (during c1) = Ok r ->
  exists sent,
    wire (request_once c2 (request_once c1 m)) = wire (request_once c1 m) ++ [sent]
    /\ clock (request_once c1 m) + min_request_interval (self m) + jitter (during c2)
       <= req_start sent.
Proof. exact (gap_after_response c1 c2 i m r). Qed.

Definition first_call : call :=
  {| idle := 0; during := unavailable other_page; target := "https://finviz.com/" |}.

Lemma rate_limit_after_response_witness :
  exists sent,
    wire (request_once first_call (request_once first_call (boot None 1000)))
    = wire (request_once first_call (boot None 1000)) ++ [sent]
    /\ clock (request_once first_call (boot None 1000))
       + min_request_interval (self (boot None 1000)) + jitter (during first_call)
       <= req_start sent.
Proof.
  apply (rate_limit_after_response first_call first_call 0 (boot None 1000)
           {| status_code := 503; text := other_page |}).
  - apply ready_boot.
  - unfold env_ok. cbn. repeat split; discriminate.
  - unfold env_ok. cbn. repeat split; discriminate.
  - reflexivity.
Defined.

(** The steps before [requests.get] never raise: [time.sleep] is never
    called with a negative length, and neither cycle is ever exhausted. *)
Theorem pause_never_fails (e : env) (i : nat) (m : machine) :
  ready i m -> env_ok e ->
  exists user_agent proxy m', acquire e m = (Ok (user_agent, proxy), m').
Proof. exact (acquire_never_fails e i m). Qed.

Lemma pause_never_fails_witness :
  exists user_agent proxy m',
    acquire (served other_page) (boot (Some ["10.0.0.1:8080"]) 1000)
    = (Ok (user_agent, proxy), m').
Proof.
  apply (pause_never_fails (served other_page) 0 (boot (Some ["10.0.0.1:8080"]) 1000)).
  - apply ready_boot.
  - unfold env_ok. cbn. repeat split; discriminate.
Defined.

End RateLimitAfterResponse.

(** ** Which way the scores move *)

Section Directions.
Local Open Scope Q_scope.

(** The clamp on a rational. *)
Definition qclamp (x : Q) : Q :=
  if Qle_bool x 0 then 0 else if Qle_bool 100 x then 100 else x.

Lemma clamp_num_qclamp (x : Q) :
  exists c, clamp_num (Fin x) = Fin c /\ c == qclamp x.
Proof.
  unfold clamp_num, qclamp. cbn [Num.lt].
  destruct (Num.Qltb x 100) eqn:Hhi; cbn [Num.lt].
  - apply Qltb_lt in Hhi. destruct (Num.Qltb 0 x) eqn:Hlo.
    + apply Qltb_lt in Hlo. exists x. split; [reflexivity|].
      destruct (Qle_bool x 0) eqn:E0; [apply Qle_bool_iff in E0; lra|].
      destruct (Qle_bool 100 x) eqn:E1; [apply Qle_bool_iff in E1; lra|]. reflexivity.
    + apply Qltb_ge in Hlo. exists 0. split; [reflexivity|].
      apply Qle_bool_iff in Hlo. rewrite Hlo. reflexivity.
  - apply Qltb_ge in Hhi. exists 100. change (Num.Qltb 0 100) with true.
    split; [reflexivity|].
    destruct (Qle_bool x 0) eqn:E0; [apply Qle_bool_iff in E0; lra|].
    apply Qle_bool_iff in Hhi. rewrite Hhi. reflexivity.
Qed.

Lemma qclamp_monotone (x y : Q) : x <= y -> qclamp x <= qclamp y.
Proof.
  intros Hxy. unfold qclamp.
  destruct (Qle_bool x 0) eqn:X0, (Qle_bool 100 x) eqn:X1,
    (Qle_bool y 0) eqn:Y0, (Qle_bool 100 y) eqn:Y1;
    rewrite ?Qle_bool_iff in *;
    try apply not_true_iff_false in X0; try apply not_true_iff_false in X1;
    try apply not_true_iff_false in Y0; try apply not_true_iff_false in Y1;
    rewrite ?Qle_bool_iff in *; lra.
Qed.

Lemma positive_fin (x : Q) : 0 < x -> Num.lt (Fin 0) (Fin x) = true.
Proof. intros H. apply Qltb_lt, H. Qed.

(** Among snapshots that report all three ratios, the P/E within the float
    range, a lower P/E, a lower P/B and a PEG closer to 1 never give a lower
    valuation score. *)
Theorem valuation_prefers_low_ratios (pe pe' peg peg' pb pb' : Q) :
  0 < pe -> pe <= pe' -> pe' < Py.float_limit -> 0 < pb -> pb <= pb' ->
  0 < peg -> 0 < peg' -> Qabs (1 - peg) <= Qabs (1 - peg') ->
  exists y y',
    _calculate_valuation_score (VNum (Fin pe)) (VNum (Fin peg)) (VNum (Fin pb))
    = Ok (VNum (Fin y))
    /\ _calculate_valuation_score (VNum (Fin pe')) (VNum (Fin peg')) (VNum (Fin pb'))
       = Ok (VNum (Fin y'))
    /\ y' <= y.
Proof.
  intros Hpe Hpe' Hlimit Hpb Hpb' Hpeg Hpeg' Habs.
  unfold _calculate_valuation_score.
  rewrite !valuation_components_VNum
    by (apply in_float_range_fin, Qabs_Qlt_condition; split; lra).
  unfold mbind, result_bind; cbn [Py.bind]. unfold part.
  rewrite !positive_fin by lra.
  unfold pe_component, peg_component, pb_component.
  cbn [Num.sub Num.neg Num.add Num.mul Num.abs].
  destruct (clamp_num_qclamp ((30 + - pe) * 3.33)) as (a & -> & Ha).
  destruct (clamp_num_qclamp ((30 + - pe') * 3.33)) as (a' & -> & Ha').
  destruct (clamp_num_qclamp ((2 + - Qabs (1 + - peg)) * 50)) as (b & -> & Hb).
  destruct (clamp_num_qclamp ((2 + - Qabs (1 + - peg')) * 50)) as (b' & -> & Hb').
  destruct (clamp_num_qclamp ((5 + - pb) * 20)) as (c & -> & Hc).
  destruct (clamp_num_qclamp ((5 + - pb') * 20)) as (c' & -> & Hc').
  cbn [app map mean_or_zero Py.np_mean Py.numbers Py.bind Py.total fold_left
         Num.add Num.zero Num.div_count length].
  unfold mret, result_ret. eexists _, _. split; [reflexivity|]. split; [reflexivity|].
  change (inject_Z (Z.of_nat 3)) with 3.
  assert (a' <= a) by (rewrite Ha, Ha'; apply qclamp_monotone; lra).
  assert (b' <= b).
  { rewrite Hb, Hb'. apply qclamp_monotone.
    change (1 + - peg) with (1 - peg). change (1 + - peg') with (1 - peg'). lra. }
  assert (c' <= c) by (rewrite Hc, Hc'; apply qclamp_monotone; lra).
  apply Qle_shift_div_l; [reflexivity|]. field_simplify. lra.
Qed.

Lemma valuation_prefers_low_ratios_witness :
  exists y y',
    _calculate_valuation_score (VNum (Fin 12)) (VNum (Fin 1.1)) (VNum (Fin 2))
    = Ok (VNum (Fin y))
    /\ _calculate_valuation_score (VNum (Fin 25)) (VNum (Fin 1.8)) (VNum (Fin 4))
       = Ok (VNum (Fin y'))
    /\ y' <= y.
Proof.
  apply (valuation_prefers_low_ratios 12 25 1.1 1.8 2 4);
    vm_compute; first [reflexivity | discriminate].
Defined.

(** Among snapshots that report a positive current ratio and a debt/equity
    that is not negative, a higher current ratio and a lower debt/equity
    never give a lower financial health score. *)
Theorem health_prefers_liquidity (ratio ratio' debt debt' : Q) :
  0 < ratio -> ratio <= ratio' -> 0 <= debt' -> debt' <= debt ->
  exists y y',
    _calculate_financial_health_score (VNum (Fin ratio)) (VNum (Fin debt))
    = Ok (VNum (Fin y))
    /\ _calculate_financial_health_score (VNum (Fin ratio')) (VNum (Fin debt'))
       = Ok (VNum (Fin y'))
    /\ y <= y'.
Proof.
  intros Hr Hr' Hd Hd'.
  unfold _calculate_financial_health_score. rewrite !health_components_VNum.
  unfold mbind, result_bind; cbn [Py.bind].
  rewrite !positive_fin by lra.
  assert (Hle : forall x, 0 <= x -> Num.le (Fin 0) (Fin x) = true)
    by (intros x Hx; apply Qle_bool_iff, Hx).
  rewrite !Hle by lra.
  cbn [Num.sub Num.neg Num.add Num.mul].
  destruct (clamp_num_qclamp (ratio * 50)) as (a & -> & Ha).
  destruct (clamp_num_qclamp (ratio' * 50)) as (a' & -> & Ha').
  destruct (clamp_num_qclamp ((2 + - debt) * 50)) as (b & -> & Hb).
  destruct (clamp_num_qclamp ((2 + - debt') * 50)) as (b' & -> & Hb').
  cbn [app map mean_or_zero Py.np_mean Py.numbers Py.bind Py.total fold_left
         Num.add Num.zero Num.div_count length].
  unfold mret, result_ret. eexists _, _. split; [reflexivity|]. split; [reflexivity|].
  change (inject_Z (Z.of_nat 2)) with 2.
  assert (a <= a') by (rewrite Ha, Ha'; apply qclamp_monotone; lra).
  assert (b <= b') by (rewrite Hb, Hb'; apply qclamp_monotone; lra).
  apply Qle_shift_div_l; [reflexivity|]. field_simplify. lra.
Qed.

Lemma health_prefers_liquidity_witness :
  exists y y',
    _calculate_financial_health_score (VNum (Fin 0.8)) (VNum (Fin 1.5))
    = Ok (VNum (Fin y))
    /\ _calculate_financial_health_score (VNum (Fin 1.7)) (VNum (Fin 0))
       = Ok (VNum (Fin y'))
    /\ y <= y'.
Proof.
  apply (health_prefers_liquidity 0.8 1.7 1.5 0);
    vm_compute; first [reflexivity | discriminate].
Defined.

End Directions.
